(** * Grade-sheet analysis: statistics engine, ingestion and aggregation

    A shallow embedding of
    - [src/utils/statistics.ts] (module [Statistics]),
    - the record declarations of the data model (module [Types]),
    - [src/utils/dataProcessing.ts] (module [DataProcessing]),
    - [parseExcelFile] and [processFiles] of
      [src/components/RepeaterAnalysis.tsx] (module [Ingest]),
    - the other exports of [src/utils/dataProcessing.ts] (module
      [DataProcessingViews]) and the memos of the components that call
      them (modules [StudentTracking], [SubjectComparison], [App]),
    followed by the properties established about them.

    ECMAScript numbers are IEEE 754 binary64 values; they are embedded
    as Rocq's primitive [float], which is the same format with the same
    round-to-nearest-even arithmetic, so that [+], [-], [*], [/],
    [Math.sqrt] and the comparisons are those of the source.  Array
    lengths and indices are natural numbers, converted with [ofNat]
    where the source mixes them into floating-point arithmetic.
    Exceptions are values of a result type; the React state that
    [processFiles] sets and the deferred call of [onDataLoaded] are the
    [Outcome] it returns.  Built-ins whose definition lies outside the
    repository (string functions, [toFixed], [sort]) are parameters,
    with reference implementations to run the examples. *)

From Stdlib Require Import Reals Lra.
From Stdlib Require Import Floats ZArith List String Ascii Bool Lia.
From Stdlib Require Import DecimalString DecimalNat.
From stdpp Require Import list gmap strings.
Import ListNotations.

(** ** ECMAScript numbers *)

Module Js.

Abbreviation number := float.

(** An array length or index used as a number (exact below 2^53). *)
Definition ofNat (n : nat) : number :=
  PrimFloat.of_uint63 (Uint63.of_Z (Z.of_nat n)).

(** [isNaN v] for a value that is already a number. *)
Definition isNaN (v : number) : bool := PrimFloat.is_nan v.

(** [Number.isFinite(v)]: neither [NaN] nor an infinity. *)
Definition isFinite (v : number) : bool := PrimFloat.is_finite v.

(** [a >= b] and [a > b] on numbers. *)
Definition geb (a b : number) : bool := PrimFloat.leb b a.
Definition gtb (a b : number) : bool := PrimFloat.ltb b a.

(** [Math.pow(v, 2)]: the fdlibm-derived implementations used by the
    engines return [v * v] for the exponent 2. *)
Definition pow2 (v : number) : number := PrimFloat.mul v v.

(** Truthiness of a number: [0], [-0] and [NaN] are falsy. *)
Definition truthyNumber (v : number) : bool :=
  negb (PrimFloat.eqb v 0 || isNaN v).

(** [arr.reduce((acc, v, i) => f(acc, v, i), init)]. *)
Fixpoint reduceFrom {A B : Type} (f : B -> A -> nat -> B)
    (i : nat) (arr : list A) (acc : B) : B :=
  match arr with
  | [] => acc
  | v :: rest => reduceFrom f (S i) rest (f acc v i)
  end.
Definition reduce {A B : Type} (f : B -> A -> nat -> B)
    (arr : list A) (init : B) : B :=
  reduceFrom f 0 arr init.

End Js.

(** ** [src/utils/statistics.ts] *)

Module Statistics.
Import Js.
#[local] Open Scope float_scope.

Definition calculateAverage (data : list number) : number :=
  if (length data =? 0)%nat then 0
  else fold_left (fun sum value => sum + value) data 0 / ofNat (length data).

Definition calculatePassPercentage (data : list number) (threshold : number)
  : number :=
  if (length data =? 0)%nat then 0
  else
    let passed := length (List.filter (fun grade => geb grade threshold) data) in
    (ofNat passed / ofNat (length data)) * 100.

Definition calculateStandardDeviation (data : list number) : number :=
  if (length data =? 0)%nat then 0
  else
    let average := calculateAverage data in
    let variance :=
      fold_left (fun acc val => acc + pow2 (val - average)) data 0
      / ofNat (length data) in
    PrimFloat.sqrt variance.

(** The [frequency] object of [calculateMode].  Its property keys are
    the numbers converted to strings; two numbers give the same key
    exactly when they are equal as numbers ([0] and [-0] both give
    ["0"]) or are both [NaN].  The table is kept as a list of
    bindings, the most recent binding of a key first. *)
Definition sameKey (a b : number) : bool :=
  PrimFloat.eqb a b || (isNaN a && isNaN b).

Definition Frequency := list (number * nat).

(** [frequency[val] || 0] *)
Fixpoint freqGet (frequency : Frequency) (val : number) : nat :=
  match frequency with
  | [] => 0%nat
  | (k, c) :: rest => if sameKey k val then c else freqGet rest val
  end.

(** [frequency[val] = c] *)
Definition freqSet (frequency : Frequency) (val : number) (c : nat)
  : Frequency := (val, c) :: frequency.

Record ModeState := {
  frequency : Frequency;
  maxFreq : nat;
  mode : number
}.

(** The body of the [forEach] callback. *)
Definition modeStep (st : ModeState) (val : number) : ModeState :=
  let c := S (freqGet (frequency st) val) in
  let frequency' := freqSet (frequency st) val c in
  if (maxFreq st <? c)%nat
  then {| frequency := frequency'; maxFreq := c; mode := val |}
  else {| frequency := frequency'; maxFreq := maxFreq st; mode := mode st |}.

Definition calculateMode (data : list number) : number :=
  match data with
  | [] => 0
  | first :: _ =>
      mode (fold_left modeStep data
              {| frequency := []; maxFreq := 0%nat; mode := first |})
  end.

Definition calculateCV (average stdDev : number) : number :=
  if average =? 0 then 0 else (stdDev / average) * 100.

(** [y[i]] read as a number operand: an index past the end reads
    [undefined], which arithmetic turns into [NaN]. *)
Definition at_ (y : list number) (i : nat) : number := nth i y nan.

Definition sumSquaredDeviations (x : list number) (xBar : number) : number :=
  fold_left (fun sum xi => sum + pow2 (xi - xBar)) x 0.

Definition calculateCorrelation (x y : list number) : number :=
  let n := length x in
  if negb (n =? length y)%nat || (n =? 0)%nat then 0
  else
    let xBar := calculateAverage x in
    let yBar := calculateAverage y in
    let numerator :=
      reduce (fun sum xi i => sum + (xi - xBar) * (at_ y i - yBar)) x 0 in
    let denominatorX := PrimFloat.sqrt (sumSquaredDeviations x xBar) in
    let denominatorY := PrimFloat.sqrt (sumSquaredDeviations y yBar) in
    if (denominatorX =? 0) || (denominatorY =? 0) then 0
    else numerator / (denominatorX * denominatorY).

End Statistics.

(** ** The correlation formula in exact arithmetic

    [calculateAverage] and [calculateCorrelation] once more, over the
    real numbers: the same operations in the same order, none of them
    rounding.  ([y[i]] past the end does not occur behind the length
    test; it reads 0 here.) *)

Module Exact.
#[local] Open Scope R_scope.

Definition calculateAverage (data : list R) : R :=
  if (length data =? 0)%nat then 0
  else fold_left (fun sum value => sum + value) data 0 / INR (length data).

Definition sumSquaredDeviations (x : list R) (xBar : R) : R :=
  fold_left (fun sum xi => sum + (xi - xBar) * (xi - xBar)) x 0.

(** [v === 0] *)
Definition isZero (v : R) : bool := if Req_dec_T v 0 then true else false.

Definition calculateCorrelation (x y : list R) : R :=
  let n := length x in
  if (negb (n =? length y)%nat || (n =? 0)%nat)%bool then 0
  else
    let xBar := calculateAverage x in
    let yBar := calculateAverage y in
    let numerator :=
      Js.reduce (fun sum xi i => sum + (xi - xBar) * (nth i y 0 - yBar)) x 0 in
    let denominatorX := R_sqrt.sqrt (sumSquaredDeviations x xBar) in
    let denominatorY := R_sqrt.sqrt (sumSquaredDeviations y yBar) in
    if (isZero denominatorX || isZero denominatorY)%bool then 0
    else numerator / (denominatorX * denominatorY).

End Exact.

(** ** The data model (record declarations of the repository) *)

Module Types.
Import Js.

(** A dynamically typed spreadsheet value: absent, text or number.  A
    row is an array that may have holes; [Empty] is a hole of the row,
    and what reading an index without an element gives ([undefined]).
    Fields that the ingestion fills straight from a sheet row ([name],
    [gender]) carry such a value. *)
Inductive Cell :=
| Empty
| Text (s : string)
| Number (v : number).

(** Whether the array has an element at this place: [forEach] and
    [filter] call back on elements only, never on a hole. *)
Definition present (c : Cell) : bool :=
  match c with
  | Empty => false
  | _ => true
  end.

(** Truthiness: absent cells, the empty text, [0], [-0] and [NaN] are
    falsy. *)
Definition truthy (c : Cell) : bool :=
  match c with
  | Empty => false
  | Text s => negb (String.eqb s EmptyString)
  | Number v => truthyNumber v
  end.

(** [c === 'literal'] *)
Definition isText (c : Cell) (literal : string) : bool :=
  match c with
  | Text s => String.eqb s literal
  | _ => false
  end.

Record Student := {
  id : string;
  name : Cell;
  gender : Cell;
  grades : gmap string number;
  semesterAverage : number;
  originalRow : list Cell;
  isRepeater : bool;
  sourceClass : option string
}.

Record ClassMetadata := {
  schoolYear : string;
  semester : string;
  className : string;
  level : string;
  stream : string;
  classNumber : string;
  directorate : string;
  schoolName : string;
  isAggregated : option bool
}.

Record SubjectStats := {
  subject : string;
  average : number;
  passPercentage : number;
  stdDev : number;
  cv : number;
  mode : number;
  countAbove15 : nat;
  count10to14 : nat;
  count8to9 : nat;
  countBelow8 : nat;
  countAbove10 : nat;
  comparison : string
}.

Record GlobalStats := {
  totalStudents : nat;
  totalFemales : nat;
  amazighStudents : nat;
  artStudents : nat;
  musicStudents : nat;
  successfulStudents : nat;
  successfulFemales : nat;
  successfulMales : nat;
  overallSuccessRate : number;
  femaleSuccessRate : number;
  maleSuccessRate : number
}.

End Types.

(** ** [src/utils/dataProcessing.ts] *)

Module DataProcessing.
Import Js Types.
#[local] Open Scope float_scope.

(** An array as the caller holds it: [ident] is the identity of the
    object (what [===] compares), [elems] its current contents.  Two
    values with one [ident] and different [elems] are one array observed
    before and after an in-place change. *)
Record Array (A : Type) := { ident : nat; elems : list A }.
Arguments ident {A} _.
Arguments elems {A} _.

(** The closure state of [memoize]: [lastArgs] (identities of the
    arguments of the last computing call) and [lastResult]; [None] before
    the first call. *)
Record Slot (T : Type) := { lastArgs : list nat; lastResult : T }.
Arguments lastArgs {T} _.
Arguments lastResult {T} _.

(** [memoize(fn)] applied to [args]: the cached result when every
    argument is identical to the cached one, position by position, and
    the argument counts agree; otherwise [fn] is run and the slot
    replaced.  [refs] lists the identities of the arguments. *)
Definition memoize {Args T : Type} (refs : Args -> list nat) (fn : Args -> T)
    (cache : option (Slot T)) (args : Args) : T * option (Slot T) :=
  let miss :=
    let result := fn args in
    (result, Some {| lastArgs := refs args; lastResult := result |}) in
  match cache with
  | Some slot =>
      if bool_decide (refs args = lastArgs slot)
      then (lastResult slot, cache)
      else miss
  | None => miss
  end.

Definition FEMALE : string := "أنثى".
Definition MALE : string := "ذكر".

(** [students.map(s => s.grades[subject]).filter(g => typeof g === 'number')] *)
Definition gradesOf (students : list Student) (subject : string)
  : list number :=
  omap (fun s => grades s !! subject) students.

Definition count (p : number -> bool) (grades : list number) : nat :=
  length (List.filter p grades).

Definition subjectAnalysis (students : list Student) (subjects : list string)
  : list SubjectStats :=
  let globalAverage :=
    Statistics.calculateAverage (map semesterAverage students) in
  map (fun subject =>
    let grades := gradesOf students subject in
    let average := Statistics.calculateAverage grades in
    let stdDev := Statistics.calculateStandardDeviation grades in
    {| subject := subject;
       average := average;
       passPercentage := Statistics.calculatePassPercentage grades 10;
       stdDev := stdDev;
       cv := Statistics.calculateCV average stdDev;
       mode := Statistics.calculateMode grades;
       countAbove15 := count (fun g => geb g 15) grades;
       count10to14 := count (fun g => geb g 10 && (g <? 15)) grades;
       count8to9 := count (fun g => geb g 8 && (g <? 10)) grades;
       countBelow8 := count (fun g => g <? 8) grades;
       countAbove10 := count (fun g => geb g 10) grades;
       comparison :=
         if gtb average globalAverage then "أعلى من المعدل العام"
         else if average <? globalAverage then "أقل من المعدل العام"
         else "مساوي للمعدل العام" |}) subjects.

Definition distributionStats (students : list Student)
    (subjects : list string) : list SubjectStats :=
  map (fun subject =>
    let grades := gradesOf students subject in
    {| subject := subject;
       average := Statistics.calculateAverage grades;
       passPercentage := Statistics.calculatePassPercentage grades 10;
       stdDev := 0; cv := 0; mode := 0; comparison := EmptyString;
       countAbove15 := count (fun g => geb g 15) grades;
       count10to14 := count (fun g => geb g 10 && (g <? 15)) grades;
       count8to9 := count (fun g => geb g 8 && (g <? 10)) grades;
       countBelow8 := count (fun g => g <? 8) grades;
       countAbove10 := count (fun g => geb g 10) grades |}) subjects.

(** [totalStudents - totalFemales], the local [totalMales] of
    [getCategoryGlobalStats]. *)
Definition totalMales (students : list Student) : nat :=
  length students
  - length (List.filter (fun s => isText (gender s) FEMALE) students).

Definition categoryGlobalStats (students : list Student) : GlobalStats :=
  let totalStudents := length students in
  let totalFemales :=
    length (List.filter (fun s => isText (gender s) FEMALE) students) in
  let successfulStudents :=
    length (List.filter (fun s => geb (semesterAverage s) 10) students) in
  let successfulFemales :=
    length (List.filter
      (fun s => geb (semesterAverage s) 10 && isText (gender s) FEMALE)
      students) in
  let successfulMales :=
    length (List.filter
      (fun s => geb (semesterAverage s) 10 && isText (gender s) MALE)
      students) in
  let totalMales := totalMales students in
  {| totalStudents := totalStudents;
     totalFemales := totalFemales;
     amazighStudents := 0;
     artStudents := 0;
     musicStudents := 0;
     successfulStudents := successfulStudents;
     successfulFemales := successfulFemales;
     successfulMales := successfulMales;
     overallSuccessRate :=
       if (totalStudents =? 0)%nat then 0
       else (ofNat successfulStudents / ofNat totalStudents) * 100;
     femaleSuccessRate :=
       if (totalFemales =? 0)%nat then 0
       else (ofNat successfulFemales / ofNat totalFemales) * 100;
     maleSuccessRate :=
       if (totalMales =? 0)%nat then 0
       else (ofNat successfulMales / ofNat totalMales) * 100 |}.

(** The exported, memoized functions.  Each owns one cache slot, threaded
    explicitly: a call takes the slot and returns the result with the
    slot as the call leaves it. *)

(** Identities of the arguments [(students, subjects)]. *)
Definition pairRefs (args : Array Student * Array string) : list nat :=
  [ident (fst args); ident (snd args)].

Definition subjectAnalysisOf (args : Array Student * Array string)
  : list SubjectStats :=
  subjectAnalysis (elems (fst args)) (elems (snd args)).

Definition distributionStatsOf (args : Array Student * Array string)
  : list SubjectStats :=
  distributionStats (elems (fst args)) (elems (snd args)).

Definition studentsRef (students : Array Student) : list nat :=
  [ident students].

Definition categoryGlobalStatsOf (students : Array Student) : GlobalStats :=
  categoryGlobalStats (elems students).

Definition getSubjectAnalysis := memoize pairRefs subjectAnalysisOf.

Definition getDistributionStats := memoize pairRefs distributionStatsOf.

Definition getCategoryGlobalStats := memoize studentsRef categoryGlobalStatsOf.

End DataProcessing.

(** ** [parseExcelFile] and [processFiles] of
       [src/components/RepeaterAnalysis.tsx] *)

Module Ingest.
Import Js Types.

(** *** Built-ins *)

(** The ECMAScript built-ins the ingestion calls on strings and numbers.
    Their definitions lie outside the repository; the ingestion is
    embedded over any implementation of them. *)
Class Builtins := {
  (** [String(v)] for a number [v] (also inside [join] and property
      keys). *)
  numberToString : number -> string;
  (** the global [parseFloat] *)
  parseFloat : string -> number;
  (** [s.toLowerCase()] *)
  toLowerCase : string -> string;
  (** [s.trim()] *)
  trim : string -> string;
  (** [s.replace(/\s+/g, ' ')] *)
  collapseWhitespace : string -> string
}.

(** A non-negative integer inside a template literal. *)
Definition natToString (n : nat) : string :=
  NilEmpty.string_of_uint (Nat.to_uint n).

(** [parts.join(sep)] on strings. *)
Definition join (sep : string) (parts : list string) : string :=
  String.concat sep parts.

(** [s.includes(sub)] *)
Fixpoint includes (s sub : string) : bool :=
  String.prefix sub s ||
  match s with
  | EmptyString => false
  | String _ rest => includes rest sub
  end.

(** [s.split(sep)] for a one-character separator. *)
Fixpoint split (sep : ascii) (s : string) : list string :=
  match s with
  | EmptyString => [EmptyString]
  | String c rest =>
      if Ascii.eqb c sep then EmptyString :: split sep rest
      else match split sep rest with
           | w :: ws => String c w :: ws
           | [] => [String c EmptyString]
           end
  end.

(** [s.replace(',', '.')]: the first comma only. *)
Fixpoint replaceComma (s : string) : string :=
  match s with
  | EmptyString => EmptyString
  | String c rest =>
      if Ascii.eqb c ","%char then String "."%char rest
      else String c (replaceComma rest)
  end.

Section WithBuiltins.
Context {B : Builtins}.

(** How [Array.prototype.join] renders an element: absent as the empty
    string. *)
Definition joinItem (c : Cell) : string :=
  match c with
  | Empty => EmptyString
  | Text s => s
  | Number v => numberToString v
  end.

(** [row.join(' ')] *)
Definition joinRow (row : list Cell) : string :=
  join " " (map joinItem row).

(** The property key a header cell gives, [grades[subj]].  A hole of
    the header row gives none: no callback runs for it, so that no
    property is written or read on its account. *)
Definition propertyKey (c : Cell) : option string :=
  match c with
  | Empty => None
  | Text s => Some s
  | Number v => Some (numberToString v)
  end.

(** The key of the prototype accessor of an object. *)
Definition PROTO : string := "__proto__".

(** [grades[key] = numVal] on the object literal [{}]: an own property
    is written, except under [__proto__], where the assignment goes to
    the accessor inherited from [Object.prototype], which ignores a
    number and leaves the object unchanged. *)
Definition setProperty (key : string) (numVal : number)
    (grades : gmap string number) : gmap string number :=
  if String.eqb key PROTO then grades else <[key := numVal]> grades.

(** *** Results and errors *)

Record ParseResult := {
  students : list Student;
  subjects : list Cell;
  metadata : ClassMetadata
}.

Inductive IngestError :=
| EmptyInput
| InsufficientData
| UnsupportedHeader
| ReadFailure
| WorkbookFailure (text : string)
| LevelMismatch (fileName fileLevel firstLevel : string)
| StreamMismatch (fileName fileStream firstStream : string)
| NoValidData
| TooManyFiles.

(** The two errors the specification calls MetadataMismatch. *)
Definition isMetadataMismatch (e : IngestError) : bool :=
  match e with
  | LevelMismatch _ _ _ | StreamMismatch _ _ _ => true
  | _ => false
  end.

Definition quote : string := String (Ascii.ascii_of_nat 34) EmptyString.

(** The text of each [new Error(...)] and [setError(...)]; an error
    thrown by the spreadsheet library carries the library's own text
    (were it empty, [setError] would show a fixed text in its place). *)
Definition message (e : IngestError) : string :=
  match e with
  | EmptyInput => "الملف فارغ."
  | InsufficientData => "الملف لا يحتوي على بيانات كافية."
  | UnsupportedHeader => "تنسيق الملف غير مدعوم."
  | ReadFailure => "Failed to read file"
  | WorkbookFailure text => text
  | LevelMismatch fileName fileLevel firstLevel =>
      "خطأ: الملف " ++ quote ++ fileName ++ quote
      ++ " يختلف في المستوى الدراسي (" ++ fileLevel
      ++ ") عن الملف الأول (" ++ firstLevel
      ++ "). يجب تحميل ملفات لنفس المستوى."
  | StreamMismatch fileName fileStream firstStream =>
      "خطأ: الملف " ++ quote ++ fileName ++ quote
      ++ " يختلف في الشعبة (" ++ fileStream
      ++ ") عن الملف الأول (" ++ firstStream
      ++ "). يجب تحميل ملفات لنفس الشعبة."
  | NoValidData => "لم يتم استخراج بيانات صالحة."
  | TooManyFiles =>
      "لقد اخترت 'تحليل قسم واحد'، يرجى رفع ملف واحد فقط أو التبديل للوضع المتعدد."
  end.

Inductive Result (A : Type) :=
| Ok (a : A)
| Err (e : IngestError).
Arguments Ok {A} _.
Arguments Err {A} _.

(** *** Metadata extraction *)

Definition emptyMetadata : ClassMetadata :=
  {| schoolYear := EmptyString; semester := EmptyString;
     className := EmptyString; level := EmptyString;
     stream := EmptyString; classNumber := EmptyString;
     directorate := EmptyString; schoolName := EmptyString;
     isAggregated := None |}.

(** [row.join(' ').replace(/\s+/g, ' ').trim()] *)
Definition rowText (row : list Cell) : string :=
  trim (collapseWhitespace (joinRow row)).

(** [words[i] || ''] *)
Definition word (words : list string) (i : nat) : string :=
  nth i words EmptyString.

(** The fields read off the class line ([rawData[4]]). *)
Definition classLine (row5 : list Cell) (metadata : ClassMetadata)
  : ClassMetadata :=
  let fullText := rowText (List.filter truthy row5) in
  let words := split " "%char fullText in
  if (7 <=? length words)%nat then
    let level := trim (word words 5 ++ " " ++ word words 6) in
    let classNum := word words (length words - 1) in
    let stream :=
      if (8 <? length words)%nat
      then trim (join " " (take (length words - 1 - 7) (drop 7 words)))
      else EmptyString in
    {| schoolYear := trim (word words 4);
       semester := trim (word words 2 ++ " " ++ word words 3);
       className :=
         trim (collapseWhitespace (level ++ " " ++ stream ++ " " ++ classNum));
       level := level;
       stream := stream;
       classNumber := classNum;
       directorate := directorate metadata;
       schoolName := schoolName metadata;
       isAggregated := isAggregated metadata |}
  else metadata.

Definition extractMetadata (rawData : list (list Cell)) : ClassMetadata :=
  let m0 := emptyMetadata in
  let m1 :=
    match rawData !! 2 with
    | Some row3 =>
        {| schoolYear := schoolYear m0; semester := semester m0;
           className := className m0; level := level m0;
           stream := stream m0; classNumber := classNumber m0;
           directorate := rowText row3;
           schoolName := schoolName m0; isAggregated := isAggregated m0 |}
    | None => m0
    end in
  let m2 :=
    match rawData !! 3 with
    | Some row4 =>
        {| schoolYear := schoolYear m1; semester := semester m1;
           className := className m1; level := level m1;
           stream := stream m1; classNumber := classNumber m1;
           directorate := directorate m1;
           schoolName := rowText row4; isAggregated := isAggregated m1 |}
    | None => m1
    end in
  match rawData !! 4 with
  | Some row5 => classLine row5 m2
  | None => m2
  end.

(** *** Header-row detection *)

Definition hasNameKeyword (row : list Cell) : bool :=
  let rowString := toLowerCase (joinRow (take 10 row)) in
  includes rowString "الاسم" || includes rowString "اللقب"
  || includes rowString "nom" || includes rowString "prénom".

(** The [for] loop: the first index [i] at which the keyword test
    holds. *)
Fixpoint findHeader (i : nat) (rows : list (list Cell)) : option nat :=
  match rows with
  | [] => None
  | row :: rest => if hasNameKeyword row then Some i else findHeader (S i) rest
  end.

Definition isString (c : Cell) : bool :=
  match c with Text _ => true | _ => false end.

Definition headerRowIndex (rawData : list (list Cell)) : nat :=
  match findHeader 0 (take 20 rawData) with
  | Some i => i
  | None =>
      match rawData !! 5 with
      | Some row => if existsb isString row then 5 else 0
      | None => 0
      end
  end.

(** *** Trailing-row pruning *)

(** [row.every(cell => !cell)] *)
Definition isBlankRow (row : list Cell) : bool :=
  forallb (fun c => negb (truthy c)) row.

Fixpoint dropWhile {A : Type} (p : A -> bool) (l : list A) : list A :=
  match l with
  | [] => []
  | x :: rest => if p x then dropWhile p rest else l
  end.

(** The [while] loop popping blank rows off the end. *)
Definition popBlankRows (jsonData : list (list Cell)) : list (list Cell) :=
  rev (dropWhile isBlankRow (rev jsonData)).

(** [if (jsonData.length > 1) jsonData.pop()]: both branches of the inner
    test on [lastRow[1]] pop. *)
Definition popSummaryRow (jsonData : list (list Cell)) : list (list Cell) :=
  if (1 <? length jsonData)%nat then removelast jsonData else jsonData.

Definition pruneTrailing (jsonData : list (list Cell)) : list (list Cell) :=
  popSummaryRow (popBlankRows jsonData).

(** *** Student records *)

(** Coercion of a grade cell: text goes through [parseFloat] with its
    first comma turned into a dot, a number is taken as it is; the result
    counts when it is a number other than [NaN]. *)
Definition coerce (val : Cell) : option number :=
  let numVal :=
    match val with
    | Text s => Number (parseFloat (replaceComma s))
    | other => other
    end in
  match numVal with
  | Number v => if isNaN v then None else Some v
  | _ => None
  end.

(** [arr[i]] on cells; past the end it is absent. *)
Definition cellAt (row : list Cell) (i : nat) : Cell := nth i row Empty.

(** The [subjects.forEach] loop filling [grades], an object used as a
    map from property keys to numbers.  The callback runs for the
    elements of [subjects], each with its own index, and not for the
    holes. *)
Definition collectGrades (subjects gradesData : list Cell)
  : gmap string number :=
  reduce (fun (grades : gmap string number) subj i =>
            match propertyKey subj with
            | Some key =>
                match coerce (cellAt gradesData i) with
                | Some numVal => setProperty key numVal grades
                | None => grades
                end
            | None => grades
            end)
         subjects ∅.

Definition averageOf (gradesData : list Cell) : number :=
  if (0 <? length gradesData)%nat then
    match coerce (cellAt gradesData (length gradesData - 1)) with
    | Some numAvg => numAvg
    | None => 0%float
    end
  else 0%float.

Definition UNSPECIFIED : string := "غير محدد".
Definition YES : string := "نعم".

(** [String(repeaterVal || '')] *)
Definition repeaterText (repeaterVal : Cell) : string :=
  if truthy repeaterVal then joinItem repeaterVal else EmptyString.

(** The callback of [jsonData.slice(1).map]; [None] is its [null]. *)
Definition buildStudent (subjects : list Cell) (metadata : ClassMetadata)
    (index : nat) (row : list Cell) : option Student :=
  let name := cellAt row 1 in
  if negb (truthy name) then None
  else
    let gender :=
      if truthy (cellAt row 3) then cellAt row 3 else Text UNSPECIFIED in
    let repeaterVal := cellAt row 4 in
    let isRepeater := String.eqb (trim (repeaterText repeaterVal)) YES in
    let gradesData := drop 5 row in
    Some {| id := "temp-" ++ natToString index;
            name := name;
            gender := gender;
            grades := collectGrades subjects gradesData;
            semesterAverage := averageOf gradesData;
            originalRow := row;
            isRepeater := isRepeater;
            sourceClass := Some (classNumber metadata) |}.

(** Candidate subjects: header cells from index 5 on, without the
    last. *)
Definition candidateSubjects (headerRow : list Cell) : list Cell :=
  if (5 <? length headerRow)%nat then
    let rawColumns := drop 5 headerRow in
    if (0 <? length rawColumns)%nat then removelast rawColumns else []
  else [].

(** [typeof grade === 'number' && grade > 0] for [s.grades[subject]],
    the callback of [students.some].  What an object inherits, under
    [__proto__] or any other key, is not a number. *)
Definition hasPositiveGrade (subject : Cell) (s : Student) : bool :=
  match propertyKey subject with
  | Some key =>
      match grades s !! key with
      | Some grade => gtb grade 0
      | None => false
      end
  | None => false
  end.

(** *** [parseExcelFile] *)

(** What reading a file comes to: the [FileReader] fails ([onerror]);
    or it loads the bytes and the spreadsheet library throws while
    decoding them ([XLSX.read] or [sheet_to_json], inside the [try]
    block), with an error text of its own; or the library gives the
    rows of the first sheet
    ([XLSX.utils.sheet_to_json(sheet, {header: 1})], declared
    [any[][]]: every row is an array, possibly empty or with holes). *)
Inductive Reading :=
| ReaderError
| LibraryError (text : string)
| Rows (rawData : list (list Cell)).

(** A file: its name and what reading it comes to. *)
Record File := {
  fileName : string;
  reading : Reading
}.

(** The rows of the first sheet, when the file is read and decoded. *)
Definition sheet (file : File) : option (list (list Cell)) :=
  match reading file with
  | Rows rawData => Some rawData
  | _ => None
  end.

Definition parseRows (rawData : list (list Cell)) : Result ParseResult :=
  if (length rawData =? 0)%nat then Err EmptyInput
  else
    let metadata := extractMetadata rawData in
    let jsonData := pruneTrailing (drop (headerRowIndex rawData) rawData) in
    if (length jsonData <? 1)%nat then Err InsufficientData
    else
      match jsonData with
      | [] => Err UnsupportedHeader
      | headerRow :: body =>
          if (length headerRow <? 3)%nat then Err UnsupportedHeader
          else
            let subjects := candidateSubjects headerRow in
            let students :=
              omap (fun built => built)
                (imap (buildStudent subjects metadata) body) in
            let activeSubjects :=
              List.filter
                (fun subject =>
                   present subject
                   && existsb (hasPositiveGrade subject) students)
                subjects in
            Ok {| students := students;
                  subjects := activeSubjects;
                  metadata := metadata |}
      end.

Definition parseExcelFile (file : File) : Result ParseResult :=
  match reading file with
  | ReaderError => Err ReadFailure
  | LibraryError text => Err (WorkbookFailure text)
  | Rows rawData => parseRows rawData
  end.

(** *** [processFiles] *)

Inductive UploadMode := single | multi.

(** What a call of [processFiles] leaves behind: nothing, an error
    shown, or a success message with the data handed to
    [onDataLoaded]. *)
Inductive Outcome :=
| Ignored
| Failed (error : IngestError)
| Delivered (successText : string) (students : list Student)
    (subjects : list Cell) (metadata : ClassMetadata).

Definition withId (newId : string) (newSourceClass : option string)
    (s : Student) : Student :=
  {| id := newId; name := name s; gender := gender s; grades := grades s;
     semesterAverage := semesterAverage s; originalRow := originalRow s;
     isRepeater := isRepeater s; sourceClass := newSourceClass |}.

(** The local variables of the multi-file branch. *)
Record MultiState := {
  combinedStudents : list Student;
  masterSubjects : list Cell;
  masterMetadata : option ClassMetadata;
  processedCount : nat
}.

(** [`f${fileIndex}-s${i}`] *)
Definition compositeId (fileIndex i : nat) : string :=
  "f" ++ natToString fileIndex ++ "-s" ++ natToString i.

(** One turn of the [for ... of fileArray.entries()] loop. *)
Definition mergeFile (fileIndex : nat) (file : File) (st : MultiState)
  : Result MultiState :=
  match parseExcelFile file with
  | Err e => Err e
  | Ok result =>
      let checked : Result (list Cell * ClassMetadata) :=
        match masterMetadata st with
        | Some master =>
            if negb (String.eqb (level (metadata result)) (level master))
            then Err (LevelMismatch (fileName file)
                        (level (metadata result)) (level master))
            else if negb (String.eqb (stream (metadata result)) (stream master))
            then Err (StreamMismatch (fileName file)
                        (stream (metadata result)) (stream master))
            else Ok (masterSubjects st, master)
        | None => Ok (subjects result, metadata result)
        end in
      match checked with
      | Err e => Err e
      | Ok (masterSubjects', master') =>
          let sourceClass :=
            if String.eqb (classNumber (metadata result)) EmptyString
            then "?" else classNumber (metadata result) in
          let studentsWithIds :=
            imap (fun i s => withId (compositeId fileIndex i)
                               (Some sourceClass) s)
                 (students result) in
          Ok {| combinedStudents := combinedStudents st ++ studentsWithIds;
                masterSubjects := masterSubjects';
                masterMetadata := Some master';
                processedCount := S (processedCount st) |}
      end
  end.

Fixpoint mergeFiles (fileIndex : nat) (files : list File) (st : MultiState)
  : Result MultiState :=
  match files with
  | [] => Ok st
  | file :: rest =>
      match mergeFile fileIndex file st with
      | Err e => Err e
      | Ok st' => mergeFiles (S fileIndex) rest st'
      end
  end.

Definition ALL_CLASSES : string := "كل الأقسام".

Definition aggregate (master : ClassMetadata) : ClassMetadata :=
  {| schoolYear := schoolYear master; semester := semester master;
     className := level master ++ " " ++ stream master ++ " (مجمع)";
     level := level master; stream := stream master;
     classNumber := ALL_CLASSES;
     directorate := directorate master; schoolName := schoolName master;
     isAggregated := Some true |}.

Definition processFiles (uploadMode : UploadMode) (fileArray : list File)
  : Outcome :=
  match fileArray with
  | [] => Ignored
  | first :: others =>
      match uploadMode with
      | single =>
          if (1 <? length fileArray)%nat then Failed TooManyFiles
          else
            match parseExcelFile first with
            | Err e => Failed e
            | Ok result =>
                let finalStudents :=
                  imap (fun i s => withId ("student-" ++ natToString i)
                                     (sourceClass s) s)
                       (students result) in
                Delivered
                  ("تم تحميل الملف بنجاح! ("
                   ++ natToString (length finalStudents) ++ " تلميذ)")
                  finalStudents (subjects result) (metadata result)
            end
      | multi =>
          match mergeFiles 0 fileArray
                  {| combinedStudents := []; masterSubjects := [];
                     masterMetadata := None; processedCount := 0 |} with
          | Err e => Failed e
          | Ok st =>
              match masterMetadata st with
              | None => Failed NoValidData
              | Some master =>
                  Delivered
                    ("تم دمج " ++ natToString (processedCount st)
                     ++ " ملفات بنجاح! (الإجمالي: "
                     ++ natToString (length (combinedStudents st))
                     ++ " تلميذ)")
                    (combinedStudents st) (masterSubjects st)
                    (aggregate master)
              end
          end
      end
  end.

(** *** Observations of outcomes *)

Definition isOk {A : Type} (r : Result A) : bool :=
  match r with Ok _ => true | Err _ => false end.

Definition studentsOf (file : File) : list Student :=
  match parseExcelFile file with
  | Ok r => students r
  | Err _ => []
  end.

Definition metadataOf (file : File) : ClassMetadata :=
  match parseExcelFile file with
  | Ok r => metadata r
  | Err _ => emptyMetadata
  end.

(** The students handed to [onDataLoaded], none when it is not called. *)
Definition delivered (o : Outcome) : list Student :=
  match o with
  | Delivered _ students _ _ => students
  | _ => []
  end.

End WithBuiltins.

Arguments Ok {A} _.
Arguments Err {A} _.

End Ingest.

(** ** A reference implementation of the built-ins

    Used to run the ingestion on concrete sheets.  It is exact on the
    inputs of the examples below: text made of ASCII and caseless
    (Arabic) letters with ASCII white space, decimal numerals of at most
    15 significant digits with a decimal exponent of magnitude at most
    22, and, for [numberToString], zeros, [NaN], the infinities, integers
    of magnitude below 2^53 and binary fractions such as 12.5 whose
    shortest decimal form is their exact value. *)

Module Reference.
Import Js Types.

Definition isSpace (c : ascii) : bool :=
  let n := nat_of_ascii c in ((9 <=? n) && (n <=? 13) || (n =? 32))%nat.

Definition lowerChar (c : ascii) : ascii :=
  let n := nat_of_ascii c in
  if ((65 <=? n) && (n <=? 90))%nat then ascii_of_nat (n + 32) else c.

Fixpoint mapChars (f : ascii -> ascii) (s : string) : string :=
  match s with
  | EmptyString => EmptyString
  | String c rest => String (f c) (mapChars f rest)
  end.

Fixpoint trimStart (s : string) : string :=
  match s with
  | String c rest => if isSpace c then trimStart rest else s
  | EmptyString => EmptyString
  end.

Fixpoint reverse (acc s : string) : string :=
  match s with
  | EmptyString => acc
  | String c rest => reverse (String c acc) rest
  end.

Definition trimBoth (s : string) : string :=
  reverse EmptyString (trimStart (reverse EmptyString (trimStart s))).

(** Runs of white space become one space; [inRun] tells whether the
    previous character was white space. *)
Fixpoint collapse (inRun : bool) (s : string) : string :=
  match s with
  | EmptyString => EmptyString
  | String c rest =>
      if isSpace c
      then if inRun then collapse true rest
           else String " "%char (collapse true rest)
      else String c (collapse false rest)
  end.

Definition digitOf (c : ascii) : option Z :=
  let n := nat_of_ascii c in
  if ((48 <=? n) && (n <=? 57))%nat then Some (Z.of_nat (n - 48)) else None.

(** Reads a run of decimal digits: the number read so far, the count of
    digits, and the rest of the text. *)
Fixpoint readDigits (acc : Z) (count : nat) (s : string) : Z * nat * string :=
  match s with
  | String c rest =>
      match digitOf c with
      | Some d => readDigits (acc * 10 + d) (S count) rest
      | None => (acc, count, s)
      end
  | EmptyString => (acc, count, s)
  end.

Definition readSign (s : string) : bool * string :=
  match s with
  | String "-"%char rest => (true, rest)
  | String "+"%char rest => (false, rest)
  | _ => (false, s)
  end.

Fixpoint pow10 (k : nat) : number :=
  match k with
  | O => 1%float
  | S k' => (pow10 k' * 10)%float
  end.

Definition ofZ (z : Z) : number :=
  if (z <? 0)%Z then (- PrimFloat.of_uint63 (Uint63.of_Z (- z)))%float
  else PrimFloat.of_uint63 (Uint63.of_Z z).

Definition scale (mantissa exponent : Z) : number :=
  if (exponent <? 0)%Z
  then (ofZ mantissa / pow10 (Z.to_nat (- exponent)))%float
  else (ofZ mantissa * pow10 (Z.to_nat exponent))%float.

(** The exponent part, if a well-formed one follows. *)
Definition readExponent (s : string) : Z :=
  match s with
  | String c rest =>
      if (Ascii.eqb c "e"%char || Ascii.eqb c "E"%char)%bool then
        let '(negative, rest') := readSign rest in
        let '(e, count, _) := readDigits 0 0 rest' in
        if (count =? 0)%nat then 0%Z else if negative then (- e)%Z else e
      else 0%Z
  | EmptyString => 0%Z
  end.

Definition parseDecimal (s : string) : number :=
  let '(negative, s1) := readSign (trimStart s) in
  let signed (v : number) := if negative then (- v)%float else v in
  if String.prefix "Infinity" s1 then signed infinity
  else
    let '(whole, wholeCount, s2) := readDigits 0 0 s1 in
    let '(mantissa, fracCount, s3) :=
      match s2 with
      | String "."%char rest =>
          let '(m, total, rest') := readDigits whole 0 rest in (m, total, rest')
      | _ => (whole, O, s2)
      end in
    if ((wholeCount + fracCount)%nat =? 0)%nat then nan
    else signed (scale mantissa (readExponent s3 - Z.of_nat fracCount)).

Definition digitsOfN (n : N) : string :=
  NilZero.string_of_uint (N.to_uint n).

Fixpoint stripTrailingZeros (reversed : string) : string :=
  match reversed with
  | String "0"%char rest => stripTrailingZeros rest
  | _ => reversed
  end.

Fixpoint zeros (k : nat) : string :=
  match k with
  | O => EmptyString
  | S k' => String "0"%char (zeros k')
  end.

(** The exact decimal expansion of [m * 2^e]. *)
Definition expand (m : positive) (e : Z) : string :=
  if (0 <=? e)%Z then digitsOfN (N.pos m * 2 ^ Z.to_N e)
  else
    let places := Z.to_nat (- e) in
    let digits := digitsOfN (N.pos m * 5 ^ N.of_nat places) in
    let padded := (zeros (S places - String.length digits) ++ digits)%string in
    let split := String.length padded - places in
    let whole := String.substring 0 split padded in
    let frac :=
      reverse EmptyString
        (stripTrailingZeros
           (reverse EmptyString (String.substring split places padded))) in
    match frac with
    | EmptyString => whole
    | _ => (whole ++ "." ++ frac)%string
    end.

Definition renderNumber (v : number) : string :=
  match Prim2SF v with
  | S754_nan => "NaN"
  | S754_infinity negative => if negative then "-Infinity" else "Infinity"
  | S754_zero _ => "0"
  | S754_finite negative m e =>
      ((if negative then "-" else EmptyString) ++ expand m e)%string
  end.

#[export] Instance builtins : Ingest.Builtins := {|
  Ingest.numberToString := renderNumber;
  Ingest.parseFloat := parseDecimal;
  Ingest.toLowerCase := mapChars lowerChar;
  Ingest.trim := trimBoth;
  Ingest.collapseWhitespace := collapse false
|}.

End Reference.

(** ** Sample sheets *)

Module Examples.
Import Js Types Ingest Reference.

Definition headerRow : list Cell :=
  [Text "الرقم"; Text "الاسم واللقب"; Text "تاريخ الميلاد"; Text "الجنس";
   Text "الإعادة"; Text "الرياضيات"; Text "الفيزياء"; Text "المعدل"].

Definition summaryRow : list Cell :=
  [Empty; Text "معدل القسم"; Empty; Empty; Empty;
   Number 11%float; Number 10.5%float; Number 10.75%float].

(** The five rows above the header of a class sheet; [classLine] is the
    text of the fifth. *)
Definition preamble (classLine : string) : list (list Cell) :=
  [ [Text "الجمهورية الجزائرية"];
    [];
    [Text "مديرية التربية لولاية وهران"];
    [Text "ثانوية  ابن خلدون"];
    [Text classLine] ].

Definition firstYearClass1 : list (list Cell) :=
  preamble "كشف نقاط الفصل الأول 2023/2024 السنة الأولى جذع مشترك علوم 1"
  ++ [ headerRow;
       [Number 1%float; Text "أحمد"; Text "2008"; Text "ذكر"; Text "لا";
        Number 12.5%float; Text "9,75"; Number 11%float];
       [Number 2%float; Text "سارة"; Text "2008"; Text "أنثى"; Text "نعم";
        Text "14"; Number 15%float; Number 14.5%float];
       summaryRow;
       [];
       [Empty; Text EmptyString] ].

Definition firstYearClass2 : list (list Cell) :=
  preamble "كشف نقاط الفصل الأول 2023/2024 السنة الأولى جذع مشترك علوم 2"
  ++ [ headerRow;
       [Number 1%float; Text "ليلى"; Text "2008"; Text "أنثى"; Text "لا";
        Number 8%float; Number 7.5%float; Number 7.75%float];
       summaryRow ].

Definition secondYearClass1 : list (list Cell) :=
  preamble "كشف نقاط الفصل الأول 2023/2024 السنة الثانية علوم تجريبية 1"
  ++ [ headerRow;
       [Number 1%float; Text "كريم"; Text "2007"; Text "ذكر"; Text "لا";
        Number 10%float; Number 13%float; Number 11.5%float];
       summaryRow ].

Definition fileA : File :=
  {| fileName := "1AS-1.xlsx"; reading := Rows firstYearClass1 |}.
Definition fileB : File :=
  {| fileName := "1AS-2.xlsx"; reading := Rows firstYearClass2 |}.
Definition fileC : File :=
  {| fileName := "2AS-1.xlsx"; reading := Rows secondYearClass1 |}.

(** A sheet holding a header row and a single row below it. *)
Definition headerAndOneRow : File :=
  {| fileName := "short.xlsx";
     reading := Rows [ headerRow;
                     [Number 1%float; Text "أحمد"; Text "2008"; Text "ذكر";
                      Text "لا"; Number 12.5%float; Number 9%float;
                      Number 11%float] ] |}.

(** A sheet holding nothing but a header row. *)
Definition headerOnly : File :=
  {| fileName := "header.xlsx"; reading := Rows [headerRow] |}.

(** A sheet of blank rows. *)
Definition blankSheet : File :=
  {| fileName := "blank.xlsx"; reading := Rows [[]; [Empty; Text EmptyString]] |}.

(** A row whose grade area stops at the first subject column. *)
Definition shortRow : list Cell :=
  [Number 3%float; Text "منير"; Text "2008"; Text "ذكر"; Text "لا";
   Text "13,5"].

(** A class sheet whose only student row is [shortRow]. *)
Definition shortSheet : list (list Cell) :=
  [headerRow; shortRow; summaryRow].

Definition fileShort : File :=
  {| fileName := "short-row.xlsx"; reading := Rows shortSheet |}.

(** A header row with no cell between its two subject columns. *)
Definition headerWithHole : list Cell :=
  [Text "الرقم"; Text "الاسم واللقب"; Text "تاريخ الميلاد"; Text "الجنس";
   Text "الإعادة"; Text "الرياضيات"; Empty; Text "الفيزياء"; Text "المعدل"].

(** A row whose grade area stops under the hole of [headerWithHole]. *)
Definition rowUnderHole : list Cell :=
  [Number 4%float; Text "نادية"; Text "2008"; Text "أنثى"; Text "لا";
   Number 12%float; Number 13%float].

Definition fileWithHole : File :=
  {| fileName := "hole.xlsx";
     reading := Rows [headerWithHole; rowUnderHole; summaryRow] |}.

(** A header row with two columns of one name. *)
Definition headerTwice : list Cell :=
  [Text "الرقم"; Text "الاسم واللقب"; Text "تاريخ الميلاد"; Text "الجنس";
   Text "الإعادة"; Text "الرياضيات"; Text "الرياضيات"; Text "المعدل"].

Definition rowTwice : list Cell :=
  [Number 5%float; Text "هدى"; Text "2008"; Text "أنثى"; Text "لا";
   Number 10%float; Number 14%float; Number 12%float].

Definition sheetTwice : list (list Cell) :=
  [headerTwice; rowTwice; summaryRow].

Definition fileTwice : File :=
  {| fileName := "twice.xlsx"; reading := Rows sheetTwice |}.

Definition student (studentId : string) (studentGender : Cell)
    (studentAverage : number) (studentGrades : gmap string number)
  : Student :=
  {| id := studentId; name := Text studentId; gender := studentGender;
     grades := studentGrades; semesterAverage := studentAverage;
     originalRow := []; isRepeater := false; sourceClass := None |}.

(** A class with two repeaters, weaker in the second subject than in
    the first. *)
Definition repeater (studentId : string) (studentAverage : number)
    (studentGrades : gmap string number) : Student :=
  {| id := studentId; name := Text studentId; gender := Text "ذكر";
     grades := studentGrades; semesterAverage := studentAverage;
     originalRow := []; isRepeater := true; sourceClass := None |}.

Definition classWithRepeaters : list Student :=
  [ repeater "r0" 8.5%float
      (<["الرياضيات" := 12%float]> (<["الفيزياء" := 5%float]> ∅));
    repeater "r1" 7.5%float
      (<["الرياضيات" := 8%float]> (<["الفيزياء" := 7%float]> ∅));
    student "s2" (Text "أنثى") 14%float
      (<["الرياضيات" := 15%float]> (<["الفيزياء" := 13%float]> ∅)) ].

Definition classOfThree : list Student :=
  [ student "s0" (Text "ذكر") 12%float
      (<["الرياضيات" := 12.5%float]> (<["الفيزياء" := 9%float]> ∅));
    student "s1" (Text "أنثى") 15%float
      (<["الرياضيات" := 16%float]> ∅);
    student "s2" (Text "غير محدد") 10%float
      (<["الفيزياء" := 7%float]> ∅) ].

End Examples.

(** ** Built-ins of [Math] and [Array.prototype] used by the views *)

Module JsBuiltins.
Import Js.
#[local] Open Scope float_scope.

Definition isPositiveZero (v : number) : bool :=
  match PrimFloat.classify v with PZero => true | _ => false end.
Definition isNegativeZero (v : number) : bool :=
  match PrimFloat.classify v with NZero => true | _ => false end.

(** [Math.max(...values)]: [NaN] as soon as one argument is [NaN];
    otherwise the running maximum from [-Infinity], [+0] counting as
    larger than [-0]. *)
Definition maxStep (highest value : number) : number :=
  if isPositiveZero value && isNegativeZero highest then value
  else if gtb value highest then value else highest.

Definition mathMax (values : list number) : number :=
  if existsb isNaN values then nan
  else fold_left maxStep values neg_infinity.

(** [Math.min(...values)], its mirror image from [+Infinity]. *)
Definition minStep (lowest value : number) : number :=
  if isNegativeZero value && isPositiveZero lowest then value
  else if value <? lowest then value else lowest.

Definition mathMin (values : list number) : number :=
  if existsb isNaN values then nan
  else fold_left minStep values infinity.


(** [arr.sort(compare)] is a built-in of the engine, and the language
    fixes its result only in part.  The result always holds the elements
    of the array, each as often as the array does.  The order is fixed
    when [compare] is a consistent comparator for these elements: it
    returns no [NaN] on them and orders them as a total preorder does
    (the conditions below are those of the definition of the language).
    Then the sort, being stable, puts an element before another when
    [compare] is negative on them and keeps the order of elements on
    which [compare] is 0, which is what [stableSort] computes by
    inserting the elements one after the other, each in front of the
    first element it precedes.  Otherwise the order is left to the
    engine. *)
Fixpoint insertInto {A : Type} (compare : A -> A -> number) (x : A)
    (sorted : list A) : list A :=
  match sorted with
  | [] => [x]
  | y :: rest =>
      if compare x y <? 0 then x :: sorted
      else y :: insertInto compare x rest
  end.

Definition stableSort {A : Type} (compare : A -> A -> number) (arr : list A)
  : list A :=
  fold_left (fun sorted x => insertInto compare x sorted) arr [].

(** [compare] is a consistent comparator for the elements of [arr]. *)
Definition consistent {A : Type} (compare : A -> A -> number) (arr : list A)
  : Prop :=
  forall a b c, In a arr -> In b arr -> In c arr ->
    isNaN (compare a b) = false /\
    (compare a a =? 0) = true /\
    ((compare a b =? 0) = true -> (compare b a =? 0) = true) /\
    ((compare a b =? 0) = true -> (compare b c =? 0) = true ->
     (compare a c =? 0) = true) /\
    ((compare a b <? 0) = true -> (compare b c <? 0) = true ->
     (compare a c <? 0) = true) /\
    ((0 <? compare a b) = true -> (0 <? compare b c) = true ->
     (0 <? compare a c) = true).

(** The sort of the engine, any one that the language allows. *)
Class Sorting := {
  sort : forall {A : Type}, (A -> A -> number) -> list A -> list A;
  sort_permutation :
    forall (A : Type) (compare : A -> A -> number) (arr : list A),
      sort compare arr ≡ₚ arr;
  sort_consistent :
    forall (A : Type) (compare : A -> A -> number) (arr : list A),
      consistent compare arr -> sort compare arr = stableSort compare arr
}.

End JsBuiltins.

(** ** The other exports of [src/utils/dataProcessing.ts] *)

Module DataProcessingViews.
Import Js Types DataProcessing JsBuiltins.
#[local] Open Scope float_scope.

(** The record [getGlobalSemesterStats] returns. *)
Module SemesterStats.
Record t := {
  average : number;
  passPercentage : number;
  countAbove10 : nat;
  stdDev : number;
  mode : number
}.
End SemesterStats.

Definition globalSemesterStats (students : list Student) : SemesterStats.t :=
  let semesterAverages := map semesterAverage students in
  {| SemesterStats.average := Statistics.calculateAverage semesterAverages;
     SemesterStats.passPercentage :=
       Statistics.calculatePassPercentage semesterAverages 10;
     SemesterStats.countAbove10 := count (fun a => geb a 10) semesterAverages;
     SemesterStats.stdDev :=
       Statistics.calculateStandardDeviation semesterAverages;
     SemesterStats.mode := Statistics.calculateMode semesterAverages |}.

(** The records [getOptionalSubjectsStats] returns. *)
Module OptionalStats.
Record t := {
  subject : string;
  count : nat;
  average : number;
  passPercentage : number
}.
End OptionalStats.

(** [students.map(s => s.grades[subject])
       .filter(g => typeof g === 'number' && !isNaN(g))] *)
Definition numericGradesOf (students : list Student) (subject : string)
  : list number :=
  List.filter (fun g => negb (isNaN g)) (gradesOf students subject).

Definition optionalSubjectsStats (students : list Student)
    (optionalSubjects : list string) : list OptionalStats.t :=
  map (fun subject =>
    let grades := numericGradesOf students subject in
    let count := length grades in
    let average := Statistics.calculateAverage grades in
    let passPercentage := Statistics.calculatePassPercentage grades 10 in
    {| OptionalStats.subject := subject;
       OptionalStats.count := count;
       OptionalStats.average := average;
       OptionalStats.passPercentage := passPercentage |}) optionalSubjects.

(** [GeneralSubjectStats] *)
Module GeneralSubjectStats.
Record t := {
  subject : string;
  average : number;
  highest : number;
  lowest : number;
  countAbove15 : nat;
  countBelow10 : nat;
  studentCount : nat
}.
End GeneralSubjectStats.

Definition generalSubjectSummary (students : list Student)
    (subjects : list string) : list GeneralSubjectStats.t :=
  map (fun subject =>
    let grades := gradesOf students subject in
    let average := Statistics.calculateAverage grades in
    let highest := if (0 <? length grades)%nat then mathMax grades else 0 in
    let lowest := if (0 <? length grades)%nat then mathMin grades else 0 in
    let countAbove15 := count (fun g => geb g 15) grades in
    let countBelow10 := count (fun g => g <? 10) grades in
    {| GeneralSubjectStats.subject := subject;
       GeneralSubjectStats.average := average;
       GeneralSubjectStats.highest := highest;
       GeneralSubjectStats.lowest := lowest;
       GeneralSubjectStats.countAbove15 := countAbove15;
       GeneralSubjectStats.countBelow10 := countBelow10;
       GeneralSubjectStats.studentCount := length grades |}) subjects.

(** An entry of [subjectPerformance]. *)
Module SubjectAverage.
Record t := {
  subject : string;
  average : number
}.
End SubjectAverage.

(** [RepeaterStats] *)
Module RepeaterStats.
Record t := {
  repeaters : list Student;
  totalRepeaters : nat;
  femaleRepeaters : nat;
  maleRepeaters : nat;
  repeaterAverage : number;
  nonRepeaterAverage : number;
  successRate : number;
  subjectPerformance : list SubjectAverage.t
}.
End RepeaterStats.

(** The entries of [subjectPerformance] before they are sorted. *)
Definition repeaterSubjectAverages (repeaters : list Student)
    (subjects : list string) : list SubjectAverage.t :=
  map (fun subject =>
    let grades := gradesOf repeaters subject in
    {| SubjectAverage.subject := subject;
       SubjectAverage.average := Statistics.calculateAverage grades |})
    subjects.

Section WithSorting.
Context {engine : Sorting}.

Definition repeaterStats (students : list Student) (subjects : list string)
  : RepeaterStats.t :=
  let repeaters := List.filter (fun s => isRepeater s) students in
  let nonRepeaters := List.filter (fun s => negb (isRepeater s)) students in
  let totalRepeaters := length repeaters in
  let femaleRepeaters :=
    length (List.filter (fun s => isText (gender s) FEMALE) repeaters) in
  let maleRepeaters := (totalRepeaters - femaleRepeaters)%nat in
  let repeaterAverage :=
    Statistics.calculateAverage (map semesterAverage repeaters) in
  let nonRepeaterAverage :=
    Statistics.calculateAverage (map semesterAverage nonRepeaters) in
  let successfulRepeaters :=
    length (List.filter (fun s => geb (semesterAverage s) 10) repeaters) in
  let successRate :=
    if (totalRepeaters =? 0)%nat then 0
    else (ofNat successfulRepeaters / ofNat totalRepeaters) * 100 in
  let subjectPerformance :=
    sort (fun a b => SubjectAverage.average a - SubjectAverage.average b)
      (repeaterSubjectAverages repeaters subjects) in
  {| RepeaterStats.repeaters := repeaters;
     RepeaterStats.totalRepeaters := totalRepeaters;
     RepeaterStats.femaleRepeaters := femaleRepeaters;
     RepeaterStats.maleRepeaters := maleRepeaters;
     RepeaterStats.repeaterAverage := repeaterAverage;
     RepeaterStats.nonRepeaterAverage := nonRepeaterAverage;
     RepeaterStats.successRate := successRate;
     RepeaterStats.subjectPerformance := subjectPerformance |}.

End WithSorting.

(** The exported, memoized functions, each with its own cache slot. *)

Definition globalSemesterStatsOf (students : Array Student)
  : SemesterStats.t :=
  globalSemesterStats (elems students).

Definition optionalSubjectsStatsOf (args : Array Student * Array string)
  : list OptionalStats.t :=
  optionalSubjectsStats (elems (fst args)) (elems (snd args)).

Definition generalSubjectSummaryOf (args : Array Student * Array string)
  : list GeneralSubjectStats.t :=
  generalSubjectSummary (elems (fst args)) (elems (snd args)).

Definition repeaterStatsOf {engine : Sorting}
    (args : Array Student * Array string) : RepeaterStats.t :=
  repeaterStats (elems (fst args)) (elems (snd args)).

Definition getGlobalSemesterStats :=
  memoize studentsRef globalSemesterStatsOf.

Definition getOptionalSubjectsStats :=
  memoize pairRefs optionalSubjectsStatsOf.

Definition getGeneralSubjectSummary :=
  memoize pairRefs generalSubjectSummaryOf.

Definition getRepeaterStats {engine : Sorting} :=
  memoize pairRefs repeaterStatsOf.


End DataProcessingViews.

(** ** [StudentTracking] of [src/components/RepeaterAnalysis.tsx] *)

Module StudentTracking.
Import Js Types DataProcessing JsBuiltins.
#[local] Open Scope float_scope.

(** [students.find(s => s.id === selectedStudentId)] *)
Definition selectedStudent (students : list Student)
    (selectedStudentId : string) : option Student :=
  List.find (fun s => String.eqb (id s) selectedStudentId) students.

Module SummaryStats.
Record t := {
  studentAvg : number;
  classAvg : number;
  rank : nat;
  totalStudents : nat;
  highest : number;
  lowest : number
}.
End SummaryStats.

(** The [summaryStats] memo; [None] is its [null]. *)
Definition summaryStats (selectedStudent : option Student)
    (students : list Student) : option SummaryStats.t :=
  match selectedStudent with
  | None => None
  | Some selected =>
      if (length students =? 0)%nat then None
      else
        let allAverages := map semesterAverage students in
        let classAvg := Statistics.calculateAverage allAverages in
        let rank :=
          (length (List.filter
             (fun s => gtb (semesterAverage s) (semesterAverage selected))
             students) + 1)%nat in
        Some {| SummaryStats.studentAvg := semesterAverage selected;
                SummaryStats.classAvg := classAvg;
                SummaryStats.rank := rank;
                SummaryStats.totalStudents := length students;
                SummaryStats.highest := mathMax allAverages;
                SummaryStats.lowest := mathMin allAverages |}
  end.

(** The [studentGrade] of a table row: a number, or the text ['-']. *)
Inductive GradeCell :=
| Grade (v : number)
| Dash.

Module Row.
Record t := {
  subject : string;
  studentGrade : GradeCell;
  classAverage : string;
  comparison : string;
  isTotal : bool
}.
End Row.

Definition EQUAL : string := "مساوي للمعدل".
Definition ABOVE : string := "أعلى من المعدل".
Definition BELOW : string := "أقل من المعدل".
Definition SEMESTER_AVERAGE : string := "المعدل الفصلي".

(** [v.toFixed(2)], a built-in defined outside the repository. *)
Class Formatting := {
  toFixed2 : number -> string
}.

Section WithFormatting.
Context {F : Formatting}.

(** The [tableData] memo. *)
Definition tableData (selectedStudent : option Student)
    (subjects : list string) (students : list Student)
    (subjectAnalysis : list SubjectStats) : list Row.t :=
  match selectedStudent with
  | None => []
  | Some selected =>
      let rows :=
        map (fun subject =>
          let studentGrade := grades selected !! subject in
          let stat :=
            List.find (fun s => String.eqb (Types.subject s) subject)
              subjectAnalysis in
          let classAverage :=
            match stat with
            | Some found => Types.average found
            | None => 0
            end in
          let comparison :=
            match studentGrade with
            | Some g =>
                if gtb g classAverage then ABOVE
                else if g <? classAverage then BELOW
                else EQUAL
            | None => EQUAL
            end in
          {| Row.subject := subject;
             Row.studentGrade :=
               match studentGrade with
               | Some g => Grade g
               | None => Dash
               end;
             Row.classAverage := toFixed2 classAverage;
             Row.comparison := comparison;
             Row.isTotal := false |}) subjects in
      let classAvgOfAvgs :=
        Statistics.calculateAverage (map semesterAverage students) in
      let studentAvg := semesterAverage selected in
      let totalComparison :=
        if gtb studentAvg classAvgOfAvgs then ABOVE
        else if studentAvg <? classAvgOfAvgs then BELOW
        else EQUAL in
      rows ++ [ {| Row.subject := SEMESTER_AVERAGE;
                   Row.studentGrade := Grade studentAvg;
                   Row.classAverage := toFixed2 classAvgOfAvgs;
                   Row.comparison := totalComparison;
                   Row.isTotal := true |} ]
  end.

End WithFormatting.

End StudentTracking.

(** ** [comparisonData] of [src/components/SubjectAnalysis.tsx] *)

Module SubjectComparison.
Import Js Types DataProcessing JsBuiltins.
#[local] Open Scope float_scope.





Module ComparisonData.
Record t := {
  s1 : option SubjectStats;
  s2 : option SubjectStats;
  correlation : number;
  correlationDesc : string
}.
End ComparisonData.


(** The intervals of the distribution histogram. *)
Module Range.
Record t := {
  label : string;
  min : number;
  max : number;
  color : string
}.
End Range.

Definition ranges : list Range.t :=
  [ {| Range.label := "< 8"; Range.min := 0; Range.max := 8;
       Range.color := "#ef4444" |};
    {| Range.label := "8 - 10"; Range.min := 8; Range.max := 10;
       Range.color := "#f97316" |};
    {| Range.label := "10 - 12"; Range.min := 10; Range.max := 12;
       Range.color := "#eab308" |};
    {| Range.label := "12 - 15"; Range.min := 12; Range.max := 15;
       Range.color := "#84cc16" |};
    {| Range.label := "15 - 20"; Range.min := 15; Range.max := 21;
       Range.color := "#10b981" |} ].

Module Bar.
Record t := {
  name : string;
  count : nat;
  fill : string
}.
End Bar.

(** The [distributionChartData] memo. *)
Definition distributionChartData (selectedSubject : string)
    (students : list Student) : list Bar.t :=
  if String.eqb selectedSubject EmptyString then []
  else
    let grades := gradesOf students selectedSubject in
    map (fun range =>
           {| Bar.name := Range.label range;
              Bar.count :=
                DataProcessing.count
                  (fun g => geb g (Range.min range) && (g <? Range.max range))
                  grades;
              Bar.fill := Range.color range |}) ranges.

End SubjectComparison.

(** ** The optional subjects of [src/App.tsx] *)

Module App.
Import Js Types Ingest.

(** The state update of [toggleOptionalSubject]. *)
Definition toggleOptionalSubject (subject : string) (prev : list string)
  : list string :=
  if existsb (String.eqb subject) prev
  then List.filter (fun s => negb (String.eqb s subject)) prev
  else prev ++ [subject].

End App.

(** ** A reference implementation of [toFixed(2)]

    Exact for finite numbers below 10^21: the nearest multiple of 0.01,
    the larger one on a tie, written with two decimals.  Other numbers
    are written as [String] writes them. *)

Module ReferenceFormatting.
Import Js Types.

Definition roundedHundredths (m : positive) (e : Z) : N :=
  if (0 <=? e)%Z then (N.pos m * 2 ^ Z.to_N e * 100)%N
  else
    let d := (2 ^ Z.to_N (- e))%N in
    ((2 * (N.pos m * 100) + d) / (2 * d))%N.

Definition withTwoDecimals (n : N) : string :=
  let digits := Reference.digitsOfN n in
  let padded :=
    (Reference.zeros (3 - String.length digits) ++ digits)%string in
  let k := String.length padded in
  (String.substring 0 (k - 2) padded ++ "."
   ++ String.substring (k - 2) 2 padded)%string.

Definition toFixed2 (v : number) : string :=
  match Prim2SF v with
  | S754_finite negative m e =>
      if (0x1.b1ae4d6e2ef5p+69 <=? abs v)%float then Reference.renderNumber v
      else ((if negative then "-" else EmptyString)
            ++ withTwoDecimals (roundedHundredths m e))%string
  | S754_zero _ => "0.00"
  | _ => Reference.renderNumber v
  end.

#[export] Instance formatting : StudentTracking.Formatting := {|
  StudentTracking.toFixed2 := toFixed2
|}.

End ReferenceFormatting.

(** ** Vocabulary of the properties *)

Definition SFisZero (a : spec_float) : bool :=
  match a with S754_zero _ => true | _ => false end.
Definition SFisNaN (a : spec_float) : bool :=
  match a with S754_nan => true | _ => false end.

Section StatisticsVocabulary.
Import Js Statistics.
#[local] Open Scope float_scope.

(** Two numbers name the same property of [frequency] when they are the
    same binary64 value or are both zeros. *)
Definition keyEquiv (a b : float) : Prop :=
  Prim2SF a = Prim2SF b \/
  (SFisZero (Prim2SF a) = true /\ SFisZero (Prim2SF b) = true).

(** How many entries of [data] fall under the key of [v]. *)
Definition occurrences (v : float) (data : list float) : nat :=
  length (List.filter (sameKey v) data).

(** The loop invariant of [calculateMode] after the prefix [seen]. *)
Record ModeInv (seen : list float) (st : ModeState) : Prop := {
  inv_freq : forall v, freqGet (frequency st) v = occurrences v seen;
  inv_max : forall v, (occurrences v seen <= maxFreq st)%nat;
  inv_mode :
    (seen = [] /\ maxFreq st = 0%nat) \/
    exists before after,
      seen = before ++ mode st :: after /\
      occurrences (mode st) (before ++ [mode st]) = maxFreq st /\
      forall v, (occurrences v before < maxFreq st)%nat
}.

(** A series has zero variance, as the engine sees it, when the sum of
    squared deviations from its computed mean is zero. *)
Definition zeroVariance (x : list float) : Prop :=
  (sumSquaredDeviations x (calculateAverage x) =? 0) = true.

End StatisticsVocabulary.

Section DataProcessingVocabulary.
Import Js Types DataProcessing.
#[local] Open Scope float_scope.

(** A cache slot is valid for a call when the result it would serve is
    the one [fn] computes from the arguments as they are now: the arrays
    were not changed in place since the slot was filled. *)
Definition cacheValid {Args T : Type} (refs : Args -> list nat)
    (fn : Args -> T) (cache : option (Slot T)) (args : Args) : Prop :=
  forall slot, cache = Some slot -> refs args = lastArgs slot ->
    lastResult slot = fn args.

(** What the two per-subject records have in common, and what the
    distribution record leaves blank. *)
Definition distributionAgrees (d a : SubjectStats) : Prop :=
  subject d = subject a /\
  average d = average a /\
  passPercentage d = passPercentage a /\
  countAbove15 d = countAbove15 a /\
  count10to14 d = count10to14 a /\
  count8to9 d = count8to9 a /\
  countBelow8 d = countBelow8 a /\
  countAbove10 d = countAbove10 a /\
  stdDev d = 0 /\ cv d = 0 /\ mode d = 0 /\ comparison d = EmptyString.

End DataProcessingVocabulary.

Section IngestVocabulary.
Import Js Types Ingest.
Context {B : Builtins}.

(** [text] contains [part]. *)
Definition mentions (text part : string) : Prop :=
  exists before after, text = (before ++ part ++ after)%string.

(** Decimal digits. *)
Definition isDigit (c : ascii) : bool :=
  let n := nat_of_ascii c in ((48 <=? n) && (n <=? 57))%nat.

Fixpoint allDigits (s : string) : bool :=
  match s with
  | EmptyString => true
  | String c rest => isDigit c && allDigits rest
  end.

(** What a mismatch error says about the file [bad], parsed as [rb],
    against the metadata [master] of the first file. *)
Definition reportsMismatch (e : IngestError) (bad : File) (rb : ParseResult)
    (master : ClassMetadata) : Prop :=
  (e = LevelMismatch (fileName bad) (level (metadata rb)) (level master) /\
   level (metadata rb) <> level master) \/
  (e = StreamMismatch (fileName bad) (stream (metadata rb)) (stream master) /\
   stream (metadata rb) <> stream master).

(** [file] parses with a level or a stream other than [master]'s. *)
Definition differs (master : ClassMetadata) (file : File) : Prop :=
  exists r, parseExcelFile file = Ok r /\
    (level (metadata r) <> level master \/ stream (metadata r) <> stream master).

(** [file] parses with the level and the stream of [master]. *)
Definition agrees (master : ClassMetadata) (file : File) : Prop :=
  exists r, parseExcelFile file = Ok r /\
    level (metadata r) = level master /\
    stream (metadata r) = stream master.

(** The identifiers given to the students of the files [results],
    numbered from file index [k0]. *)
Definition compositeIds (k0 : nat) (results : list ParseResult)
  : list string :=
  concat (imap (fun j r => map (compositeId (k0 + j))
                             (seq 0 (length (students r)))) results).

End IngestVocabulary.

(** ** Vocabulary of the further properties *)

Section OrderVocabulary.

(** A zero or a finite binary number. *)
Definition SFisFinite (x : spec_float) : bool :=
  match x with
  | S754_zero _ | S754_finite _ _ _ => true
  | _ => false
  end.

(** The order of [SFcompare] is that of a key: sign class, then
    exponent, then mantissa. *)
Definition orderKey (a : spec_float) : Z * Z * Z :=
  match a with
  | S754_nan => (0, 0, 0)
  | S754_zero _ => (0, 0, 0)
  | S754_infinity s => (if s then -2 else 2, 0, 0)
  | S754_finite s m e =>
      if s then (-1, - e, - Z.pos m) else (1, e, Z.pos m)
  end%Z.

Definition keyCompare (p q : Z * Z * Z) : comparison :=
  match (fst (fst p) ?= fst (fst q))%Z with
  | Eq => match (snd (fst p) ?= snd (fst q))%Z with
          | Eq => (snd p ?= snd q)%Z
          | c => c
          end
  | c => c
  end.

(** Each element is related to the one after it. *)
Fixpoint chained {A : Type} (R : A -> A -> Prop) (l : list A) : Prop :=
  match l with
  | [] => True
  | p :: rest =>
      match rest with
      | [] => True
      | q :: _ => R p q
      end /\ chained R rest
  end.

End OrderVocabulary.

Section ViewsVocabulary.
Import Js Types DataProcessing DataProcessingViews.

(** A run of calls of one memoized function, the cache slot passing from
    each call to the next. *)
Fixpoint callAll {Args T : Type} (refs : Args -> list nat) (fn : Args -> T)
    (cache : option (Slot T)) (calls : list Args) : list T :=
  match calls with
  | [] => []
  | args :: rest =>
      let '(result, cache') := memoize refs fn cache args in
      result :: callAll refs fn cache' rest
  end.

(** What an optional-subject record and the analysis record of the same
    subject have in common. *)
Definition optionalAgrees (noNaN : Prop) (o : OptionalStats.t)
    (a : SubjectStats) : Prop :=
  OptionalStats.subject o = subject a /\
  OptionalStats.count o
  = (countAbove15 a + count10to14 a + count8to9 a + countBelow8 a)%nat /\
  (noNaN ->
     OptionalStats.average o = average a /\
     OptionalStats.passPercentage o = passPercentage a).

End ViewsVocabulary.

Section AggregationVocabulary.
Import Js Types Ingest.
Context {B : Builtins}.

(** [result.metadata.classNumber || '?'] *)
Definition sourceLabel (r : ParseResult) : string :=
  if String.eqb (classNumber (metadata r)) EmptyString then "?"
  else classNumber (metadata r).

(** The students of the files [results] as the multi-file loop merges
    them, the first file having index [k0]. *)
Definition mergedStudents (k0 : nat) (results : list ParseResult)
  : list Student :=
  concat (imap (fun j r =>
                  imap (fun i s => withId (compositeId (k0 + j) i)
                                     (Some (sourceLabel r)) s)
                       (students r)) results).

(** Two student records that differ at most in [id] and [sourceClass]. *)
Definition sameRecord (a b : Student) : Prop :=
  name a = name b /\ gender a = gender b /\ grades a = grades b /\
  semesterAverage a = semesterAverage b /\
  originalRow a = originalRow b /\ isRepeater a = isRepeater b.

End AggregationVocabulary.

(* ================================================================== *)
(** * Properties *)

(** ** Facts about binary64 arithmetic *)

Section FloatFacts.
Import Js.
#[local] Open Scope float_scope.

Lemma mul_comm (x y : float) : x * y = y * x.
Proof.
  apply Prim2SF_inj. rewrite !mul_spec. unfold SF64mul.
  destruct (Prim2SF x) as [sx|sx| |sx mx ex], (Prim2SF y) as [sy|sy| |sy my ey];
    cbn [SFmul]; rewrite ?(xorb_comm sx sy); try reflexivity.
  now rewrite Pos.mul_comm, Z.add_comm.
Qed.

(** IEEE equality holds between identical values other than [NaN] and
    between the two zeros, and nowhere else. *)
Lemma SFeqb_true_iff (a b : spec_float) :
  SFeqb a b = true <->
  (a = b /\ SFisNaN a = false) \/ (SFisZero a = true /\ SFisZero b = true).
Proof.
  assert (Hpos : forall m1 m2, Pos.compare_cont Eq m1 m2 = Eq <-> m1 = m2)
    by (intros; apply Pos.compare_eq_iff).
  unfold SFeqb.
  destruct a as [sa|sa| |sa ma ea], b as [sb|sb| |sb mb eb]; cbn;
    try (destruct sa); try (destruct sb); cbn;
    try (split; [ discriminate
                | intros [[H1 H2]|[H1 H2]]; discriminate || congruence ]);
    try (split; [ intros _; auto | reflexivity ]).
  - destruct (Z.compare_spec ea eb) as [He|He|He].
    + subst eb. destruct (Pos.compare_cont Eq ma mb) eqn:Hc; cbn.
      * apply Hpos in Hc. subst. split; auto.
      * split; [discriminate|]. intros [[[= Hm] _]|[? ?]]; [|discriminate].
        apply Hpos in Hm. congruence.
      * split; [discriminate|]. intros [[[= Hm] _]|[? ?]]; [|discriminate].
        apply Hpos in Hm. congruence.
    + split; [discriminate|]. intros [[[= _ He'] _]|[? ?]]; [lia|discriminate].
    + split; [discriminate|]. intros [[[= _ He'] _]|[? ?]]; [lia|discriminate].
  - destruct (Z.compare_spec ea eb) as [He|He|He].
    + subst eb. destruct (Pos.compare_cont Eq ma mb) eqn:Hc; cbn.
      * apply Hpos in Hc. subst. split; auto.
      * split; [discriminate|]. intros [[[= Hm] _]|[? ?]]; [|discriminate].
        apply Hpos in Hm. congruence.
      * split; [discriminate|]. intros [[[= Hm] _]|[? ?]]; [|discriminate].
        apply Hpos in Hm. congruence.
    + split; [discriminate|]. intros [[[= _ He'] _]|[? ?]]; [lia|discriminate].
    + split; [discriminate|]. intros [[[= _ He'] _]|[? ?]]; [lia|discriminate].
Qed.
End FloatFacts.

(** ** The correlation formula in exact arithmetic *)

Section ExactFacts.
Import Js.
#[local] Open Scope R_scope.

Lemma square_le (p u : R) : 0 <= u -> p * p <= u * u -> p <= u.
Proof.
  intros Hu Hsq. destruct (Rle_dec p u) as [|Hn]; [assumption|].
  exfalso. apply Rnot_le_lt in Hn.
  assert (u * u < p * p).
  { apply Rle_lt_trans with (u * p).
    - apply Rmult_le_compat_l; lra.
    - apply Rmult_lt_compat_r; lra. }
  lra.
Qed.

(** The inequality of Cauchy and Schwarz, one more pair at a time. *)
Lemma cauchy_schwarz_step (C A B a b : R) :
  0 <= A -> 0 <= B -> C * C <= A * B ->
  (C + a * b) * (C + a * b) <= (A + a * a) * (B + b * b).
Proof.
  intros HA HB HC.
  assert (Ha2 : 0 <= a * a) by apply Rle_0_sqr.
  assert (Hb2 : 0 <= b * b) by apply Rle_0_sqr.
  assert (Hu : 0 <= A * (b * b) + B * (a * a)).
  { apply Rplus_le_le_0_compat; apply Rmult_le_pos; assumption. }
  assert (H : 2 * (C * (a * b)) <= A * (b * b) + B * (a * a)).
  { apply square_le; [assumption|].
    pose proof (Rle_0_sqr (A * (b * b) - B * (a * a))) as Hd.
    unfold Rsqr in Hd.
    assert (Hc : C * C * ((a * a) * (b * b)) <= A * B * ((a * a) * (b * b))).
    { apply Rmult_le_compat_r; [apply Rmult_le_pos; assumption|assumption]. }
    replace (2 * (C * (a * b)) * (2 * (C * (a * b))))
      with (4 * (C * C * ((a * a) * (b * b)))) by ring.
    replace ((A * (b * b) + B * (a * a)) * (A * (b * b) + B * (a * a)))
      with ((A * (b * b) - B * (a * a)) * (A * (b * b) - B * (a * a))
            + 4 * (A * B * ((a * a) * (b * b)))) by ring.
    lra. }
  replace ((C + a * b) * (C + a * b))
    with (C * C + 2 * (C * (a * b)) + (a * a) * (b * b)) by ring.
  replace ((A + a * a) * (B + b * b))
    with (A * B + (A * (b * b) + B * (a * a)) + (a * a) * (b * b)) by ring.
  lra.
Qed.

(** The numerator and the two sums of squares, accumulated in step. *)
Lemma cauchy_schwarz_sums (a b : R) : forall xs ys py i C A B,
  length py = i -> length xs = length ys ->
  0 <= A -> 0 <= B -> C * C <= A * B ->
  let C' :=
    reduceFrom (fun sum xi j => sum + (xi - a) * (nth j (py ++ ys) 0 - b))
      i xs C in
  let A' := fold_left (fun sum xi => sum + (xi - a) * (xi - a)) xs A in
  let B' := fold_left (fun sum yi => sum + (yi - b) * (yi - b)) ys B in
  0 <= A' /\ 0 <= B' /\ C' * C' <= A' * B'.
Proof.
  induction xs as [|x xs IH]; intros [|y ys] py i C A B Hpy Hlen HA HB HC;
    try discriminate; cbn [reduceFrom fold_left]; [auto|].
  assert (Hy : nth i (py ++ y :: ys) 0 = y).
  { subst i. apply List.nth_middle. }
  rewrite Hy.
  replace (py ++ y :: ys) with ((py ++ [y]) ++ ys)
    by now rewrite <- List.app_assoc.
  apply IH.
  - rewrite List.length_app. cbn. lia.
  - now injection Hlen.
  - pose proof (Rle_0_sqr (x - a)) as Hs. unfold Rsqr in Hs. lra.
  - pose proof (Rle_0_sqr (y - b)) as Hs. unfold Rsqr in Hs. lra.
  - apply cauchy_schwarz_step; assumption.
Qed.

Lemma exact_correlation_bounded (x y : list R) :
  -1 <= Exact.calculateCorrelation x y <= 1.
Proof.
  unfold Exact.calculateCorrelation.
  destruct (negb (length x =? length y)%nat || (length x =? 0)%nat)%bool
    eqn:Hguard; [lra|].
  apply orb_false_elim in Hguard as [Hlen _].
  apply negb_false_iff, Nat.eqb_eq in Hlen.
  cbv zeta. unfold Exact.isZero.
  set (a := Exact.calculateAverage x). set (b := Exact.calculateAverage y).
  destruct (Req_dec_T (R_sqrt.sqrt (Exact.sumSquaredDeviations x a)) 0) as [|HX];
    [cbn; lra|].
  destruct (Req_dec_T (R_sqrt.sqrt (Exact.sumSquaredDeviations y b)) 0) as [|HY];
    [cbn; lra|].
  cbn [orb].
  destruct (cauchy_schwarz_sums a b x y [] 0%nat 0 0 0 eq_refl Hlen)
    as (HA & HB & HC); try lra.
  cbn [app] in HC.
  fold (reduce (fun sum xi j => sum + (xi - a) * (nth j y 0 - b)) x 0) in HC.
  fold (Exact.sumSquaredDeviations x a) in HA, HC.
  fold (Exact.sumSquaredDeviations y b) in HB, HC.
  set (num := reduce _ x 0) in *.
  set (SX := Exact.sumSquaredDeviations x a) in *.
  set (SY := Exact.sumSquaredDeviations y b) in *.
  assert (HdX : 0 < R_sqrt.sqrt SX) by (pose proof (sqrt_pos SX); lra).
  assert (HdY : 0 < R_sqrt.sqrt SY) by (pose proof (sqrt_pos SY); lra).
  assert (Hprod : 0 < R_sqrt.sqrt SX * R_sqrt.sqrt SY)
    by (apply Rmult_lt_0_compat; assumption).
  assert (Hsq : (R_sqrt.sqrt SX * R_sqrt.sqrt SY) * (R_sqrt.sqrt SX * R_sqrt.sqrt SY) = SX * SY).
  { replace (R_sqrt.sqrt SX * R_sqrt.sqrt SY * (R_sqrt.sqrt SX * R_sqrt.sqrt SY))
      with ((R_sqrt.sqrt SX * R_sqrt.sqrt SX) * (R_sqrt.sqrt SY * R_sqrt.sqrt SY)) by ring.
    now rewrite (sqrt_sqrt SX HA), (sqrt_sqrt SY HB). }
  assert (Habs : - (R_sqrt.sqrt SX * R_sqrt.sqrt SY) <= num <= R_sqrt.sqrt SX * R_sqrt.sqrt SY).
  { split.
    - assert (- num <= R_sqrt.sqrt SX * R_sqrt.sqrt SY); [|lra].
      apply square_le; [lra|]. rewrite Hsq.
      replace (- num * - num) with (num * num) by ring. exact HC.
    - apply square_le; [lra|]. rewrite Hsq. exact HC. }
  split.
  - apply Rmult_le_reg_r with (R_sqrt.sqrt SX * R_sqrt.sqrt SY); [assumption|].
    unfold Rdiv. rewrite Rmult_assoc, Rinv_l by lra. lra.
  - apply Rmult_le_reg_r with (R_sqrt.sqrt SX * R_sqrt.sqrt SY); [assumption|].
    unfold Rdiv. rewrite Rmult_assoc, Rinv_l by lra. lra.
Qed.

End ExactFacts.

(** ** Statistics engine *)

Section StatisticsFacts.
Import Js Statistics.
#[local] Open Scope float_scope.

Lemma isNaN_spec (a : float) : isNaN a = SFisNaN (Prim2SF a).
Proof.
  unfold isNaN, is_nan. rewrite FloatAxioms.eqb_spec.
  destruct (SFeqb (Prim2SF a) (Prim2SF a)) eqn:E.
  - apply SFeqb_true_iff in E as [[_ E]|[E _]]; [now rewrite E|].
    now destruct (Prim2SF a).
  - destruct (Prim2SF a) eqn:Ea; try reflexivity; exfalso;
      (assert (SFeqb (Prim2SF a) (Prim2SF a) = true) as E';
       [ rewrite Ea; apply SFeqb_true_iff; (left; split; reflexivity)
       | rewrite Ea in E'; congruence ]).
Qed.

Lemma sameKey_spec (a b : float) : sameKey a b = true <-> keyEquiv a b.
Proof.
  unfold sameKey, keyEquiv. rewrite FloatAxioms.eqb_spec, !isNaN_spec.
  rewrite orb_true_iff, andb_true_iff, SFeqb_true_iff. split.
  - intros [[[H _]|H]|[Ha Hb]]; auto.
    left. destruct (Prim2SF a), (Prim2SF b); try discriminate; reflexivity.
  - intros [H|H]; [|auto].
    destruct (SFisNaN (Prim2SF a)) eqn:Ha; [|auto].
    right. split; [reflexivity|]. now rewrite <- H.
Qed.

Lemma keyEquiv_refl a : keyEquiv a a.
Proof. now left. Qed.

Lemma keyEquiv_sym a b : keyEquiv a b -> keyEquiv b a.
Proof. intros [H|[H1 H2]]; [left|right]; auto. Qed.

Lemma keyEquiv_trans a b c : keyEquiv a b -> keyEquiv b c -> keyEquiv a c.
Proof.
  intros [H|[H1 H2]] [H'|[H1' H2']].
  - left. congruence.
  - right. rewrite H. auto.
  - right. rewrite <- H'. auto.
  - right. auto.
Qed.

Lemma sameKey_refl a : sameKey a a = true.
Proof. apply sameKey_spec, keyEquiv_refl. Qed.

Lemma sameKey_sym a b : sameKey a b = sameKey b a.
Proof.
  apply eq_true_iff_eq. rewrite !sameKey_spec.
  split; apply keyEquiv_sym.
Qed.

Lemma sameKey_congr a b u : sameKey a b = true -> sameKey a u = sameKey b u.
Proof.
  intros H. apply sameKey_spec in H.
  apply eq_true_iff_eq. rewrite !sameKey_spec. split; intros Hu.
  - eapply keyEquiv_trans; [apply keyEquiv_sym|]; eauto.
  - eapply keyEquiv_trans; eauto.
Qed.

Lemma occurrences_app v p q :
  occurrences v (p ++ q) = (occurrences v p + occurrences v q)%nat.
Proof. unfold occurrences. now rewrite List.filter_app, List.length_app. Qed.

Lemma occurrences_congr a b p :
  sameKey a b = true -> occurrences a p = occurrences b p.
Proof.
  intros H. unfold occurrences. f_equal.
  apply List.filter_ext. intros u. now apply sameKey_congr.
Qed.

Lemma occurrences_single v u :
  occurrences v [u] = if sameKey v u then 1%nat else 0%nat.
Proof. unfold occurrences. cbn. now destruct (sameKey v u). Qed.

Lemma modeStep_inv seen st val :
  ModeInv seen st -> ModeInv (seen ++ [val]) (modeStep st val).
Proof.
  intros [Hf Hm Hmode].
  assert (Hocc : forall v, occurrences v (seen ++ [val]) =
    if sameKey val v then S (occurrences val seen) else occurrences v seen).
  { intros v. rewrite occurrences_app, occurrences_single, (sameKey_sym v val).
    destruct (sameKey val v) eqn:E; [|lia].
    rewrite (occurrences_congr val v) by assumption. lia. }
  assert (Hget : forall v, freqGet (freqSet (frequency st) val
                               (S (freqGet (frequency st) val))) v
                           = occurrences v (seen ++ [val])).
  { intros v. cbn. rewrite Hocc, !Hf. reflexivity. }
  unfold modeStep. rewrite Hf.
  destruct (maxFreq st <? S (occurrences val seen))%nat eqn:Hlt.
  - apply Nat.ltb_lt in Hlt. split; cbn [frequency maxFreq mode].
    + intros v. rewrite <- (Hf val). apply Hget.
    + intros v. rewrite Hocc. destruct (sameKey val v); [lia|].
      specialize (Hm v). lia.
    + right. exists seen, []. split; [reflexivity|]. split.
      * rewrite Hocc, sameKey_refl. reflexivity.
      * intros v. specialize (Hm v). lia.
  - apply Nat.ltb_ge in Hlt. split; cbn [frequency maxFreq mode].
    + intros v. rewrite <- (Hf val). apply Hget.
    + intros v. rewrite Hocc. destruct (sameKey val v); [lia|]. apply Hm.
    + right. destruct Hmode as [[-> H0]|(before & after & -> & H1 & H2)].
      * exfalso. lia.
      * exists before, (after ++ [val]). split; [|split]; auto.
        now rewrite <- List.app_assoc.
Qed.

Lemma fold_modeStep_inv rest : forall seen st,
  ModeInv seen st -> ModeInv (seen ++ rest) (fold_left modeStep rest st).
Proof.
  induction rest as [|val rest IH]; intros seen st Hinv; cbn.
  - now rewrite List.app_nil_r.
  - replace (seen ++ val :: rest) with ((seen ++ [val]) ++ rest)
      by now rewrite <- List.app_assoc.
    apply IH, modeStep_inv, Hinv.
Qed.

Lemma modeInit_inv first :
  ModeInv [] {| frequency := []; maxFreq := 0; mode := first |}.
Proof. split; cbn; auto. Qed.

(** C7: [calculateMode] returns a most frequent value of a non-empty
    input, namely the entry at which the highest frequency of the whole
    input is reached for the first time in input order: no value has
    that many occurrences before it.  In particular the mode of
    [1,2,2,3,3,3] is 3 and the mode of [1,1,2,2] is 1. *)
Theorem calculateMode_first_to_reach_max :
  (forall first rest,
     let data := first :: rest in
     let m := calculateMode data in
     (forall v, (occurrences v data <= occurrences m data)%nat) /\
     exists before after,
       data = before ++ m :: after /\
       occurrences m (before ++ [m]) = occurrences m data /\
       forall v, (occurrences v before < occurrences m data)%nat) /\
  calculateMode [1; 2; 2; 3; 3; 3] = 3 /\
  calculateMode [1; 1; 2; 2] = 1.
Proof.
  split; [|split; reflexivity].
  intros first rest data m.
  set (st := fold_left modeStep data
               {| frequency := []; maxFreq := 0; mode := first |}).
  assert (Em : m = mode st) by reflexivity.
  clearbody m. subst m.
  destruct (fold_modeStep_inv data [] _ (modeInit_inv first))
    as [_ Hmax Hmode].
  rewrite List.app_nil_l in Hmax, Hmode. fold st in Hmax, Hmode.
  destruct Hmode as [[Hnil _]|(before & after & Hdata & Hreach & Hbefore)];
    [discriminate|].
  assert (Hm : occurrences (mode st) data = maxFreq st).
  { apply Nat.le_antisymm; [apply Hmax|].
    rewrite <- Hreach.
    pose proof (f_equal (occurrences (mode st)) Hdata) as Hd.
    replace (before ++ mode st :: after)
      with ((before ++ [mode st]) ++ after) in Hd
      by now rewrite <- List.app_assoc.
    rewrite occurrences_app in Hd. lia. }
  split.
  - intros v. rewrite Hm. apply Hmax.
  - exists before, after. rewrite Hm. auto.
Qed.

(** A finite number is a zero or a finite binary number. *)
Lemma isFinite_SF (v : float) :
  isFinite v = true ->
  SFisFinite (Prim2SF v) = true /\ isNaN v = false.
Proof.
  unfold isFinite, is_finite, is_infinity.
  rewrite FloatAxioms.eqb_spec, FloatAxioms.abs_spec. fold (isNaN v). rewrite isNaN_spec.
  change (Prim2SF infinity) with (S754_infinity false).
  destruct (Prim2SF v) as [s|s| |s m e]; cbn; try discriminate; auto.
Qed.

(** A finite number minus itself is 0. *)
Lemma sub_self (c : float) : isFinite c = true -> c - c = 0.
Proof.
  intros H. apply isFinite_SF in H as [H _].
  apply Prim2SF_inj. rewrite FloatAxioms.sub_spec.
  change (Prim2SF 0) with (S754_zero false).
  destruct (Prim2SF c) as [s|s| |s m e]; try discriminate.
  - now destruct s.
  - unfold SF64sub, SFsub. rewrite Z.sub_diag. reflexivity.
Qed.

(** A series of equal finite values whose computed mean is their value
    has zero variance as the engine computes it. *)
Lemma constant_series_zeroVariance (c : float) (n : nat) :
  isFinite c = true -> calculateAverage (repeat c n) = c ->
  zeroVariance (repeat c n).
Proof.
  intros Hc Hmean. unfold zeroVariance, sumSquaredDeviations.
  rewrite Hmean.
  assert (H : fold_left (fun sum xi => sum + pow2 (xi - c)) (repeat c n) 0
              = 0).
  { clear Hmean. induction n as [|n IH]; [reflexivity|].
    cbn [repeat fold_left]. rewrite (sub_self c Hc).
    change (0 + pow2 0) with 0. exact IH. }
  rewrite H. reflexivity.
Qed.

Lemma eqb_zero_inv (s : float) :
  (s =? 0) = true -> s = 0 \/ s = (-0).
Proof.
  rewrite FloatAxioms.eqb_spec, SFeqb_true_iff.
  intros H.
  assert (Hz : exists b, Prim2SF s = S754_zero b).
  { destruct H as [[H _]|[H _]].
    - exists false. rewrite H. reflexivity.
    - destruct (Prim2SF s) as [b| | |]; try discriminate. now exists b. }
  destruct Hz as [b Hb].
  rewrite <- (SF2Prim_Prim2SF s), Hb.
  destruct b; [right|left]; reflexivity.
Qed.

Lemma sqrt_zero (s : float) : (s =? 0) = true -> (sqrt s =? 0) = true.
Proof. intros H. destruct (eqb_zero_inv s H) as [-> | ->]; reflexivity. Qed.

(** C5 (amended): the statistics functions are total functions of their
    inputs and return 0 in the degenerate cases: average, pass
    percentage, standard deviation and mode of an empty list;
    coefficient of variation for an average equal to 0; correlation of
    empty series, of series of different lengths, and of series one of
    which has zero variance as the engine computes it, the sum of the
    squared deviations from the computed mean being 0, as it is for a
    series of equal finite values whose computed mean is their value. *)
Theorem statistics_fallbacks :
  calculateAverage [] = 0 /\
  (forall threshold, calculatePassPercentage [] threshold = 0) /\
  calculateStandardDeviation [] = 0 /\
  calculateMode [] = 0 /\
  (forall average stdDev,
     (average =? 0) = true -> calculateCV average stdDev = 0) /\
  (forall x y, x = [] \/ y = [] -> calculateCorrelation x y = 0) /\
  (forall x y, length x <> length y -> calculateCorrelation x y = 0) /\
  (forall x y, zeroVariance x \/ zeroVariance y ->
     calculateCorrelation x y = 0) /\
  (forall c n y,
     isFinite c = true -> calculateAverage (repeat c n) = c ->
     zeroVariance (repeat c n) /\
     calculateCorrelation (repeat c n) y = 0 /\
     calculateCorrelation y (repeat c n) = 0).
Proof.
  assert (Hzero : forall x y, zeroVariance x \/ zeroVariance y ->
            calculateCorrelation x y = 0).
  { intros x y H. unfold calculateCorrelation.
    destruct (negb (length x =? length y)%nat || (length x =? 0)%nat);
      [reflexivity|].
    cbv zeta.
    destruct H as [H|H]; apply sqrt_zero in H; rewrite H;
      [reflexivity | now rewrite orb_true_r]. }
  split; [reflexivity|]. split; [reflexivity|]. split; [reflexivity|].
  split; [reflexivity|]. split; [|split; [|split; [|split]]].
  - intros average stdDev H. unfold calculateCV. now rewrite H.
  - intros x y [-> | ->]; unfold calculateCorrelation; cbn [length].
    + now rewrite orb_true_r.
    + now destruct (length x).
  - intros x y H. unfold calculateCorrelation.
    destruct (Nat.eqb_spec (length x) (length y)); [contradiction|reflexivity].
  - exact Hzero.
  - intros value n y Hc Hmean.
    pose proof (constant_series_zeroVariance value n Hc Hmean) as Hv.
    split; [exact Hv|]. split; apply Hzero; auto.
Qed.

Lemma statistics_fallbacks_witness :
  calculateCV (-0) 3 = 0 /\
  calculateCorrelation [] [1] = 0 /\
  calculateCorrelation [1; 2] [1] = 0 /\
  calculateCorrelation [5; 5] [1; 2] = 0 /\
  calculateCorrelation [1; 2; 4; 8] [7; 7; 7; 7] = 0.
Proof.
  destruct statistics_fallbacks
    as (_ & _ & _ & _ & Hcv & Hempty & Hlen & Hvar & Hconstant).
  split; [|split; [|split; [|split]]].
  - apply Hcv. reflexivity.
  - apply Hempty. left. reflexivity.
  - apply Hlen. cbn. lia.
  - apply Hvar. left. reflexivity.
  - exact (proj2 (proj2 (Hconstant 7 4%nat [1; 2; 4; 8] eq_refl eq_refl))).
Defined.

(** The cross products of the numerator pair up the same entries in
    either argument order. *)
Lemma numerator_sym (a b : float) : forall xs ys px py i acc,
  length px = i -> length py = i -> length xs = length ys ->
  reduceFrom (fun sum xi j => sum + (xi - a) * (at_ (py ++ ys) j - b))
    i xs acc =
  reduceFrom (fun sum yi j => sum + (yi - b) * (at_ (px ++ xs) j - a))
    i ys acc.
Proof.
  induction xs as [|x xs IH]; intros [|y ys] px py i acc Hpx Hpy Hlen;
    try discriminate; [reflexivity|].
  cbn [reduceFrom].
  assert (Hy : at_ (py ++ y :: ys) i = y).
  { unfold at_. subst i. rewrite <- Hpy. apply List.nth_middle. }
  assert (Hx : at_ (px ++ x :: xs) i = x).
  { unfold at_. subst i. apply List.nth_middle. }
  rewrite Hx, Hy, (mul_comm (x - a) (y - b)).
  replace (py ++ y :: ys) with ((py ++ [y]) ++ ys)
    by now rewrite <- List.app_assoc.
  replace (px ++ x :: xs) with ((px ++ [x]) ++ xs)
    by now rewrite <- List.app_assoc.
  apply IH; rewrite ?List.length_app; cbn; try lia.
  now injection Hlen.
Qed.

Lemma calculateCorrelation_swap (x y : list float) :
  calculateCorrelation x y = calculateCorrelation y x.
Proof.
  unfold calculateCorrelation.
  rewrite (Nat.eqb_sym (length y) (length x)).
  destruct (Nat.eqb_spec (length x) (length y)) as [Hlen|Hlen];
    [|reflexivity].
  rewrite <- Hlen. cbn [negb orb].
  destruct (length x =? 0)%nat; [reflexivity|]. cbv zeta.
  rewrite (orb_comm (sqrt (sumSquaredDeviations y (calculateAverage y)) =? 0)).
  destruct (_ || _); [reflexivity|].
  rewrite (mul_comm (sqrt (sumSquaredDeviations y (calculateAverage y)))).
  f_equal. unfold reduce.
  apply (numerator_sym (calculateAverage x) (calculateAverage y) x y [] []);
    auto.
Qed.

(** C6 (amended): [calculateCorrelation] is symmetric in its two
    arguments: for all series, of equal length or not, swapping them
    yields the very same number, [NaN] included.  The interval from -1
    to 1 holds the value of the formula in exact arithmetic; the
    rounded result can leave it. *)
Theorem calculateCorrelation_symmetric_exactly_bounded :
  (forall x y : list float,
     calculateCorrelation x y = calculateCorrelation y x) /\
  (forall x y : list R,
     (-1 <= Exact.calculateCorrelation x y <= 1)%R).
Proof.
  split; [apply calculateCorrelation_swap|apply exact_correlation_bounded].
Qed.

(** C6, as stated, fails: the grades 10, 10, 13 have mean 11 and squared
    deviations 1, 1, 4, all exact; correlated with themselves they give
    6 divided by the square of the rounded root of 6, which is
    1.0000000000000002, above 1. *)
Lemma calculateCorrelation_exceeds_one :
  length [10; 10; 13] = length [10; 10; 13] /\
  calculateAverage [10; 10; 13] = 11 /\
  sumSquaredDeviations [10; 10; 13] 11 = 6 /\
  sqrt 6 * sqrt 6 = 0x1.7ffffffffffffp+2 /\
  calculateCorrelation [10; 10; 13] [10; 10; 13] = 0x1.0000000000001p+0 /\
  (calculateCorrelation [10; 10; 13] [10; 10; 13] <=? 1) = false.
Proof. repeat split. Qed.

(** Nor is the result always a number in range for finite inputs: the
    squares of large deviations overflow. *)
Remark calculateCorrelation_overflow :
  calculateCorrelation [0x1p+600; 0] [0x1p+600; 0] = nan.
Proof. reflexivity. Qed.

(** C5, as stated, fails: a series of three equal values, each the
    binary64 value nearest to 0.1, has zero variance, and yet its
    correlation with [1, 2, 4] is computed above 0.  The mean of the
    series is computed one unit in the last place above the value, so
    the sum of squared deviations that the guard tests is not 0.  The
    zero variance that makes the correlation 0 is the one the engine
    computes, as for [5, 5], whose computed mean is 5. *)
Remark constant_series_rounded_mean :
  let tenth := 0x1.999999999999ap-4 in
  let x := [tenth; tenth; tenth] in
  x = repeat tenth 3 /\
  calculateAverage x = 0x1.999999999999bp-4 /\
  (sumSquaredDeviations x (calculateAverage x) =? 0) = false /\
  (calculateCorrelation x [1; 2; 4] =? 0) = false /\
  (0 <? calculateCorrelation x [1; 2; 4]) = true /\
  zeroVariance [5; 5] /\
  calculateCorrelation [5; 5] [1; 2] = 0.
Proof. repeat split. Qed.

End StatisticsFacts.

(** ** Derived views of [dataProcessing.ts] *)

Section DataProcessingFacts.
Import Js Types DataProcessing.
#[local] Open Scope float_scope.

(** A memoized call with a valid slot returns what [fn] computes. *)
Lemma memoize_valid {Args T : Type} (refs : Args -> list nat)
    (fn : Args -> T) cache args :
  cacheValid refs fn cache args ->
  fst (memoize refs fn cache args) = fn args.
Proof.
  intros Hvalid. unfold memoize.
  destruct cache as [slot|]; [|reflexivity].
  destruct (bool_decide_reflect (refs args = lastArgs slot)) as [Heq|Hne];
    [|reflexivity].
  cbn. now apply Hvalid.
Qed.

(** The cache answers by identity alone: a slot filled for an array is
    served for the same array whatever it holds now, which is why the
    results below ask for valid slots. *)
Remark memoize_by_identity {Args T : Type} (refs : Args -> list nat)
    (fn : Args -> T) (slot : Slot T) (args : Args) :
  refs args = lastArgs slot ->
  fst (memoize refs fn (Some slot) args) = lastResult slot.
Proof.
  intros Heq. unfold memoize.
  destruct (bool_decide_reflect (refs args = lastArgs slot));
    [reflexivity|contradiction].
Qed.

Lemma distributionStats_agrees students subjects :
  Forall2 distributionAgrees
    (distributionStats students subjects)
    (subjectAnalysis students subjects).
Proof.
  unfold distributionStats, subjectAnalysis.
  induction subjects as [|subject subjects IH]; cbn [map]; constructor.
  - repeat split.
  - exact IH.
Qed.

(** C4: on the same students and subjects, [getDistributionStats] and
    [getSubjectAnalysis] return lists of the same length, one record per
    subject in order, whose subject, average, pass percentage and five
    bucket counts coincide, the distribution record having [stdDev],
    [cv], [mode] equal to 0 and an empty [comparison]. *)
Theorem getDistributionStats_matches_getSubjectAnalysis
    (students : Array Student) (subjects : Array string)
    (cacheD cacheA : option (Slot (list SubjectStats))) :
  cacheValid pairRefs distributionStatsOf cacheD (students, subjects) ->
  cacheValid pairRefs subjectAnalysisOf cacheA (students, subjects) ->
  let d := fst (getDistributionStats cacheD (students, subjects)) in
  let a := fst (getSubjectAnalysis cacheA (students, subjects)) in
  map subject d = elems subjects /\ Forall2 distributionAgrees d a.
Proof.
  intros HD HA d a. subst d a.
  unfold getDistributionStats, getSubjectAnalysis.
  rewrite (memoize_valid _ _ _ _ HD), (memoize_valid _ _ _ _ HA).
  unfold distributionStatsOf, subjectAnalysisOf. cbn [fst snd].
  split; [|apply distributionStats_agrees].
  unfold distributionStats. rewrite List.map_map. cbn. apply List.map_id.
Qed.

Lemma filter_complement_length {A : Type} (p : A -> bool) (l : list A) :
  (length l - length (List.filter p l))%nat
  = length (List.filter (fun x => negb (p x)) l).
Proof.
  assert (H : (length (List.filter p l)
               + length (List.filter (fun x => negb (p x)) l))%nat = length l).
  { induction l as [|x l IH]; cbn; [reflexivity|].
    destruct (p x); cbn; lia. }
  lia.
Qed.

Lemma female_not_male (c : Cell) :
  isText c FEMALE = true -> isText c MALE = false.
Proof.
  destruct c as [|s|v]; cbn; try discriminate.
  intros H. apply String.eqb_eq in H. subst s. reflexivity.
Qed.

(** Successful students split into females, males and the others. *)
Lemma successful_partition (students : list Student) :
  length (List.filter (fun s => geb (semesterAverage s) 10) students)
  = (length (List.filter
       (fun s => geb (semesterAverage s) 10 && isText (gender s) FEMALE)
       students)
     + length (List.filter
       (fun s => geb (semesterAverage s) 10 && isText (gender s) MALE)
       students)
     + length (List.filter
       (fun s => geb (semesterAverage s) 10
                 && negb (isText (gender s) FEMALE)
                 && negb (isText (gender s) MALE))
       students))%nat.
Proof.
  induction students as [|s students IH]; cbn [List.filter]; [reflexivity|].
  destruct (geb (semesterAverage s) 10); cbn [andb]; [|exact IH].
  destruct (isText (gender s) FEMALE) eqn:Hf.
  - rewrite (female_not_male _ Hf). cbn [negb andb length]. lia.
  - destruct (isText (gender s) MALE); cbn [negb andb length]; lia.
Qed.

Lemma filter_nonempty {A : Type} (p : A -> bool) (l : list A) (x : A) :
  In x l -> p x = true -> (0 < length (List.filter p l))%nat.
Proof.
  intros Hin Hp.
  assert (In x (List.filter p l)) as H by (apply List.filter_In; auto).
  destruct (List.filter p l); [contradiction|cbn; lia].
Qed.

(** C10: the male headcount of [getCategoryGlobalStats] is the number of
    students whose gender is not the exact female label, and it is the
    denominator of the male success rate, while [successfulMales] counts
    the exact male label only; hence a successful student with any other
    label makes [successfulFemales + successfulMales] fall strictly below
    [successfulStudents]. *)
Theorem getCategoryGlobalStats_unrecognized_gender
    (students : Array Student) (cache : option (Slot GlobalStats)) :
  cacheValid studentsRef categoryGlobalStatsOf cache students ->
  let stats := fst (getCategoryGlobalStats cache students) in
  totalMales (elems students)
    = length (List.filter (fun s => negb (isText (gender s) FEMALE))
                (elems students)) /\
  maleSuccessRate stats
    = (if (totalMales (elems students) =? 0)%nat then 0
       else (ofNat (successfulMales stats)
             / ofNat (totalMales (elems students))) * 100) /\
  successfulMales stats
    = length (List.filter
        (fun s => geb (semesterAverage s) 10 && isText (gender s) MALE)
        (elems students)) /\
  ((exists s, In s (elems students) /\
              geb (semesterAverage s) 10 = true /\
              isText (gender s) FEMALE = false /\
              isText (gender s) MALE = false) ->
   (successfulFemales stats + successfulMales stats
    < successfulStudents stats)%nat).
Proof.
  intros Hvalid stats. subst stats. unfold getCategoryGlobalStats.
  rewrite (memoize_valid _ _ _ _ Hvalid). unfold categoryGlobalStatsOf.
  split; [apply filter_complement_length|].
  split; [reflexivity|]. split; [reflexivity|].
  intros (s & Hin & Havg & Hf & Hm).
  cbn [categoryGlobalStats successfulFemales successfulMales successfulStudents].
  rewrite (successful_partition (elems students)).
  assert (0 < length (List.filter
       (fun s => geb (semesterAverage s) 10
                 && negb (isText (gender s) FEMALE)
                 && negb (isText (gender s) MALE))
       (elems students)))%nat.
  { apply (filter_nonempty _ _ s Hin). now rewrite Havg, Hf, Hm. }
  lia.
Qed.

End DataProcessingFacts.

(** ** Ingestion of one sheet *)

Section ParseFacts.
Import Js Types Ingest.
Context {B : Builtins}.

(** A file that is read and decoded is parsed from its rows. *)
Lemma parseExcelFile_rows (file : File) (rawData : list (list Cell)) :
  sheet file = Some rawData -> parseExcelFile file = parseRows rawData.
Proof.
  unfold sheet, parseExcelFile.
  destruct (reading file); intros [= <-]; reflexivity.
Qed.

(** Only a file that is read and decoded is parsed. *)
Lemma parsed_sheet (file : File) (result : ParseResult) :
  parseExcelFile file = Ok result -> exists rawData, sheet file = Some rawData.
Proof.
  unfold sheet, parseExcelFile.
  destruct (reading file); try discriminate. eauto.
Qed.

Lemma dropWhile_split {A : Type} (p : A -> bool) (l : list A) :
  exists dropped,
    l = dropped ++ dropWhile p l /\ forallb p dropped = true.
Proof.
  induction l as [|x l (dropped & Hl & Hp)]; cbn.
  - exists []. auto.
  - destruct (p x) eqn:Hx.
    + exists (x :: dropped). cbn. rewrite Hx, Hp. split; [congruence|reflexivity].
    + exists []. auto.
Qed.

Lemma dropWhile_head {A : Type} (p : A -> bool) (l : list A) x rest :
  dropWhile p l = x :: rest -> p x = false.
Proof.
  induction l as [|y l IH]; cbn; [discriminate|].
  destruct (p y) eqn:Hy; [exact IH|]. intros [= <- _]. exact Hy.
Qed.

Lemma dropWhile_nil {A : Type} (p : A -> bool) (l : list A) :
  dropWhile p l = [] <-> forallb p l = true.
Proof.
  induction l as [|x l IH]; cbn; [tauto|].
  destruct (p x); cbn; [exact IH|]. split; discriminate.
Qed.

(** The blank-row loop removes a suffix of blank rows and stops at a row
    that is not blank. *)
Lemma popBlankRows_spec (rows : list (list Cell)) :
  exists blanks,
    rows = popBlankRows rows ++ blanks /\
    Forall (fun row => isBlankRow row = true) blanks /\
    forall row, last (popBlankRows rows) = Some row -> isBlankRow row = false.
Proof.
  unfold popBlankRows.
  destruct (dropWhile_split isBlankRow (rev rows)) as (dropped & Hsplit & Hblank).
  exists (rev dropped). split; [|split].
  - rewrite <- List.rev_app_distr, <- Hsplit. now rewrite List.rev_involutive.
  - apply List.Forall_forall. intros row Hin.
    apply List.in_rev in Hin.
    rewrite List.forallb_forall in Hblank. now apply Hblank.
  - intros row. destruct (dropWhile isBlankRow (rev rows)) as [|x rest] eqn:E.
    + discriminate.
    + cbn [rev]. rewrite last_snoc. intros [= <-].
      exact (dropWhile_head _ _ _ _ E).
Qed.

Lemma popBlankRows_nil (rows : list (list Cell)) :
  popBlankRows rows = [] <-> forallb isBlankRow rows = true.
Proof.
  unfold popBlankRows. split.
  - intros H. apply (f_equal (@rev _)) in H.
    rewrite List.rev_involutive in H. cbn in H.
    apply dropWhile_nil in H.
    rewrite List.forallb_forall in *. intros row Hin.
    apply H. now apply List.in_rev in Hin.
  - intros H. assert (Hr : forallb isBlankRow (rev rows) = true).
    { rewrite List.forallb_forall in *. intros row Hin.
      apply H. now apply List.in_rev. }
    apply dropWhile_nil in Hr. now rewrite Hr.
Qed.

Lemma pruneTrailing_nil (rows : list (list Cell)) :
  pruneTrailing rows = [] <-> forallb isBlankRow rows = true.
Proof.
  rewrite <- popBlankRows_nil. unfold pruneTrailing, popSummaryRow.
  destruct (popBlankRows rows) as [|x [|y rest]]; cbn; split;
    try discriminate; auto.
Qed.

Lemma tail_popSummaryRow (kept : list (list Cell)) :
  tail (popSummaryRow kept) = removelast (tail kept).
Proof. unfold popSummaryRow. destruct kept as [|x [|y rest]]; reflexivity. Qed.

Lemma head_popSummaryRow (kept : list (list Cell)) :
  head (popSummaryRow kept) = head kept.
Proof. unfold popSummaryRow. destruct kept as [|x [|y rest]]; reflexivity. Qed.

(** The outcome of [parseRows], by what is left of the sheet after
    pruning. *)
Lemma parseRows_cases (rawData : list (list Cell)) :
  let jsonData := pruneTrailing (drop (headerRowIndex rawData) rawData) in
  match rawData, jsonData with
  | [], _ => parseRows rawData = Err EmptyInput
  | _ :: _, [] => parseRows rawData = Err InsufficientData
  | _ :: _, headerRow :: body =>
      if (length headerRow <? 3)%nat
      then parseRows rawData = Err UnsupportedHeader
      else exists result,
        parseRows rawData = Ok result /\
        students result =
          omap (fun built => built)
            (imap (buildStudent (candidateSubjects headerRow)
                     (extractMetadata rawData)) body) /\
        metadata result = extractMetadata rawData
  end.
Proof.
  cbv zeta. unfold parseRows.
  destruct rawData as [|row0 rawData']; [reflexivity|].
  remember (row0 :: rawData') as rawData eqn:HrawData.
  replace (length rawData =? 0)%nat with false by now subst rawData.
  destruct (pruneTrailing (drop (headerRowIndex rawData) rawData))
    as [|headerRow body]; [reflexivity|].
  replace (length (headerRow :: body) <? 1)%nat with false by reflexivity.
  destruct (length headerRow <? 3)%nat; [reflexivity|].
  eexists. split; [reflexivity|]. split; reflexivity.
Qed.

(** C1 (amended): ingestion of one sheet fails with the InsufficientData
    error, whose message differs from those of the other two parse
    failures, exactly when the sheet has rows and none is left after
    header-row detection and trailing-row pruning, that is when every
    row from the header row on is blank.  When rows are left the outcome
    is never InsufficientData; in particular, when the header row alone
    is left and has at least 3 cells, the parse succeeds with an empty
    student list. *)
Theorem parseExcelFile_insufficient_data (file : File)
    (rawData : list (list Cell)) :
  sheet file = Some rawData ->
  let rows := drop (headerRowIndex rawData) rawData in
  (parseExcelFile file = Err InsufficientData
   <-> rawData <> [] /\ pruneTrailing rows = []) /\
  (pruneTrailing rows = [] <-> forallb isBlankRow rows = true) /\
  (forall headerRow,
     pruneTrailing rows = [headerRow] -> (3 <= length headerRow)%nat ->
     exists result,
       parseExcelFile file = Ok result /\ students result = []) /\
  message InsufficientData <> message EmptyInput /\
  message InsufficientData <> message UnsupportedHeader.
Proof.
  intros Hsheet rows. rewrite (parseExcelFile_rows _ _ Hsheet).
  pose proof (parseRows_cases rawData) as Hcases. cbv zeta in Hcases.
  fold rows in Hcases.
  split; [|split; [apply pruneTrailing_nil|split; [|split; discriminate]]].
  - destruct rawData as [|row0 rawData'].
    + rewrite Hcases. split; [discriminate|]. intros [H _]. now elim H.
    + clearbody rows. destruct (pruneTrailing rows) as [|headerRow body].
      * rewrite Hcases. split; [intros _|reflexivity].
        split; [discriminate|reflexivity].
      * split; [|intros [_ H]; discriminate].
        destruct (length headerRow <? 3)%nat.
        -- rewrite Hcases. discriminate.
        -- destruct Hcases as (result & -> & _). discriminate.
  - intros headerRow Hpruned Hlen.
    destruct rawData as [|row0 rawData'].
    + subst rows. rewrite drop_nil in Hpruned. discriminate.
    + clearbody rows. rewrite Hpruned in Hcases.
      destruct (Nat.ltb_spec (length headerRow) 3) as [Hlt|_]; [lia|].
      destruct Hcases as (result & Hok & Hstudents & _).
      exists result. split; [exact Hok|]. rewrite Hstudents. reflexivity.
Qed.

(** The students of a parsed sheet are built from the rows strictly
    between the first and the last of those that the blank-row loop
    keeps. *)
Lemma parsed_students (rawData : list (list Cell)) (file : File)
    (result : ParseResult) :
  sheet file = Some rawData -> parseExcelFile file = Ok result ->
  exists headerRow,
    head (popBlankRows (drop (headerRowIndex rawData) rawData))
    = Some headerRow /\
    students result =
      omap (fun built => built)
        (imap (buildStudent (candidateSubjects headerRow)
                 (extractMetadata rawData))
           (removelast
              (tail (popBlankRows
                       (drop (headerRowIndex rawData) rawData))))).
Proof.
  intros Hsheet Hparse.
  rewrite (parseExcelFile_rows _ _ Hsheet) in Hparse.
  pose proof (parseRows_cases rawData) as Hcases. cbv zeta in Hcases.
  set (rows := drop (headerRowIndex rawData) rawData) in *.
  set (kept := popBlankRows rows).
  assert (Hhead : head (pruneTrailing rows) = head kept)
    by apply head_popSummaryRow.
  assert (Htail : tail (pruneTrailing rows) = removelast (tail kept))
    by apply tail_popSummaryRow.
  destruct rawData as [|row0 rawData'];
    [rewrite Hcases in Hparse; discriminate|].
  clearbody kept rows.
  destruct (pruneTrailing rows) as [|headerRow body];
    [rewrite Hcases in Hparse; discriminate|].
  destruct (length headerRow <? 3)%nat;
    [rewrite Hcases in Hparse; discriminate|].
  destruct Hcases as (result' & Hok & Hstudents & _).
  rewrite Hok in Hparse. injection Hparse as <-.
  exists headerRow. split; [now rewrite <- Hhead|].
  cbn [tail] in Htail. now rewrite <- Htail.
Qed.

(** C3 (amended): from the header row on, the ingestion removes the
    trailing blank rows, down to a row that is not blank; then, when more
    than one row is left, it removes exactly one more, the last, whatever
    its content, and when at most one row is left (the header row at
    most) it removes nothing more.  Hence for every sheet that parses,
    student records are built only from the rows strictly between the
    header row and the last non-blank row: that last row never yields a
    student. *)
Theorem pruning_discards_last_row (rawData : list (list Cell)) :
  let rows := drop (headerRowIndex rawData) rawData in
  let kept := popBlankRows rows in
  (exists blanks,
     rows = kept ++ blanks /\
     Forall (fun row => isBlankRow row = true) blanks /\
     forall row, last kept = Some row -> isBlankRow row = false) /\
  ((1 < length kept)%nat ->
     exists lastRow, kept = pruneTrailing rows ++ [lastRow]) /\
  ((length kept <= 1)%nat -> pruneTrailing rows = kept) /\
  (forall file result,
     sheet file = Some rawData -> parseExcelFile file = Ok result ->
     exists headerRow,
       head kept = Some headerRow /\
       students result =
         omap (fun built => built)
           (imap (buildStudent (candidateSubjects headerRow)
                    (extractMetadata rawData))
              (removelast (tail kept)))).
Proof.
  intros rows kept.
  split; [apply popBlankRows_spec|]. split; [|split].
  - intros Hlen. unfold pruneTrailing, popSummaryRow. fold kept.
    apply Nat.ltb_lt in Hlen. rewrite Hlen.
    destruct (List.exists_last (l := kept)) as (front & lastRow & Hkept).
    { intros E. rewrite E in Hlen. discriminate. }
    exists lastRow. rewrite Hkept at 2. now rewrite List.removelast_last.
  - intros Hlen. unfold pruneTrailing, popSummaryRow. fold kept.
    apply Nat.ltb_ge in Hlen. now rewrite Hlen.
  - intros file result Hsheet Hparse.
    exact (parsed_students rawData file result Hsheet Hparse).
Qed.

Lemma reduceFrom_app {A C : Type} (f : C -> A -> nat -> C) (l1 l2 : list A) :
  forall i acc,
    reduceFrom f i (l1 ++ l2) acc
    = reduceFrom f (i + length l1) l2 (reduceFrom f i l1 acc).
Proof.
  induction l1 as [|x l1 IH]; intros i acc; cbn.
  - now rewrite Nat.add_0_r.
  - rewrite IH. f_equal. lia.
Qed.

Lemma reduceFrom_unchanged {A C : Type} (f : C -> A -> nat -> C) (l : list A) :
  forall i acc,
    (forall acc' x j, (i <= j)%nat -> f acc' x j = acc') ->
    reduceFrom f i l acc = acc.
Proof.
  induction l as [|x l IH]; intros i acc Hf; cbn; [reflexivity|].
  rewrite Hf by lia. apply IH. intros acc' y j Hj. apply Hf. lia.
Qed.

Lemma cellAt_past_end (row : list Cell) (i : nat) :
  (length row <= i)%nat -> cellAt row i = Empty.
Proof. intros H. unfold cellAt. now apply List.nth_overflow. Qed.

Lemma cellAt_last (row : list Cell) (lastCell : Cell) :
  last row = Some lastCell -> cellAt row (length row - 1) = lastCell.
Proof.
  intros H. destruct (List.exists_last (l := row)) as (front & c & ->).
  { intros ->. discriminate. }
  rewrite last_snoc in H. injection H as ->.
  unfold cellAt. rewrite List.length_app. cbn [length].
  replace (length front + 1 - 1)%nat with (length front) by lia.
  apply List.nth_middle.
Qed.

(** The loop of [collectGrades] stops mattering where the grade area
    ends: the grades are those of the columns before the last cell of
    the area, and what the column of that cell adds. *)
Lemma collectGrades_last_column (subjects gradesData : list Cell)
    (lastCell subj : Cell) :
  last gradesData = Some lastCell ->
  subjects !! (length gradesData - 1)%nat = Some subj ->
  collectGrades subjects gradesData
  = let before :=
      collectGrades (take (length gradesData - 1) subjects) gradesData in
    match propertyKey subj, coerce lastCell with
    | Some key, Some numVal => setProperty key numVal before
    | _, _ => before
    end.
Proof.
  intros Hlast Hsubj.
  pose proof (cellAt_last _ _ Hlast) as Hcell.
  assert (Hpos : (0 < length gradesData)%nat).
  { destruct gradesData; [discriminate|cbn; lia]. }
  unfold collectGrades at 1, reduce.
  rewrite <- (take_drop_middle _ _ _ Hsubj) at 1.
  rewrite reduceFrom_app. cbn [reduceFrom].
  rewrite Nat.add_0_l, length_take.
  apply lookup_lt_Some in Hsubj as Hlt.
  rewrite (Nat.min_l (length gradesData - 1) (length subjects)) by lia.
  rewrite Hcell.
  rewrite reduceFrom_unchanged.
  - cbv zeta. unfold collectGrades, reduce.
    destruct (propertyKey subj), (coerce lastCell); reflexivity.
  - intros acc' x j Hj. rewrite cellAt_past_end by lia.
    destruct (propertyKey x); reflexivity.
Qed.

(** No grade is ever held under the key of the prototype accessor. *)
Lemma collectGrades_no_proto (subjects gradesData : list Cell) :
  collectGrades subjects gradesData !! PROTO = None.
Proof.
  unfold collectGrades, reduce.
  assert (H : forall i (acc : gmap string number),
            acc !! PROTO = None ->
            reduceFrom
              (fun (grades : gmap string number) subj i =>
                 match propertyKey subj with
                 | Some key =>
                     match coerce (cellAt gradesData i) with
                     | Some numVal => setProperty key numVal grades
                     | None => grades
                     end
                 | None => grades
                 end) i subjects acc !! PROTO = None).
  { induction subjects as [|subj rest IH]; intros i acc Hacc; cbn [reduceFrom];
      [exact Hacc|].
    apply IH. destruct (propertyKey subj) as [key|]; [|exact Hacc].
    destruct (coerce (cellAt gradesData i)); [|exact Hacc].
    unfold setProperty. destruct (String.eqb_spec key PROTO); [exact Hacc|].
    now rewrite lookup_insert_ne. }
  apply H. apply lookup_empty.
Qed.

Lemma averageOf_last (gradesData : list Cell) (lastCell : Cell) :
  last gradesData = Some lastCell ->
  averageOf gradesData = default 0%float (coerce lastCell).
Proof.
  intros Hlast. unfold averageOf.
  rewrite (cellAt_last _ _ Hlast).
  destruct gradesData; [discriminate|]. cbn [length Nat.ltb Nat.leb].
  now destruct (coerce lastCell).
Qed.

Lemma buildStudent_fields subjects metadata index row s :
  buildStudent subjects metadata index row = Some s ->
  originalRow s = row /\
  grades s = collectGrades subjects (drop 5 row) /\
  semesterAverage s = averageOf (drop 5 row).
Proof.
  unfold buildStudent. destruct (negb (truthy (cellAt row 1))); [discriminate|].
  intros [= <-]. auto.
Qed.

(** C9 (amended): for every student of a parsed sheet whose row has a
    non-empty grade area (the cells from index 5 on), the semester
    average is the coerced value of the last cell of that area, 0 when
    the cell does not coerce to a number.  When the grade area has no more cells than
    there are candidate subjects and its last cell coerces to [v], the
    semester average is [v], and the grades are those of the columns
    before that cell together with what its own column adds: [v] under
    the name given by the header cell of the column, provided that the
    header row has a cell there and that the name is not [__proto__];
    otherwise the column adds nothing and [v] is the semester average
    only. *)
Theorem semesterAverage_from_last_grade_cell (file : File)
    (rawData : list (list Cell)) (result : ParseResult) (s : Student) :
  sheet file = Some rawData ->
  parseExcelFile file = Ok result ->
  In s (students result) ->
  let gradesData := drop 5 (originalRow s) in
  let candidates :=
    candidateSubjects (nth (headerRowIndex rawData) rawData []) in
  forall lastCell, last gradesData = Some lastCell ->
    semesterAverage s = default 0%float (coerce lastCell) /\
    ((length gradesData <= length candidates)%nat ->
     forall v, coerce lastCell = Some v ->
       semesterAverage s = v /\
       exists subj,
         candidates !! (length gradesData - 1)%nat = Some subj /\
         let before :=
           collectGrades (take (length gradesData - 1) candidates)
             gradesData in
         match propertyKey subj with
         | Some key =>
             if String.eqb key PROTO
             then grades s = before /\ grades s !! key = None
             else grades s = <[key := v]> before /\ grades s !! key = Some v
         | None => grades s = before
         end).
Proof.
  intros Hsheet Hparse Hin gradesData candidates lastCell Hlast.
  destruct (parsed_students rawData file result Hsheet Hparse)
    as (headerRow & Hhead & Heq).
  assert (HheaderRow : nth (headerRowIndex rawData) rawData [] = headerRow).
  { destruct (popBlankRows_spec (drop (headerRowIndex rawData) rawData))
      as (blanks & Hrows & _).
    destruct (popBlankRows (drop (headerRowIndex rawData) rawData))
      as [|h kept']; [discriminate|].
    injection Hhead as ->.
    rewrite nth_lookup.
    pose proof (lookup_drop rawData (headerRowIndex rawData) 0) as Hl.
    rewrite Hrows, Nat.add_0_r in Hl. cbn in Hl. now rewrite <- Hl. }
  apply list_elem_of_In in Hin. rewrite Heq in Hin.
  apply list_elem_of_omap in Hin as (built & Hbuilt & Hsome).
  apply elem_of_lookup_imap in Hbuilt as (index & row & -> & _).
  apply buildStudent_fields in Hsome as (Hrow & Hgrades & Havg).
  subst candidates gradesData. rewrite HheaderRow, Hrow in *.
  assert (Hsem : semesterAverage s = default 0%float (coerce lastCell))
    by (rewrite Havg; now apply averageOf_last).
  split; [exact Hsem|].
  intros Hlen v Hcoerce.
  split; [rewrite Hsem, Hcoerce; reflexivity|].
  assert (Hpos : (0 < length (drop 5 row))%nat).
  { destruct (drop 5 row); [discriminate|cbn; lia]. }
  destruct (lookup_lt_is_Some_2 (candidateSubjects headerRow)
              (length (drop 5 row) - 1)) as [subj Hsubj]; [lia|].
  exists subj. split; [exact Hsubj|]. cbv zeta.
  rewrite Hgrades.
  rewrite (collectGrades_last_column _ _ lastCell subj Hlast Hsubj).
  cbv zeta. rewrite Hcoerce.
  destruct (propertyKey subj) as [key|]; [|reflexivity].
  unfold setProperty. destruct (String.eqb_spec key PROTO) as [->|Hkey].
  - split; [reflexivity|apply collectGrades_no_proto].
  - split; [reflexivity|apply lookup_insert_eq].
Qed.

End ParseFacts.

(** ** Aggregation of several sheets *)

Section AggregateFacts.
Import Js Types Ingest.
Context {B : Builtins}.

Lemma append_assoc (a b c : string) :
  ((a ++ b) ++ c = a ++ b ++ c)%string.
Proof.
  induction a as [|ch a IH]; [reflexivity|].
  change (String ch ((a ++ b) ++ c) = String ch (a ++ b ++ c))%string.
  now rewrite IH.
Qed.

Lemma mergeFile_with_master k file st master :
  masterMetadata st = Some master ->
  match parseExcelFile file with
  | Err e => mergeFile k file st = Err e
  | Ok r =>
      if negb (String.eqb (level (metadata r)) (level master))
      then mergeFile k file st
           = Err (LevelMismatch (fileName file) (level (metadata r))
                    (level master))
      else if negb (String.eqb (stream (metadata r)) (stream master))
      then mergeFile k file st
           = Err (StreamMismatch (fileName file) (stream (metadata r))
                    (stream master))
      else exists st', mergeFile k file st = Ok st' /\
                       masterMetadata st' = Some master
  end.
Proof.
  intros Hmaster. unfold mergeFile. rewrite Hmaster.
  destruct (parseExcelFile file) as [r|e]; [|reflexivity].
  destruct (negb (String.eqb (level (metadata r)) (level master)));
    [reflexivity|].
  destruct (negb (String.eqb (stream (metadata r)) (stream master)));
    [reflexivity|].
  eexists. split; reflexivity.
Qed.

(** Once the first file has fixed the master metadata, a batch that
    holds a differing file aborts. *)
Lemma mergeFiles_aborts master : forall others k st,
  masterMetadata st = Some master ->
  Exists (differs master) others ->
  exists e, mergeFiles k others st = Err e.
Proof.
  induction others as [|file rest IH]; intros k st Hmaster Hex.
  - inversion Hex.
  - cbn [mergeFiles].
    pose proof (mergeFile_with_master k file st master Hmaster) as Hstep.
    destruct (parseExcelFile file) as [r|e0] eqn:Hparse;
      [|rewrite Hstep; eauto].
    destruct (String.eqb_spec (level (metadata r)) (level master))
      as [Hlevel|Hlevel]; cbn [negb] in Hstep; [|rewrite Hstep; eauto].
    destruct (String.eqb_spec (stream (metadata r)) (stream master))
      as [Hstream|Hstream]; cbn [negb] in Hstep; [|rewrite Hstep; eauto].
    destruct Hstep as (st' & -> & Hmaster').
    apply (IH (S k) st' Hmaster').
    inversion Hex as [? ? (r' & Hr' & Hd)|]; subst; [|assumption].
    rewrite Hparse in Hr'. injection Hr' as <-.
    destruct Hd; contradiction.
Qed.

(** The files are checked in order: the error reports the first file
    that differs. *)
Lemma mergeFiles_first_mismatch master bad rb after : forall before k st,
  masterMetadata st = Some master ->
  Forall (agrees master) before ->
  parseExcelFile bad = Ok rb ->
  level (metadata rb) <> level master \/ stream (metadata rb) <> stream master ->
  exists e,
    mergeFiles k (before ++ bad :: after) st = Err e /\
    reportsMismatch e bad rb master.
Proof.
  induction before as [|file before IH]; intros k st Hmaster Hagree Hbad Hdiff;
    cbn [app mergeFiles].
  - pose proof (mergeFile_with_master k bad st master Hmaster) as Hstep.
    rewrite Hbad in Hstep.
    destruct (String.eqb_spec (level (metadata rb)) (level master))
      as [Hlevel|Hlevel]; cbn [negb] in Hstep.
    + destruct (String.eqb_spec (stream (metadata rb)) (stream master))
        as [Hstream|Hstream]; cbn [negb] in Hstep.
      * destruct Hdiff; contradiction.
      * rewrite Hstep. eexists. split; [reflexivity|]. right. auto.
    + rewrite Hstep. eexists. split; [reflexivity|]. left. auto.
  - inversion Hagree as [|? ? (r & Hr & Hlevel & Hstream) Hagree']; subst.
    pose proof (mergeFile_with_master k file st master Hmaster) as Hstep.
    rewrite Hr in Hstep.
    rewrite Hlevel, Hstream, !String.eqb_refl in Hstep. cbn [negb] in Hstep.
    destruct Hstep as (st' & -> & Hmaster').
    now apply IH.
Qed.

Lemma mentions_here (part after : string) :
  mentions (part ++ after) part.
Proof. exists EmptyString, after. reflexivity. Qed.

Lemma mentions_skip (a text part : string) :
  mentions text part -> mentions (a ++ text) part.
Proof.
  intros (before & after & ->). exists (a ++ before)%string, after.
  now rewrite append_assoc.
Qed.

Lemma reportsMismatch_message e bad rb master :
  reportsMismatch e bad rb master ->
  isMetadataMismatch e = true /\
  mentions (message e) (fileName bad) /\
  exists value firstValue,
    value <> firstValue /\
    ((value = level (metadata rb) /\ firstValue = level master) \/
     (value = stream (metadata rb) /\ firstValue = stream master)) /\
    mentions (message e) value /\
    mentions (message e) firstValue.
Proof.
  intros [[-> Hne]|[-> Hne]]; (split; [reflexivity|]); unfold message.
  - split; [do 2 apply mentions_skip; apply mentions_here|].
    exists (level (metadata rb)), (level master).
    split; [exact Hne|]. split; [now left|]. split.
    + do 5 apply mentions_skip. apply mentions_here.
    + do 7 apply mentions_skip. apply mentions_here.
  - split; [do 2 apply mentions_skip; apply mentions_here|].
    exists (stream (metadata rb)), (stream master).
    split; [exact Hne|]. split; [now right|]. split.
    + do 5 apply mentions_skip. apply mentions_here.
    + do 7 apply mentions_skip. apply mentions_here.
Qed.

(** A file that fails to parse stops the loop with its own error, the
    files before it parsing and agreeing with the first. *)
Lemma mergeFiles_parse_error master bad e after : forall before k st,
  masterMetadata st = Some master ->
  Forall (agrees master) before ->
  parseExcelFile bad = Err e ->
  mergeFiles k (before ++ bad :: after) st = Err e.
Proof.
  induction before as [|file before IH]; intros k st Hmaster Hall Hbad;
    cbn [app mergeFiles].
  - unfold mergeFile. now rewrite Hbad.
  - inversion Hall as [|? ? (r & Hr & Hlevel & Hstream) Hall']; subst.
    pose proof (mergeFile_with_master k file st master Hmaster) as Hstep.
    rewrite Hr, Hlevel, Hstream, !String.eqb_refl in Hstep.
    cbn [negb] in Hstep. destruct Hstep as (st1 & -> & Hm1).
    now apply IH.
Qed.

(** C2 (amended): in multi-file mode, once the first file is parsed, a
    batch in which some later file parses with a level or a stream
    different from the first file's always ends in [Failed]: nothing is
    handed to [onDataLoaded], neither students of earlier files nor of
    later ones.  The files being checked in order, when the files before
    the first differing one parse and agree with the first file, the
    error is the MetadataMismatch raised for that file, and its message
    contains the file's name and the two conflicting values; and when a
    file fails to parse, the files before it parsing and agreeing with
    the first, the error is the parse error of that file, whatever
    follows it. *)
Theorem processFiles_metadata_mismatch (first : File) (r0 : ParseResult) :
  parseExcelFile first = Ok r0 ->
  (forall others,
     Exists (differs (metadata r0)) others ->
     exists e, processFiles multi (first :: others) = Failed e) /\
  (forall before bad after rb,
     Forall (agrees (metadata r0)) before ->
     parseExcelFile bad = Ok rb ->
     level (metadata rb) <> level (metadata r0) \/
     stream (metadata rb) <> stream (metadata r0) ->
     exists e,
       processFiles multi (first :: before ++ bad :: after) = Failed e /\
       reportsMismatch e bad rb (metadata r0) /\
       isMetadataMismatch e = true /\
       mentions (message e) (fileName bad) /\
       exists value firstValue,
         value <> firstValue /\
         ((value = level (metadata rb) /\ firstValue = level (metadata r0)) \/
          (value = stream (metadata rb) /\ firstValue = stream (metadata r0))) /\
         mentions (message e) value /\
         mentions (message e) firstValue) /\
  (forall before bad after e,
     Forall (agrees (metadata r0)) before ->
     parseExcelFile bad = Err e ->
     processFiles multi (first :: before ++ bad :: after) = Failed e).
Proof.
  intros Hfirst.
  assert (Hstart : forall others, exists st1,
    masterMetadata st1 = Some (metadata r0) /\
    processFiles multi (first :: others)
    = match mergeFiles 1 others st1 with
      | Err e => Failed e
      | Ok st =>
          match masterMetadata st with
          | None => Failed NoValidData
          | Some master =>
              Delivered
                ("تم دمج " ++ natToString (processedCount st)
                 ++ " ملفات بنجاح! (الإجمالي: "
                 ++ natToString (length (combinedStudents st))
                 ++ " تلميذ)")
                (combinedStudents st) (masterSubjects st) (aggregate master)
          end
      end).
  { intros others. cbn [processFiles mergeFiles].
    unfold mergeFile at 1. rewrite Hfirst. cbn [masterMetadata].
    eexists. split; [|reflexivity]. reflexivity. }
  split; [|split].
  - intros others Hex. destruct (Hstart others) as (st1 & Hmaster & ->).
    destruct (mergeFiles_aborts (metadata r0) others 1 st1 Hmaster Hex)
      as (e & ->).
    eauto.
  - intros before bad after rb Hagree Hbad Hdiff.
    destruct (Hstart (before ++ bad :: after)) as (st1 & Hmaster & ->).
    destruct (mergeFiles_first_mismatch (metadata r0) bad rb after
                before 1 st1 Hmaster Hagree Hbad Hdiff)
      as (e & -> & Hmis).
    exists e. split; [reflexivity|]. split; [exact Hmis|].
    now apply reportsMismatch_message.
  - intros before bad after e Hagree Hbad.
    destruct (Hstart (before ++ bad :: after)) as (st1 & Hmaster & ->).
    now rewrite (mergeFiles_parse_error (metadata r0) bad e after before 1
                   st1 Hmaster Hagree Hbad).
Qed.

(** *** Composite identifiers *)

Lemma string_of_uint_digits (d : Decimal.uint) :
  allDigits (NilEmpty.string_of_uint d) = true.
Proof. induction d; cbn; auto. Qed.

Lemma natToString_digits (n : nat) : allDigits (natToString n) = true.
Proof. apply string_of_uint_digits. Qed.

Lemma natToString_inj (n m : nat) : natToString n = natToString m -> n = m.
Proof.
  unfold natToString. intros H.
  apply Unsigned.to_uint_inj.
  pose proof (NilEmpty.usu (Nat.to_uint n)) as Hn.
  pose proof (NilEmpty.usu (Nat.to_uint m)) as Hm.
  rewrite H in Hn. congruence.
Qed.

(** A run of digits followed by a dash is read back without ambiguity. *)
Lemma digits_then_dash (a : string) : forall a' r r',
  allDigits a = true -> allDigits a' = true ->
  (a ++ String "-" r = a' ++ String "-" r')%string ->
  a = a' /\ r = r'.
Proof.
  induction a as [|c a IH]; intros [|c' a'] r r' Ha Ha' Heq; cbn in *.
  - injection Heq as ->. auto.
  - injection Heq as <- _. discriminate.
  - injection Heq as -> _. discriminate.
  - injection Heq as <- Heq.
    apply andb_prop in Ha as [_ Ha]. apply andb_prop in Ha' as [_ Ha'].
    destruct (IH a' r r' Ha Ha' Heq) as [-> ->]. auto.
Qed.

Lemma compositeId_inj (k i k' i' : nat) :
  compositeId k i = compositeId k' i' -> k = k' /\ i = i'.
Proof.
  unfold compositeId.
  change ("-s" ++ natToString i)%string
    with (String "-" (String "s" (natToString i))).
  change ("-s" ++ natToString i')%string
    with (String "-" (String "s" (natToString i'))).
  change ("f" ++ ?x)%string with (String "f" x).
  intros [= H].
  apply digits_then_dash in H as [Hk [= Hi]]; try apply natToString_digits.
  split; now apply natToString_inj.
Qed.

Lemma compositeIds_cons k0 r results :
  compositeIds k0 (r :: results)
  = map (compositeId k0) (seq 0 (length (students r)))
    ++ compositeIds (S k0) results.
Proof.
  unfold compositeIds. rewrite imap_cons. cbn [concat].
  rewrite Nat.add_0_r. f_equal. f_equal.
  apply imap_ext. intros j r' _. cbn. now rewrite Nat.add_succ_r.
Qed.

Lemma compositeIds_from k0 results x :
  In x (compositeIds k0 results) ->
  exists k i, (k0 <= k)%nat /\ x = compositeId k i.
Proof.
  revert k0. induction results as [|r results IH]; intros k0.
  - intros [].
  - rewrite compositeIds_cons. intros Hin.
    apply List.in_app_or in Hin as [Hin|Hin].
    + apply List.in_map_iff in Hin as (i & <- & _). exists k0, i. auto.
    + destruct (IH _ Hin) as (k & i & Hk & ->). exists k, i. split; [lia|auto].
Qed.

Lemma compositeIds_NoDup results : forall k0, NoDup (compositeIds k0 results).
Proof.
  induction results as [|r results IH]; intros k0.
  - constructor.
  - rewrite compositeIds_cons. apply NoDup_app. split; [|split].
    + change (NoDup (compositeId k0 <$> seq 0 (length (students r)))).
      apply NoDup_fmap_2; [|apply NoDup_seq].
      intros i i' H. now apply compositeId_inj in H.
    + intros x Hx Hx'. apply list_elem_of_In in Hx, Hx'.
      apply List.in_map_iff in Hx as (i & <- & _).
      apply compositeIds_from in Hx' as (k & i' & Hk & Heq).
      apply compositeId_inj in Heq as [-> _]. lia.
    + apply IH.
Qed.

Lemma compositeIds_length results : forall k0,
  length (compositeIds k0 results)
  = sum_list_with (fun r => length (students r)) results.
Proof.
  induction results as [|r results IH]; intros k0; [reflexivity|].
  rewrite compositeIds_cons, List.length_app, List.length_map, List.length_seq.
  cbn. now rewrite IH.
Qed.

Lemma ids_withId (c : option string) (l : list Student) : forall g,
  map id (imap (fun i s => withId (g i) c s) l) = map g (seq 0 (length l)).
Proof.
  induction l as [|s l IH]; intros g; [reflexivity|].
  rewrite imap_cons. cbn [map length seq]. f_equal.
  rewrite <- List.seq_shift, List.map_map.
  rewrite <- (IH (fun i => g (S i))). f_equal.
Qed.

Lemma mergeFile_ok k file st st' :
  mergeFile k file st = Ok st' ->
  exists r,
    parseExcelFile file = Ok r /\
    map id (combinedStudents st')
    = map id (combinedStudents st)
      ++ map (compositeId k) (seq 0 (length (students r))).
Proof.
  unfold mergeFile. destruct (parseExcelFile file) as [r|e]; [|discriminate].
  intros H. exists r. split; [reflexivity|].
  destruct (masterMetadata st) as [master|].
  - destruct (negb (String.eqb (level (metadata r)) (level master)));
      [discriminate|].
    destruct (negb (String.eqb (stream (metadata r)) (stream master)));
      [discriminate|].
    injection H as <-. cbn [combinedStudents].
    now rewrite List.map_app, ids_withId.
  - injection H as <-. cbn [combinedStudents].
    now rewrite List.map_app, ids_withId.
Qed.

Lemma mergeFiles_ok : forall files k st st',
  mergeFiles k files st = Ok st' ->
  exists results,
    Forall2 (fun file r => parseExcelFile file = Ok r) files results /\
    map id (combinedStudents st')
    = map id (combinedStudents st) ++ compositeIds k results.
Proof.
  induction files as [|file files IH]; intros k st st' H; cbn in H.
  - injection H as <-. exists []. split; [constructor|].
    now rewrite List.app_nil_r.
  - destruct (mergeFile k file st) as [st1|e] eqn:Hstep; [|discriminate].
    apply mergeFile_ok in Hstep as (r & Hr & Hids1).
    apply IH in H as (results & Hall & Hids).
    exists (r :: results). split; [now constructor|].
    rewrite Hids, Hids1, compositeIds_cons. now rewrite <- List.app_assoc.
Qed.

(** C8: when a multi-file aggregation succeeds, every file was parsed,
    the merged list has as many students as the files have together,
    the identifiers are, file after file in order and student after
    student in order, [f{fileIndex}-s{studentIndex}] with both indices
    counted from 0, and no two students share an identifier. *)
Theorem processFiles_composite_ids (fileArray : list File) (text : string)
    (merged : list Student) (subjects : list Cell)
    (aggregated : ClassMetadata) :
  processFiles multi fileArray = Delivered text merged subjects aggregated ->
  exists results,
    Forall2 (fun file r => parseExcelFile file = Ok r) fileArray results /\
    length merged = sum_list_with (fun r => length (students r)) results /\
    map id merged
    = concat (imap (fun fileIndex r =>
                      map (compositeId fileIndex)
                          (seq 0 (length (students r)))) results) /\
    NoDup (map id merged).
Proof.
  unfold processFiles. destruct fileArray as [|first others]; [discriminate|].
  destruct (mergeFiles 0 (first :: others) _) as [st|e] eqn:Hmerge;
    [|discriminate].
  destruct (masterMetadata st); [|discriminate].
  intros [= _ <- _ _].
  apply mergeFiles_ok in Hmerge as (results & Hall & Hids).
  cbn [combinedStudents map app] in Hids.
  exists results. split; [exact Hall|].
  split; [|split].
  - rewrite <- (List.length_map id), Hids. apply compositeIds_length.
  - exact Hids.
  - rewrite Hids. apply compositeIds_NoDup.
Qed.

End AggregateFacts.

(** ** The sample sheets *)

Section SampleFacts.
Import Js Types Ingest Reference Examples.

Lemma parsed_inv (file : File) :
  isOk (parseExcelFile file) = true -> exists r, parseExcelFile file = Ok r.
Proof. destruct (parseExcelFile file) as [r|e]; [eauto|discriminate]. Qed.

Lemma studentsOf_ok (file : File) (r : ParseResult) :
  parseExcelFile file = Ok r -> studentsOf file = students r.
Proof. intros H. unfold studentsOf. now rewrite H. Qed.

Lemma metadataOf_ok (file : File) (r : ParseResult) :
  parseExcelFile file = Ok r -> metadataOf file = metadata r.
Proof. intros H. unfold metadataOf. now rewrite H. Qed.

Lemma delivered_inv (o : Outcome) :
  delivered o <> [] ->
  exists text merged subjects aggregated,
    o = Delivered text merged subjects aggregated /\ delivered o = merged.
Proof.
  destruct o as [| e |text merged subjects aggregated]; cbn;
    try (intros H; now elim H).
  intros _. eauto 6.
Qed.

Lemma parseExcelFile_insufficient_data_witness :
  parseExcelFile blankSheet
  = Err InsufficientData.
Proof.
  apply (parseExcelFile_insufficient_data
           blankSheet [[]; [Empty; Text EmptyString]] eq_refl).
  split; [discriminate | reflexivity].
Defined.

(** C1, as stated, fails: a sheet made of a header row and one row below
    it keeps no data row after pruning, and yet it is parsed successfully
    with an empty student list. *)
Lemma parseExcelFile_succeeds_without_data_rows :
  let rawData := [headerRow;
                  [Number 1%float; Text "أحمد"; Text "2008"; Text "ذكر";
                   Text "لا"; Number 12.5%float; Number 9%float;
                   Number 11%float]] in
  sheet headerAndOneRow = Some rawData /\
  tail (pruneTrailing
          (drop (headerRowIndex rawData) rawData))
  = [] /\
  (exists result,
     parseExcelFile headerAndOneRow = Ok result /\ students result = []) /\
  exists text subjects parsedMetadata,
    processFiles single [headerAndOneRow]
    = Delivered text [] subjects parsedMetadata.
Proof.
  split; [reflexivity|]. split; [reflexivity|]. split.
  - eexists. split; reflexivity.
  - eexists _, _, _. reflexivity.
Qed.

(** C3, as stated, fails: on a sheet holding only a header row the
    blank-row loop leaves that one row and no further row is removed;
    the header row stays and the sheet is parsed, with no student. *)
Lemma pruning_keeps_lone_header_row :
  let rows := drop (headerRowIndex [headerRow]) [headerRow] in
  sheet headerOnly = Some [headerRow] /\
  popBlankRows rows = [headerRow] /\
  pruneTrailing rows = [headerRow] /\
  length (pruneTrailing rows) = length (popBlankRows rows) /\
  exists result,
    parseExcelFile headerOnly = Ok result /\ students result = [].
Proof.
  split; [reflexivity|]. split; [reflexivity|]. split; [reflexivity|].
  split; [reflexivity|]. eexists. split; reflexivity.
Qed.

Lemma pruning_discards_last_row_witness :
  exists result headerCells,
    parseExcelFile fileA = Ok result /\
    head (popBlankRows (drop (headerRowIndex firstYearClass1) firstYearClass1))
    = Some headerCells /\
    students result =
      omap (fun built => built)
        (imap (buildStudent (candidateSubjects headerCells)
                 (extractMetadata firstYearClass1))
           (removelast
              (tail (popBlankRows
                       (drop (headerRowIndex firstYearClass1)
                          firstYearClass1))))).
Proof.
  destruct (pruning_discards_last_row firstYearClass1) as (_ & _ & _ & H).
  destruct (parsed_inv fileA) as (result & Hparse);
    [vm_compute; reflexivity|].
  destruct (H fileA result eq_refl Hparse)
    as (headerCells & Hhead & Hstudents).
  exists result, headerCells. auto.
Defined.

Lemma semesterAverage_from_last_grade_cell_witness :
  exists result s,
    parseExcelFile fileShort = Ok result /\
    In s (students result) /\
    originalRow s = shortRow /\
    grades s !! "الرياضيات" = Some 13.5%float /\
    semesterAverage s = 13.5%float.
Proof.
  destruct (parsed_inv fileShort) as (result & Hparse);
    [vm_compute; reflexivity|].
  assert (Hrows : map originalRow (studentsOf fileShort) = [shortRow])
    by (vm_compute; reflexivity).
  rewrite (studentsOf_ok _ _ Hparse) in Hrows.
  destruct (students result) as [|s rest] eqn:Hstudents; [discriminate|].
  injection Hrows as Hrow _.
  assert (Hin : In s (students result)) by (rewrite Hstudents; now left).
  pose proof (semesterAverage_from_last_grade_cell fileShort shortSheet
                result s eq_refl Hparse Hin) as H.
  cbv zeta in H. rewrite Hrow in H.
  destruct (H (Text "13,5") eq_refl) as [_ Hgrade].
  destruct (Hgrade ltac:(vm_compute; lia) 13.5%float
              ltac:(vm_compute; reflexivity))
    as (Hs & subj & Hsubj & Hg).
  vm_compute in Hsubj. injection Hsubj as <-.
  cbn [propertyKey] in Hg.
  change (String.eqb "الرياضيات" PROTO) with false in Hg.
  destruct Hg as [_ Hg].
  exists result, s.
  split; [exact Hparse|]. split; [exact Hin|]. split; [exact Hrow|].
  split; [exact Hg|exact Hs].
Defined.

(** C9, as stated, fails: under a header row with a hole, a row whose
    grade area ends in the column of the hole is within the candidate
    subjects and its last cell, 13, becomes the semester average, and
    yet 13 is stored as no grade: the only grade of the student is the
    12 of the first subject. *)
Lemma semesterAverage_stored_as_no_grade :
  isOk (parseExcelFile fileWithHole) = true /\
  map originalRow (studentsOf fileWithHole) = [rowUnderHole] /\
  candidateSubjects headerWithHole
  = [Text "الرياضيات"; Empty; Text "الفيزياء"] /\
  drop 5 rowUnderHole = [Number 12%float; Number 13%float] /\
  map semesterAverage (studentsOf fileWithHole) = [13%float] /\
  map (fun s => map_to_list (grades s)) (studentsOf fileWithHole)
  = [[("الرياضيات", 12%float)]].
Proof. repeat split; vm_compute; reflexivity. Qed.

Lemma processFiles_metadata_mismatch_witness :
  exists e,
    processFiles multi [fileA; fileB; fileC] = Failed e /\
    isMetadataMismatch e = true /\
    mentions (message e) "2AS-1.xlsx".
Proof.
  destruct (parsed_inv fileA) as (rA & HA); [vm_compute; reflexivity|].
  destruct (parsed_inv fileB) as (rB & HB); [vm_compute; reflexivity|].
  destruct (parsed_inv fileC) as (rC & HC); [vm_compute; reflexivity|].
  assert (HlevelA : level (metadataOf fileA) = "السنة الأولى")
    by (vm_compute; reflexivity).
  assert (HstreamA : stream (metadataOf fileA) = "جذع مشترك علوم")
    by (vm_compute; reflexivity).
  assert (HlevelB : level (metadataOf fileB) = "السنة الأولى")
    by (vm_compute; reflexivity).
  assert (HstreamB : stream (metadataOf fileB) = "جذع مشترك علوم")
    by (vm_compute; reflexivity).
  assert (HlevelC : level (metadataOf fileC) = "السنة الثانية")
    by (vm_compute; reflexivity).
  rewrite (metadataOf_ok _ _ HA) in HlevelA, HstreamA.
  rewrite (metadataOf_ok _ _ HB) in HlevelB, HstreamB.
  rewrite (metadataOf_ok _ _ HC) in HlevelC.
  destruct (processFiles_metadata_mismatch fileA rA HA) as (_ & Hfirst & _).
  destruct (Hfirst [fileB] fileC [] rC) as (e & He & _ & Hkind & Hname & _).
  - constructor; [|constructor].
    exists rB. split; [exact HB|]. split; congruence.
  - exact HC.
  - left. rewrite HlevelA, HlevelC. discriminate.
  - exists e. split; [exact He|]. split; [exact Hkind|exact Hname].
Defined.

(** C2, as stated, fails: in the batch of a first-year sheet, a sheet of
    blank rows and a second-year sheet, the third file differs in level
    from the first, and the batch aborts with the parse error of the
    second file, which is no MetadataMismatch and names neither the
    third file nor a level: the files are processed in order and the
    third one is never compared. *)
Lemma processFiles_parse_error_before_mismatch :
  isOk (parseExcelFile fileA) = true /\
  isOk (parseExcelFile fileC) = true /\
  level (metadataOf fileA) = "السنة الأولى" /\
  level (metadataOf fileC) = "السنة الثانية" /\
  parseExcelFile blankSheet = Err InsufficientData /\
  processFiles multi [fileA; blankSheet; fileC] = Failed InsufficientData /\
  isMetadataMismatch InsufficientData = false /\
  message InsufficientData = "الملف لا يحتوي على بيانات كافية.".
Proof. repeat split; vm_compute; reflexivity. Qed.

Lemma processFiles_composite_ids_witness :
  exists text merged subjects aggregated,
    processFiles multi [fileA; fileB]
    = Delivered text merged subjects aggregated /\
    map id merged = ["f0-s0"; "f0-s1"; "f1-s0"] /\
    NoDup (map id merged).
Proof.
  assert (Hids : map id (delivered (processFiles multi [fileA; fileB]))
                 = ["f0-s0"; "f0-s1"; "f1-s0"])
    by (vm_compute; reflexivity).
  destruct (delivered_inv (processFiles multi [fileA; fileB]))
    as (text & merged & subjects & aggregated & Hout & Hmerged).
  { intros Hnone. rewrite Hnone in Hids. discriminate Hids. }
  rewrite Hmerged in Hids.
  destruct (processFiles_composite_ids [fileA; fileB] text merged subjects
              aggregated Hout) as (results & _ & _ & _ & Hnodup).
  exists text, merged, subjects, aggregated. auto.
Defined.

Lemma getDistributionStats_matches_getSubjectAnalysis_witness :
  let students := {| DataProcessing.ident := 1;
                     DataProcessing.elems := classOfThree |} in
  let subjects := {| DataProcessing.ident := 2;
                     DataProcessing.elems := ["الرياضيات"; "الفيزياء"] |} in
  let cacheD :=
    snd (DataProcessing.getDistributionStats None (students, subjects)) in
  map subject (fst (DataProcessing.getDistributionStats cacheD
                      (students, subjects)))
  = ["الرياضيات"; "الفيزياء"] /\
  Forall2 distributionAgrees
    (fst (DataProcessing.getDistributionStats cacheD (students, subjects)))
    (fst (DataProcessing.getSubjectAnalysis None (students, subjects))).
Proof.
  intros students subjects cacheD.
  apply (getDistributionStats_matches_getSubjectAnalysis students subjects
           cacheD None).
  - intros slot [= <-] _. reflexivity.
  - intros slot Hnone. discriminate Hnone.
Defined.

Lemma getCategoryGlobalStats_unrecognized_gender_witness :
  let students := {| DataProcessing.ident := 1;
                     DataProcessing.elems := classOfThree |} in
  let stats := fst (DataProcessing.getCategoryGlobalStats None students) in
  DataProcessing.totalMales (DataProcessing.elems students) = 2%nat /\
  (successfulFemales stats + successfulMales stats
   < successfulStudents stats)%nat.
Proof.
  intros students stats.
  destruct (getCategoryGlobalStats_unrecognized_gender students None)
    as (Hmales & _ & _ & Hless).
  { intros slot Hnone. discriminate Hnone. }
  split; [rewrite Hmales; reflexivity|].
  apply Hless.
  exists (student "s2" (Text "غير محدد") 10%float
            (<["الفيزياء" := 7%float]> ∅)).
  split; [right; right; left; reflexivity|]. repeat split.
Defined.

End SampleFacts.

(* ================================================================== *)
(** * Further properties *)

Section Rounding.
#[local] Open Scope Z_scope.

Lemma digits2_pos_bounds (m : positive) :
  2 ^ (Z.pos (digits2_pos m) - 1) <= Z.pos m < 2 ^ Z.pos (digits2_pos m).
Proof.
  induction m as [p IH|p IH|]; cbn [digits2_pos].
  - rewrite Pos2Z.inj_succ.
    replace (Z.succ (Z.pos (digits2_pos p)) - 1)
      with (Z.succ (Z.pos (digits2_pos p) - 1)) by lia.
    rewrite !Z.pow_succ_r by lia. lia.
  - rewrite Pos2Z.inj_succ.
    replace (Z.succ (Z.pos (digits2_pos p)) - 1)
      with (Z.succ (Z.pos (digits2_pos p) - 1)) by lia.
    rewrite !Z.pow_succ_r by lia. lia.
  - cbn. lia.
Qed.

Lemma shr_1_m (mrs : shr_record) :
  0 <= shr_m mrs -> shr_m (shr_1 mrs) = shr_m mrs / 2.
Proof.
  destruct mrs as [m r s]. cbn [shr_m]. intros Hm. unfold shr_1.
  destruct m as [|[p|p|]|p]; cbn [shr_m]; try lia.
  - reflexivity.
  - rewrite Pos2Z.inj_xI. apply Z.div_unique with (r := 1); lia.
  - rewrite Pos2Z.inj_xO. apply Z.div_unique with (r := 0); lia.
  - reflexivity.
Qed.

Lemma iter_shr_1_m (p : positive) : forall mrs,
  0 <= shr_m mrs ->
  0 <= shr_m (SpecFloat.iter_pos shr_1 p mrs) /\
  shr_m (SpecFloat.iter_pos shr_1 p mrs) = shr_m mrs / 2 ^ Z.pos p.
Proof.
  induction p as [p IH|p IH|]; intros mrs Hm; cbn [SpecFloat.iter_pos].
  - assert (H1 : 0 <= shr_m (shr_1 mrs)).
    { rewrite shr_1_m by exact Hm. apply Z.div_pos; lia. }
    destruct (IH _ H1) as [H2 E2]. destruct (IH _ H2) as [H3 E3].
    split; [exact H3|].
    rewrite E3, E2, shr_1_m by exact Hm.
    rewrite !Z.div_div by lia.
    f_equal. rewrite (Pos2Z.inj_xI p).
    replace (2 * Z.pos p + 1) with (1 + Z.pos p + Z.pos p) by lia.
    rewrite (Z.pow_add_r 2 (1 + Z.pos p) (Z.pos p)) by lia.
    rewrite (Z.pow_add_r 2 1 (Z.pos p)) by lia. lia.
  - destruct (IH _ Hm) as [H2 E2]. destruct (IH _ H2) as [H3 E3].
    split; [exact H3|].
    rewrite E3, E2. rewrite !Z.div_div by lia.
    f_equal. rewrite (Pos2Z.inj_xO p).
    replace (2 * Z.pos p) with (Z.pos p + Z.pos p) by lia.
    rewrite (Z.pow_add_r 2 (Z.pos p) (Z.pos p)) by lia. lia.
  - rewrite shr_1_m by exact Hm. split; [apply Z.div_pos; lia|reflexivity].
Qed.

(** Shifting a positive mantissa to its rounding exponent leaves it
    positive, when the exponent is not below the least one. *)
Lemma shr_fexp_positive (m e : Z) (l : location) :
  0 < m -> SpecFloat.emin prec emax <= e ->
  0 < shr_m (fst (shr_fexp prec emax m e l)) /\
  SpecFloat.emin prec emax <= snd (shr_fexp prec emax m e l).
Proof.
  intros Hm He. unfold shr_fexp, shr.
  assert (Hrec : shr_m (shr_record_of_loc m l) = m)
    by (destruct l as [|[ | | ]]; reflexivity).
  destruct (fexp prec emax (Zdigits2 m + e) - e) as [|n|n] eqn:Hn;
    cbn [fst snd]; rewrite ?Hrec; try (split; lia).
  destruct (iter_shr_1_m n (shr_record_of_loc m l)) as [_ ->];
    [rewrite Hrec; lia|].
  rewrite Hrec. split; [|lia].
  destruct m as [|p|p]; try lia. cbn [Zdigits2] in Hn.
  pose proof (digits2_pos_bounds p) as [Hlow _].
  unfold fexp in Hn.
  assert (Hshift : Z.pos n <= Z.pos (digits2_pos p) - 1).
  { unfold prec in *. lia. }
  apply Z.div_str_pos. split; [lia|].
  apply Z.le_trans with (2 ^ (Z.pos (digits2_pos p) - 1)); [|exact Hlow].
  apply Z.pow_le_mono_r; lia.
Qed.

Lemma round_nearest_even_positive (m : Z) (l : location) :
  0 < m -> 0 < round_nearest_even m l.
Proof.
  intros Hm. unfold round_nearest_even.
  destruct l as [|[ | | ]]; try lia. destruct (Z.even m); lia.
Qed.

(** Rounding a positive mantissa at an exponent not below the least one
    gives a finite number or an infinity of the given sign, never a
    zero. *)
Lemma binary_round_aux_nonzero (s : bool) (m e : Z) (l : location) :
  0 < m -> SpecFloat.emin prec emax <= e ->
  match binary_round_aux prec emax s m e l with
  | S754_finite s' _ _ | S754_infinity s' => s' = s
  | _ => False
  end.
Proof.
  intros Hm He. unfold binary_round_aux.
  destruct (shr_fexp_positive m e l Hm He) as [H1 E1].
  destruct (shr_fexp prec emax m e l) as [mrs' e']. cbn [fst snd] in H1, E1.
  pose proof (round_nearest_even_positive (shr_m mrs')
                (loc_of_shr_record mrs') H1) as H2.
  destruct (shr_fexp_positive _ e' loc_Exact H2 E1) as [H3 _].
  destruct (shr_fexp prec emax _ e' loc_Exact) as [mrs'' e''].
  cbn [fst] in H3.
  destruct (shr_m mrs''); try lia.
  destruct (e'' <=? emax - prec); reflexivity.
Qed.

Lemma binary_round_nonzero (s : bool) (m : positive) (e : Z) :
  SpecFloat.emin prec emax <= e ->
  match binary_round prec emax s m e with
  | S754_finite s' _ _ | S754_infinity s' => s' = s
  | _ => False
  end.
Proof.
  intros He. unfold binary_round.
  destruct (shl_align m e (fexp prec emax (Z.pos (digits2_pos m) + e)))
    as [mz ez] eqn:Halign.
  apply binary_round_aux_nonzero; [lia|].
  unfold shl_align in Halign.
  destruct (fexp prec emax (Z.pos (digits2_pos m) + e) - e) eqn:Hd;
    injection Halign as _ <-; try exact He.
  unfold fexp. lia.
Qed.

(** What validity says of a finite number: its exponent is not below
    the least one, its mantissa has at most [prec] bits, and exactly
    [prec] bits above the least exponent. *)
Lemma valid_finite (s : bool) (m : positive) (e : Z) :
  valid_binary (S754_finite s m e) = true ->
  SpecFloat.emin prec emax <= e /\
  Z.pos (digits2_pos m) <= prec /\
  (SpecFloat.emin prec emax < e -> Z.pos (digits2_pos m) = prec).
Proof.
  cbn [SpecFloat.valid_binary]. unfold bounded, canonical_mantissa, fexp.
  intros H. apply andb_prop in H as [H _]. apply Z.eqb_eq in H.
  unfold prec, emax, SpecFloat.emin in *. lia.
Qed.

Lemma shl_align_fst (m : positive) (e ez : Z) :
  ez <= e -> Z.pos (fst (shl_align m e ez)) = Z.pos m * 2 ^ (e - ez).
Proof.
  intros Hle. unfold shl_align.
  destruct (ez - e) as [|d|d] eqn:Hd; cbn [fst].
  - replace (e - ez) with 0 by lia. lia.
  - lia.
  - replace (e - ez) with (Z.pos d) by lia.
    clear. induction d as [|d IH] using Pos.peano_ind.
    + cbn. lia.
    + rewrite Pos.iter_succ, (Pos2Z.inj_succ d), Z.pow_succ_r by lia.
      rewrite (Pos2Z.inj_xO (Pos.iter xO m d)), IH. lia.
Qed.

(** Two valid finite magnitudes compare as their mantissas brought to
    the smaller exponent. *)
Lemma aligned_compare (mx my : positive) (ex ey : Z) :
  valid_binary (S754_finite false mx ex) = true ->
  valid_binary (S754_finite false my ey) = true ->
  match ex ?= ey with
  | Eq => (mx ?= my)%positive
  | Lt => Lt
  | Gt => Gt
  end
  = (Z.pos mx * 2 ^ (ex - Z.min ex ey) ?= Z.pos my * 2 ^ (ey - Z.min ex ey)).
Proof.
  intros Hx Hy.
  apply valid_finite in Hx as (Hex & Hdx & Hfx).
  apply valid_finite in Hy as (Hey & Hdy & Hfy).
  pose proof (digits2_pos_bounds mx) as [Hlx Hux].
  pose proof (digits2_pos_bounds my) as [Hly Huy].
  assert (Hpow : forall d, Z.pos d <= prec -> 2 ^ Z.pos d <= 2 ^ prec)
    by (intros d Hd; apply Z.pow_le_mono_r; lia).
  assert (Hstep : forall k, 0 < k -> 2 <= 2 ^ k).
  { intros k Hk. change 2 with (2 ^ 1) at 1. apply Z.pow_le_mono_r; lia. }
  symmetry. destruct (Z.compare_spec ex ey) as [Heq|Hlt|Hgt].
  - subst ey. rewrite Z.min_id, Z.sub_diag, !Z.mul_1_r. reflexivity.
  - rewrite Z.min_l, Z.sub_diag, Z.mul_1_r by lia.
    apply Z.compare_lt_iff.
    rewrite (Hfy ltac:(lia)) in Hly.
    specialize (Hpow _ Hdx). specialize (Hstep (ey - ex) ltac:(lia)).
    replace (2 ^ prec) with (2 * 2 ^ (prec - 1)) in Hpow by reflexivity.
    nia.
  - rewrite Z.min_r, Z.sub_diag, Z.mul_1_r by lia.
    apply Z.compare_gt_iff.
    rewrite (Hfx ltac:(lia)) in Hlx.
    specialize (Hpow _ Hdy). specialize (Hstep (ex - ey) ltac:(lia)).
    replace (2 ^ prec) with (2 * 2 ^ (prec - 1)) in Hpow by reflexivity.
    nia.
Qed.

(** The sign of a difference of two numbers is their order. *)
Lemma SFsub_negative (x y : spec_float) :
  valid_binary x = true -> valid_binary y = true ->
  SFltb (SF64sub x y) (S754_zero false) = SFltb x y.
Proof.
  intros Hx Hy. unfold SF64sub.
  destruct x as [sx|sx| |sx mx ex], y as [sy|sy| |sy my ey];
    try (destruct sx); try (destruct sy); try reflexivity.
  all: cbn [SFsub].
  all: pose proof (valid_finite _ _ _ Hx) as (Hex & _).
  all: pose proof (valid_finite _ _ _ Hy) as (Hey & _).
  all: pose proof (aligned_compare mx my ex ey Hx Hy) as Hcmp.
  all: rewrite !shl_align_fst by lia.
  all: unfold SFltb at 2; cbn [SFcompare cond_Zopp].
  all: change (Pos.compare_cont Eq mx my) with (mx ?= my)%positive.
  all: set (X := Z.pos mx * 2 ^ (ex - Z.min ex ey)) in *.
  all: set (Y := Z.pos my * 2 ^ (ey - Z.min ex ey)) in *.
  all: assert (HX : 0 < X) by (unfold X; apply Z.mul_pos_pos;
         [lia|apply Z.pow_pos_nonneg; lia]).
  all: assert (HY : 0 < Y) by (unfold Y; apply Z.mul_pos_pos;
         [lia|apply Z.pow_pos_nonneg; lia]).
  all: assert (Hez : SpecFloat.emin prec emax <= Z.min ex ey) by lia.
  all: unfold binary_normalize.
  all: match goal with
       | |- SFltb match ?d with _ => _ end _ = _ =>
           destruct d as [|p|p] eqn:Hd
       end.
  all: try match goal with
       | |- context [binary_round _ _ ?s ?p ?e] =>
           pose proof (binary_round_nonzero s p e Hez) as Hr;
           destruct (binary_round prec emax s p e) as [s0|s'| |s' m' e'];
           try contradiction; subst s'
       end.
  all: cbn [SFltb SFcompare].
  all: try lia.
  all: destruct (ex ?= ey); [destruct (mx ?= my)%positive| |];
         cbn [CompOpp];
         destruct (Z.compare_spec X Y); try discriminate Hcmp;
         try reflexivity; lia.
Qed.

(** A difference of two finite numbers is below, at or above zero as
    its first operand is below, at or above the second. *)
Lemma SFsub_compare (x y : spec_float) :
  valid_binary x = true -> valid_binary y = true ->
  SFisFinite x = true -> SFisFinite y = true ->
  SFcompare (SF64sub x y) (S754_zero false) = SFcompare x y.
Proof.
  intros Hx Hy Fx Fy. unfold SF64sub.
  destruct x as [sx|sx| |sx mx ex], y as [sy|sy| |sy my ey];
    try discriminate;
    try (destruct sx); try (destruct sy); try reflexivity.
  all: cbn [SFsub].
  all: pose proof (valid_finite _ _ _ Hx) as (Hex & _).
  all: pose proof (valid_finite _ _ _ Hy) as (Hey & _).
  all: pose proof (aligned_compare mx my ex ey Hx Hy) as Hcmp.
  all: rewrite !shl_align_fst by lia.
  all: cbn [SFcompare cond_Zopp].
  all: change (Pos.compare_cont Eq mx my) with (mx ?= my)%positive.
  all: set (X := Z.pos mx * 2 ^ (ex - Z.min ex ey)) in *.
  all: set (Y := Z.pos my * 2 ^ (ey - Z.min ex ey)) in *.
  all: assert (HX : 0 < X) by (unfold X; apply Z.mul_pos_pos;
         [lia|apply Z.pow_pos_nonneg; lia]).
  all: assert (HY : 0 < Y) by (unfold Y; apply Z.mul_pos_pos;
         [lia|apply Z.pow_pos_nonneg; lia]).
  all: assert (Hez : SpecFloat.emin prec emax <= Z.min ex ey) by lia.
  all: unfold binary_normalize.
  all: match goal with
       | |- SFcompare match ?d with _ => _ end _ = _ =>
           destruct d as [|p|p] eqn:Hd
       end.
  all: try match goal with
       | |- context [binary_round _ _ ?s ?p ?e] =>
           pose proof (binary_round_nonzero s p e Hez) as Hr;
           destruct (binary_round prec emax s p e) as [s0|s'| |s' m' e'];
           try contradiction; subst s'
       end.
  all: cbn [SFcompare].
  all: try lia.
  all: destruct (ex ?= ey); [destruct (mx ?= my)%positive| |];
         cbn [CompOpp];
         destruct (Z.compare_spec X Y); try discriminate Hcmp;
         try reflexivity; lia.
Qed.

End Rounding.

Section FloatOrder.
Import Js.
#[local] Open Scope float_scope.

Lemma SFcompare_antisym (a b : spec_float) :
  SFcompare b a = option_map CompOpp (SFcompare a b).
Proof.
  destruct a as [sa|sa| |sa ma ea], b as [sb|sb| |sb mb eb]; cbn;
    try reflexivity; try (destruct sa; reflexivity); try (destruct sb; reflexivity);
    try (destruct sa, sb; reflexivity).
  destruct sa, sb; cbn; try reflexivity.
  - rewrite (Z.compare_antisym ea eb).
    destruct (ea ?= eb)%Z; cbn; try reflexivity.
    change (Pos.compare_cont Eq mb ma) with (Pos.compare mb ma).
    change (Pos.compare_cont Eq ma mb) with (Pos.compare ma mb).
    rewrite (Pos.compare_antisym ma mb). reflexivity.
  - rewrite (Z.compare_antisym ea eb).
    destruct (ea ?= eb)%Z; cbn; try reflexivity.
    change (Pos.compare_cont Eq mb ma) with (Pos.compare mb ma).
    change (Pos.compare_cont Eq ma mb) with (Pos.compare ma mb).
    rewrite (Pos.compare_antisym ma mb). reflexivity.
Qed.

Lemma SFcompare_refl (a : spec_float) :
  SFisNaN a = false -> SFcompare a a = Some Eq.
Proof.
  destruct a as [sa|sa| |sa ma ea]; cbn; try discriminate; intros _;
    try (destruct sa; reflexivity).
  rewrite Z.compare_refl.
  change (Pos.compare_cont Eq ma ma) with (Pos.compare ma ma).
  rewrite Pos.compare_refl. now destruct sa.
Qed.



Lemma SFcompare_key (a b : spec_float) :
  SFisNaN a = false -> SFisNaN b = false ->
  SFcompare a b = Some (keyCompare (orderKey a) (orderKey b)).
Proof.
  destruct a as [sa|sa| |sa ma ea], b as [sb|sb| |sb mb eb]; cbn;
    try discriminate; intros _ _;
    try (destruct sa; reflexivity); try (destruct sb; reflexivity);
    try (destruct sa, sb; reflexivity).
  change (Pos.compare_cont Eq ma mb) with (Pos.compare ma mb).
  destruct sa, sb; unfold keyCompare; cbn [fst snd]; try reflexivity;
    cbn [Z.compare].
  rewrite Z.compare_opp, (Z.compare_antisym ea eb).
  destruct (ea ?= eb)%Z; reflexivity.
Qed.

Lemma keyCompare_le_trans p q r :
  keyCompare p q <> Gt -> keyCompare q r <> Gt -> keyCompare p r <> Gt.
Proof.
  destruct p as [[p1 p2] p3], q as [[q1 q2] q3], r as [[r1 r2] r3].
  unfold keyCompare; cbn [fst snd].
  destruct (Z.compare_spec p1 q1), (Z.compare_spec q1 r1),
    (Z.compare_spec p1 r1); try lia; try congruence;
  destruct (Z.compare_spec p2 q2), (Z.compare_spec q2 r2),
    (Z.compare_spec p2 r2); try lia; try congruence;
  destruct (Z.compare_spec p3 q3), (Z.compare_spec q3 r3),
    (Z.compare_spec p3 r3); try lia; congruence.
Qed.

Lemma keyCompare_lt_le_trans p q r :
  keyCompare p q = Lt -> keyCompare q r <> Gt -> keyCompare p r = Lt.
Proof.
  destruct p as [[p1 p2] p3], q as [[q1 q2] q3], r as [[r1 r2] r3].
  unfold keyCompare; cbn [fst snd].
  destruct (Z.compare_spec p1 q1), (Z.compare_spec q1 r1),
    (Z.compare_spec p1 r1); try lia; try congruence;
  destruct (Z.compare_spec p2 q2), (Z.compare_spec q2 r2),
    (Z.compare_spec p2 r2); try lia; try congruence;
  destruct (Z.compare_spec p3 q3), (Z.compare_spec q3 r3),
    (Z.compare_spec p3 r3); try lia; congruence.
Qed.

Lemma keyCompare_le_lt_trans p q r :
  keyCompare p q <> Gt -> keyCompare q r = Lt -> keyCompare p r = Lt.
Proof.
  destruct p as [[p1 p2] p3], q as [[q1 q2] q3], r as [[r1 r2] r3].
  unfold keyCompare; cbn [fst snd].
  destruct (Z.compare_spec p1 q1), (Z.compare_spec q1 r1),
    (Z.compare_spec p1 r1); try lia; try congruence;
  destruct (Z.compare_spec p2 q2), (Z.compare_spec q2 r2),
    (Z.compare_spec p2 r2); try lia; try congruence;
  destruct (Z.compare_spec p3 q3), (Z.compare_spec q3 r3),
    (Z.compare_spec p3 r3); try lia; congruence.
Qed.

Lemma isNaN_SF (a : float) : isNaN a = SFisNaN (Prim2SF a).
Proof. apply isNaN_spec. Qed.

Lemma fle_key (a b : float) :
  (a <=? b) = true <->
  isNaN a = false /\ isNaN b = false /\
  keyCompare (orderKey (Prim2SF a)) (orderKey (Prim2SF b)) <> Gt.
Proof.
  rewrite leb_spec, !isNaN_SF. unfold SFleb.
  destruct (SFisNaN (Prim2SF a)) eqn:Ha.
  { destruct (Prim2SF a); try discriminate. cbn. split; [discriminate|].
    intros (H & _); discriminate. }
  destruct (SFisNaN (Prim2SF b)) eqn:Hb.
  { destruct (Prim2SF b); try discriminate.
    destruct (Prim2SF a); cbn; (split; [discriminate|]);
      intros (_ & H & _); discriminate. }
  rewrite (SFcompare_key _ _ Ha Hb).
  destruct (keyCompare _ _); split; try discriminate; auto;
    try (intros (_ & _ & H); congruence).
  all: intros _; repeat split; discriminate.
Qed.

Lemma flt_key (a b : float) :
  (a <? b) = true <->
  isNaN a = false /\ isNaN b = false /\
  keyCompare (orderKey (Prim2SF a)) (orderKey (Prim2SF b)) = Lt.
Proof.
  rewrite ltb_spec, !isNaN_SF. unfold SFltb.
  destruct (SFisNaN (Prim2SF a)) eqn:Ha.
  { destruct (Prim2SF a); try discriminate. cbn. split; [discriminate|].
    intros (H & _); discriminate. }
  destruct (SFisNaN (Prim2SF b)) eqn:Hb.
  { destruct (Prim2SF b); try discriminate.
    destruct (Prim2SF a); cbn; (split; [discriminate|]);
      intros (_ & H & _); discriminate. }
  rewrite (SFcompare_key _ _ Ha Hb).
  destruct (keyCompare _ _); split; try discriminate; auto;
    try (intros (_ & _ & H); congruence).
Qed.

Lemma fle_trans (a b c : float) :
  (a <=? b) = true -> (b <=? c) = true -> (a <=? c) = true.
Proof.
  rewrite !fle_key. intros (Ha & Hb & Hab) (_ & Hc & Hbc).
  repeat split; auto. eapply keyCompare_le_trans; eauto.
Qed.

Lemma flt_le_trans (a b c : float) :
  (a <? b) = true -> (b <=? c) = true -> (a <? c) = true.
Proof.
  rewrite !fle_key, !flt_key. intros (Ha & Hb & Hab) (_ & Hc & Hbc).
  repeat split; auto. eapply keyCompare_lt_le_trans; eauto.
Qed.

Lemma fle_lt_trans (a b c : float) :
  (a <=? b) = true -> (b <? c) = true -> (a <? c) = true.
Proof.
  rewrite !fle_key, !flt_key. intros (Ha & Hb & Hab) (_ & Hc & Hbc).
  repeat split; auto. eapply keyCompare_le_lt_trans; eauto.
Qed.

Lemma flt_le (a b : float) : (a <? b) = true -> (a <=? b) = true.
Proof.
  rewrite fle_key, flt_key. intros (Ha & Hb & Hab).
  repeat split; auto. congruence.
Qed.

Lemma fle_refl (a : float) : isNaN a = false -> (a <=? a) = true.
Proof.
  intros Ha. rewrite leb_spec. unfold SFleb.
  rewrite SFcompare_refl; [reflexivity|]. now rewrite <- isNaN_SF.
Qed.

Lemma flt_irrefl (a : float) : (a <? a) = false.
Proof.
  rewrite ltb_spec. unfold SFltb.
  destruct (SFisNaN (Prim2SF a)) eqn:Ha.
  - now destruct (Prim2SF a).
  - now rewrite SFcompare_refl.
Qed.

(** Two numbers other than [NaN] are comparable. *)
Lemma fle_total (a b : float) :
  isNaN a = false -> isNaN b = false -> (a <=? b) = negb (b <? a).
Proof.
  rewrite !isNaN_SF, leb_spec, ltb_spec. unfold SFleb, SFltb.
  intros Ha Hb. rewrite (SFcompare_antisym (Prim2SF a) (Prim2SF b)).
  rewrite (SFcompare_key _ _ Ha Hb). cbn.
  now destruct (keyCompare _ _).
Qed.

Lemma fle_not_nan (a b : float) :
  (a <=? b) = true -> isNaN a = false /\ isNaN b = false.
Proof. rewrite fle_key. tauto. Qed.

Lemma flt_not_nan (a b : float) :
  (a <? b) = true -> isNaN a = false /\ isNaN b = false.
Proof. rewrite flt_key. tauto. Qed.

Lemma neg_zero_le_pos_zero (h v : float) :
  JsBuiltins.isNegativeZero h = true -> JsBuiltins.isPositiveZero v = true ->
  (h <=? v) = true /\ (v <=? h) = true.
Proof.
  unfold JsBuiltins.isNegativeZero, JsBuiltins.isPositiveZero.
  rewrite !classify_spec, !leb_spec. unfold SF64classify, SFclassify, SFleb.
  destruct (Prim2SF h) as [[|]|[|]| |[|] mh eh]; try discriminate;
    try (destruct (_ =? _)%Z; discriminate).
  destruct (Prim2SF v) as [[|]|[|]| |[|] mv ev]; try discriminate;
    try (destruct (_ =? _)%Z; discriminate).
  intros _ _. split; reflexivity.
Qed.

(** A number that is not above [-Infinity] is [-Infinity]; one that is
    not below [Infinity] is [Infinity]. *)
Lemma not_above_neg_infinity (v : float) :
  isNaN v = false -> (neg_infinity <? v) = false -> v = neg_infinity.
Proof.
  rewrite isNaN_SF, ltb_spec. unfold SFltb. intros Hnan H.
  apply Prim2SF_inj.
  change (Prim2SF neg_infinity) with (S754_infinity true) in *.
  destruct (Prim2SF v) as [[|]|[|]| |[|] mv ev]; cbn in *;
    try discriminate; reflexivity.
Qed.

Lemma not_below_infinity (v : float) :
  isNaN v = false -> (v <? infinity) = false -> v = infinity.
Proof.
  rewrite isNaN_SF, ltb_spec. unfold SFltb. intros Hnan H.
  apply Prim2SF_inj.
  change (Prim2SF infinity) with (S754_infinity false) in *.
  destruct (Prim2SF v) as [[|]|[|]| |[|] mv ev]; cbn in *;
    try discriminate; reflexivity.
Qed.

(** The sign of a rounded result is the sign given to the rounding. *)
Lemma binary_round_aux_sign (s : bool) (m e : Z) (l : location) :
  match binary_round_aux prec emax s m e l with
  | S754_zero s' | S754_infinity s' | S754_finite s' _ _ => s' = s
  | S754_nan => True
  end.
Proof.
  unfold binary_round_aux.
  destruct (shr_fexp prec emax m e l) as [mrs' e'].
  destruct (shr_fexp prec emax _ e' loc_Exact) as [mrs'' e''].
  destruct (shr_m mrs''); [reflexivity| |exact I].
  destruct (e'' <=? emax - prec)%Z; reflexivity.
Qed.

(** [Math.sqrt] never returns a negative number. *)
Lemma sqrt_not_negative (v : float) : (sqrt v <? 0) = false.
Proof.
  rewrite ltb_spec, sqrt_spec. unfold SFltb, SF64sqrt, SFsqrt.
  change (Prim2SF 0) with (S754_zero false).
  destruct (Prim2SF v) as [sv|[|]| |[|] mv ev]; try reflexivity.
  destruct (SFsqrt_core_binary prec emax (Z.pos mv) ev) as [[mz ez] lz].
  pose proof (binary_round_aux_sign false mz ez lz) as Hsign.
  destruct (binary_round_aux prec emax false mz ez lz) as [s'|s'| |s' m' e'];
    try reflexivity; subst s'; reflexivity.
Qed.

(** A difference is negative exactly when its first operand is below the
    second. *)
Lemma sub_negative (x y : float) : (x - y <? 0) = (x <? y).
Proof.
  rewrite !ltb_spec, sub_spec. change (Prim2SF 0) with (S754_zero false).
  apply SFsub_negative; apply Prim2SF_valid.
Qed.

Lemma flt_asym (a b : float) : (a <? b) = true -> (b <? a) = false.
Proof.
  intros H. pose proof (flt_le _ _ H) as Hle.
  destruct (fle_not_nan _ _ Hle) as [Ha Hb].
  rewrite (fle_total a b Ha Hb) in Hle.
  now destruct (b <? a).
Qed.

(** A difference of finite numbers compares with 0 as its operands
    compare with each other. *)
Lemma sub_compare (x y : float) :
  isFinite x = true -> isFinite y = true ->
  SFcompare (Prim2SF (x - y)) (S754_zero false)
  = SFcompare (Prim2SF x) (Prim2SF y).
Proof.
  intros Hx Hy. rewrite FloatAxioms.sub_spec.
  apply SFsub_compare; try apply Prim2SF_valid;
    [exact (proj1 (isFinite_SF x Hx))|exact (proj1 (isFinite_SF y Hy))].
Qed.

Lemma sub_finite_cases (x y : float) :
  isFinite x = true -> isFinite y = true ->
  isNaN (x - y) = false /\
  (x - y <? 0) = (x <? y) /\
  (x - y =? 0) = (x =? y) /\
  (0 <? x - y) = (y <? x).
Proof.
  intros Hx Hy. pose proof (sub_compare x y Hx Hy) as H.
  destruct (isFinite_SF x Hx) as [_ Hnx].
  destruct (isFinite_SF y Hy) as [_ Hny].
  rewrite isNaN_SF in Hnx, Hny.
  rewrite isNaN_SF, !FloatAxioms.ltb_spec, !FloatAxioms.eqb_spec.
  change (Prim2SF 0) with (S754_zero false).
  unfold SFltb, SFeqb.
  rewrite (SFcompare_antisym (Prim2SF (x - y)) (S754_zero false)).
  rewrite (SFcompare_antisym (Prim2SF x) (Prim2SF y)).
  rewrite H, (SFcompare_key _ _ Hnx Hny) in *.
  split.
  - destruct (Prim2SF (x - y)); try reflexivity. discriminate H.
  - cbn. destruct (keyCompare _ _); auto.
Qed.

Lemma keyCompare_eq p q : keyCompare p q = Eq <-> p = q.
Proof.
  destruct p as [[p1 p2] p3], q as [[q1 q2] q3].
  unfold keyCompare; cbn [fst snd]. split.
  - destruct (p1 ?= q1)%Z eqn:E1; try discriminate.
    destruct (p2 ?= q2)%Z eqn:E2; try discriminate.
    intros E3.
    apply Z.compare_eq_iff in E1, E2, E3. congruence.
  - intros [= -> -> ->]. now rewrite !Z.compare_refl.
Qed.

Lemma feq_key (a b : float) :
  (a =? b) = true <->
  isNaN a = false /\ isNaN b = false /\
  orderKey (Prim2SF a) = orderKey (Prim2SF b).
Proof.
  rewrite FloatAxioms.eqb_spec, !isNaN_SF. unfold SFeqb.
  destruct (SFisNaN (Prim2SF a)) eqn:Ha.
  { destruct (Prim2SF a); try discriminate. cbn. split; [discriminate|].
    intros (H & _). discriminate. }
  destruct (SFisNaN (Prim2SF b)) eqn:Hb.
  { destruct (Prim2SF b); try discriminate.
    destruct (Prim2SF a); cbn; (split; [discriminate|]);
      intros (_ & H & _); discriminate. }
  rewrite (SFcompare_key _ _ Ha Hb), <- keyCompare_eq.
  destruct (keyCompare _ _); split; try discriminate; auto.
  all: intros (_ & _ & H); discriminate.
Qed.

Lemma flt_trans (a b c : float) :
  (a <? b) = true -> (b <? c) = true -> (a <? c) = true.
Proof. intros H1 H2. apply (flt_le_trans a b c H1). now apply flt_le. Qed.

End FloatOrder.

Section BuiltinFacts.
Import Js JsBuiltins.
#[local] Open Scope float_scope.

Lemma maxStep_cases (highest value : float) :
  isNaN highest = false -> isNaN value = false ->
  (maxStep highest value = value /\ (highest <=? value) = true) \/
  (maxStep highest value = highest /\ (value <=? highest) = true).
Proof.
  intros Hh Hv. unfold maxStep, gtb.
  destruct (isPositiveZero value && isNegativeZero highest) eqn:Hz.
  - apply andb_prop in Hz as [Hp Hn]. left. split; [reflexivity|].
    exact (proj1 (neg_zero_le_pos_zero _ _ Hn Hp)).
  - destruct (highest <? value) eqn:Hlt.
    + left. split; [reflexivity|]. now apply flt_le.
    + right. split; [reflexivity|].
      rewrite (fle_total value highest Hv Hh), Hlt. reflexivity.
Qed.

Lemma minStep_cases (lowest value : float) :
  isNaN lowest = false -> isNaN value = false ->
  (minStep lowest value = value /\ (value <=? lowest) = true) \/
  (minStep lowest value = lowest /\ (lowest <=? value) = true).
Proof.
  intros Hl Hv. unfold minStep.
  destruct (isNegativeZero value && isPositiveZero lowest) eqn:Hz.
  - apply andb_prop in Hz as [Hn Hp]. left. split; [reflexivity|].
    exact (proj1 (neg_zero_le_pos_zero _ _ Hn Hp)).
  - destruct (value <? lowest) eqn:Hlt.
    + left. split; [reflexivity|]. now apply flt_le.
    + right. split; [reflexivity|].
      rewrite (fle_total lowest value Hl Hv), Hlt. reflexivity.
Qed.

Lemma fold_maxStep_inv (values : list float) : forall highest seen,
  isNaN highest = false ->
  Forall (fun g => isNaN g = false) values ->
  (seen = [] /\ highest = neg_infinity) \/ In highest seen ->
  (forall g, In g seen -> (g <=? highest) = true) ->
  let r := fold_left maxStep values highest in
  isNaN r = false /\
  ((seen ++ values = [] /\ r = neg_infinity) \/ In r (seen ++ values)) /\
  forall g, In g (seen ++ values) -> (g <=? r) = true.
Proof.
  induction values as [|v values IH]; intros highest seen Hh Hall Hmem Hub;
    cbn [fold_left]; cbv zeta.
  - rewrite List.app_nil_r. auto.
  - inversion Hall as [|? ? Hv Hall']; subst.
    replace (seen ++ v :: values) with ((seen ++ [v]) ++ values)
      by now rewrite <- List.app_assoc.
    destruct (maxStep_cases highest v Hh Hv) as [[Heq Hle]|[Heq Hle]];
      rewrite Heq.
    + apply IH; auto.
      * right. apply List.in_or_app. right. now left.
      * intros g Hg. apply List.in_app_or in Hg as [Hg|[<-|[]]].
        -- apply (fle_trans g highest v); auto.
        -- now apply fle_refl.
    + apply IH; auto.
      * destruct Hmem as [[-> ->]|Hin].
        -- right. cbn. left.
           apply not_above_neg_infinity; [exact Hv|].
           destruct (neg_infinity <? v) eqn:E; [|reflexivity].
           rewrite (fle_total v neg_infinity Hv Hh), E in Hle. discriminate.
        -- right. apply List.in_or_app. now left.
      * intros g Hg. apply List.in_app_or in Hg as [Hg|[<-|[]]]; auto.
Qed.

Lemma fold_minStep_inv (values : list float) : forall lowest seen,
  isNaN lowest = false ->
  Forall (fun g => isNaN g = false) values ->
  (seen = [] /\ lowest = infinity) \/ In lowest seen ->
  (forall g, In g seen -> (lowest <=? g) = true) ->
  let r := fold_left minStep values lowest in
  isNaN r = false /\
  ((seen ++ values = [] /\ r = infinity) \/ In r (seen ++ values)) /\
  forall g, In g (seen ++ values) -> (r <=? g) = true.
Proof.
  induction values as [|v values IH]; intros lowest seen Hl Hall Hmem Hlb;
    cbn [fold_left]; cbv zeta.
  - rewrite List.app_nil_r. auto.
  - inversion Hall as [|? ? Hv Hall']; subst.
    replace (seen ++ v :: values) with ((seen ++ [v]) ++ values)
      by now rewrite <- List.app_assoc.
    destruct (minStep_cases lowest v Hl Hv) as [[Heq Hle]|[Heq Hle]];
      rewrite Heq.
    + apply IH; auto.
      * right. apply List.in_or_app. right. now left.
      * intros g Hg. apply List.in_app_or in Hg as [Hg|[<-|[]]].
        -- apply (fle_trans v lowest g); auto.
        -- now apply fle_refl.
    + apply IH; auto.
      * destruct Hmem as [[-> ->]|Hin].
        -- right. cbn. left.
           apply not_below_infinity; [exact Hv|].
           destruct (v <? infinity) eqn:E; [|reflexivity].
           rewrite (fle_total infinity v Hl Hv), E in Hle. discriminate.
        -- right. apply List.in_or_app. now left.
      * intros g Hg. apply List.in_app_or in Hg as [Hg|[<-|[]]]; auto.
Qed.

Lemma existsb_isNaN_false (values : list float) :
  existsb isNaN values = false <-> Forall (fun g => isNaN g = false) values.
Proof.
  induction values as [|v values IH]; cbn.
  - split; [constructor|reflexivity].
  - rewrite orb_false_iff, IH. split.
    + intros [? ?]. now constructor.
    + intros H. now inversion H.
Qed.

(** [Math.max] and [Math.min] over numbers none of which is [NaN]: the
    result is one of the numbers and bounds them all. *)
Lemma mathMax_bound (values : list float) :
  values <> [] -> Forall (fun g => isNaN g = false) values ->
  In (mathMax values) values /\
  forall g, In g values -> (g <=? mathMax values) = true.
Proof.
  intros Hne Hall. unfold mathMax.
  rewrite (proj2 (existsb_isNaN_false values) Hall).
  destruct (fold_maxStep_inv values neg_infinity [] eq_refl Hall
              (or_introl (conj eq_refl eq_refl)))
    as (_ & Hmem & Hub); [intros g []|].
  cbn [app] in *. destruct Hmem as [[Hnil _]|Hin]; [contradiction|].
  split; assumption.
Qed.

Lemma mathMin_bound (values : list float) :
  values <> [] -> Forall (fun g => isNaN g = false) values ->
  In (mathMin values) values /\
  forall g, In g values -> (mathMin values <=? g) = true.
Proof.
  intros Hne Hall. unfold mathMin.
  rewrite (proj2 (existsb_isNaN_false values) Hall).
  destruct (fold_minStep_inv values infinity [] eq_refl Hall
              (or_introl (conj eq_refl eq_refl)))
    as (_ & Hmem & Hlb); [intros g []|].
  cbn [app] in *. destruct Hmem as [[Hnil _]|Hin]; [contradiction|].
  split; assumption.
Qed.

Lemma mathMax_nan (values : list float) :
  Exists (fun g => isNaN g = true) values ->
  mathMax values = nan /\ mathMin values = nan.
Proof.
  intros Hex. unfold mathMax, mathMin.
  assert (H : existsb isNaN values = true).
  { apply List.existsb_exists. apply List.Exists_exists in Hex. exact Hex. }
  rewrite H. split; reflexivity.
Qed.

End BuiltinFacts.

Section ViewFacts.
Import Js Types DataProcessing JsBuiltins DataProcessingViews.
Context {engine : Sorting}.
#[local] Open Scope float_scope.

Lemma count_sum {A : Type} (p : A -> bool) (l : list A) :
  length (List.filter p l) = sum_list_with (fun x => Nat.b2n (p x)) l.
Proof.
  induction l as [|x l IH]; cbn; [reflexivity|].
  destruct (p x); cbn; lia.
Qed.

Lemma sum_list_with_ext_eq {A : Type} (f g : A -> nat) (l : list A) :
  (forall x, f x = g x) -> sum_list_with f l = sum_list_with g l.
Proof. intros H. induction l as [|x l IH]; cbn; [reflexivity|]. now rewrite H, IH. Qed.

Lemma sum_list_with_add {A : Type} (f g : A -> nat) (l : list A) :
  sum_list_with (fun x => (f x + g x)%nat) l
  = (sum_list_with f l + sum_list_with g l)%nat.
Proof. induction l as [|x l IH]; cbn; lia. Qed.

(** Where one grade falls among the bands. *)
Lemma grade_bands (g : float) :
  Nat.b2n (geb g 10)
  = (Nat.b2n (geb g 15) + Nat.b2n (geb g 10 && (g <? 15)%float))%nat /\
  (Nat.b2n (geb g 15) + Nat.b2n (geb g 10 && (g <? 15)%float)
   + Nat.b2n (geb g 8 && (g <? 10)%float) + Nat.b2n (g <? 8)%float)%nat
  = Nat.b2n (negb (isNaN g)).
Proof.
  unfold geb.
  destruct (isNaN g) eqn:Hnan.
  - assert (H : forall c, (c <=? g) = false /\ (g <? c) = false).
    { intros c. split.
      - destruct (c <=? g) eqn:E; [|reflexivity].
        apply fle_not_nan in E as [_ E]. congruence.
      - destruct (g <? c) eqn:E; [|reflexivity].
        apply flt_not_nan in E as [E _]. congruence. }
    rewrite (proj1 (H 15)), (proj1 (H 10)), (proj1 (H 8)), (proj2 (H 8)).
    split; reflexivity.
  - rewrite (fle_total 15 g), (fle_total 10 g), (fle_total 8 g)
      by (reflexivity || assumption).
    assert (H810 : (g <? 8) = true -> (g <? 10) = true)
      by (intros H; now apply (flt_le_trans g 8 10)).
    assert (H1015 : (g <? 10) = true -> (g <? 15) = true)
      by (intros H; now apply (flt_le_trans g 10 15)).
    destruct (g <? 8), (g <? 10), (g <? 15); cbn; split; try reflexivity;
      try (specialize (H810 eq_refl); discriminate);
      try (specialize (H1015 eq_refl); discriminate).
Qed.

Lemma bands_partition (grades : list float) :
  count (fun g => geb g 10) grades
  = (count (fun g => geb g 15) grades
     + count (fun g => geb g 10 && (g <? 15)%float) grades)%nat /\
  (count (fun g => geb g 15) grades
   + count (fun g => geb g 10 && (g <? 15)%float) grades
   + count (fun g => geb g 8 && (g <? 10)%float) grades
   + count (fun g => (g <? 8)%float) grades)%nat
  = length (List.filter (fun g => negb (isNaN g)) grades).
Proof.
  unfold count. rewrite !count_sum. split.
  - rewrite <- sum_list_with_add. apply sum_list_with_ext_eq.
    intros g. apply grade_bands.
  - rewrite <- !sum_list_with_add. apply sum_list_with_ext_eq.
    intros g. apply grade_bands.
Qed.

Lemma In_map_stat {A R : Type} (f : A -> R) (l : list A) (x : R) :
  In x (map f l) -> exists a, In a l /\ x = f a.
Proof. intros H. apply List.in_map_iff in H as (a & <- & Hin). eauto. Qed.

(** X1: in every record of [getSubjectAnalysis] and of
    [getDistributionStats], the count of grades of at least 10 is the sum
    of the bands [>= 15] and [10 to 14], and the four bands [>= 15],
    [10 to 14], [8 to 9] and [< 8] together count each grade of the
    subject that is not [NaN] exactly once. *)
Theorem grade_bands_partition
    (students : Array Student) (subjects : Array string)
    (cacheA cacheD : option (Slot (list SubjectStats)))
    (stat : SubjectStats) :
  cacheValid pairRefs subjectAnalysisOf cacheA (students, subjects) ->
  cacheValid pairRefs distributionStatsOf cacheD (students, subjects) ->
  In stat (fst (getSubjectAnalysis cacheA (students, subjects))) \/
  In stat (fst (getDistributionStats cacheD (students, subjects))) ->
  let graded := gradesOf (elems students) (subject stat) in
  countAbove10 stat = (countAbove15 stat + count10to14 stat)%nat /\
  (countAbove15 stat + count10to14 stat + count8to9 stat
   + countBelow8 stat)%nat
  = length (List.filter (fun g => negb (isNaN g)) graded).
Proof.
  intros HA HD Hin graded. subst graded.
  unfold getSubjectAnalysis, getDistributionStats in Hin.
  rewrite (memoize_valid _ _ _ _ HA), (memoize_valid _ _ _ _ HD) in Hin.
  unfold subjectAnalysisOf, distributionStatsOf in Hin. cbn [fst snd] in Hin.
  destruct Hin as [Hin|Hin];
    apply In_map_stat in Hin as (subj & _ & ->); cbn;
    apply bands_partition.
Qed.

(** A slot that earlier calls of the run have filled serves, for every
    call to come, what [fn] computes. *)
Lemma callAll_transparent {Args T : Type} (refs : Args -> list nat)
    (fn : Args -> T) (calls : list Args) : forall cache,
  (forall slot b, cache = Some slot -> In b calls ->
     refs b = lastArgs slot -> lastResult slot = fn b) ->
  (forall a b, In a calls -> In b calls -> refs a = refs b -> fn a = fn b) ->
  callAll refs fn cache calls = map fn calls.
Proof.
  induction calls as [|args rest IH]; intros cache Hslot Hsame;
    [reflexivity|].
  cbn [callAll map].
  assert (Hrest : forall a b, In a rest -> In b rest ->
                    refs a = refs b -> fn a = fn b).
  { intros a b Ha Hb. apply Hsame; now right. }
  unfold memoize.
  destruct cache as [slot|].
  - destruct (bool_decide_reflect (refs args = lastArgs slot)) as [Heq|Hne].
    + rewrite (Hslot slot args eq_refl (or_introl eq_refl) Heq).
      f_equal. apply IH; [|exact Hrest].
      intros slot' b [= <-] Hb Hrefs.
      apply (Hslot slot b eq_refl (or_intror Hb) Hrefs).
    + f_equal. apply IH; [|exact Hrest].
      intros slot' b [= <-] Hb Hrefs. cbn in *.
      apply Hsame; [now left|now right|now symmetry].
  - f_equal. apply IH; [|exact Hrest].
    intros slot' b [= <-] Hb Hrefs. cbn in *.
    apply Hsame; [now left|now right|now symmetry].
Qed.

(** X2: a memoized function called any number of times, starting with
    an empty slot, returns at every call what the function it wraps
    computes, provided calls that pass identical objects pass objects
    with the contents they had before (no array is changed in place
    between two calls). *)
Theorem memoize_transparent {Args T : Type} (refs : Args -> list nat)
    (fn : Args -> T) (calls : list Args) :
  (forall a b, In a calls -> In b calls -> refs a = refs b -> fn a = fn b) ->
  callAll refs fn None calls = map fn calls.
Proof.
  intros Hsame. apply callAll_transparent; [|exact Hsame].
  intros slot b Hnone. discriminate Hnone.
Qed.

Lemma filter_map_length {A C : Type} (f : A -> C) (p : C -> bool)
    (l : list A) :
  length (List.filter p (map f l)) = length (List.filter (fun x => p (f x)) l).
Proof.
  induction l as [|x l IH]; cbn; [reflexivity|].
  destruct (p (f x)); cbn; now rewrite IH.
Qed.

(** X3: for one class, the semester statistics and the category
    statistics agree on success: the number of semester averages of at
    least 10 is the number of successful students, and the pass
    percentage of the semester averages is the overall success rate. *)
Theorem semester_and_category_stats_agree (students : Array Student)
    (cacheS : option (Slot SemesterStats.t))
    (cacheC : option (Slot GlobalStats)) :
  cacheValid studentsRef globalSemesterStatsOf cacheS students ->
  cacheValid studentsRef categoryGlobalStatsOf cacheC students ->
  let semester := fst (getGlobalSemesterStats cacheS students) in
  let category := fst (getCategoryGlobalStats cacheC students) in
  SemesterStats.countAbove10 semester = successfulStudents category /\
  SemesterStats.passPercentage semester = overallSuccessRate category.
Proof.
  intros HS HC semester category. subst semester category.
  unfold getGlobalSemesterStats, getCategoryGlobalStats.
  rewrite (memoize_valid _ _ _ _ HS), (memoize_valid _ _ _ _ HC).
  unfold globalSemesterStatsOf, categoryGlobalStatsOf.
  unfold globalSemesterStats, categoryGlobalStats.
  cbn [SemesterStats.countAbove10 SemesterStats.passPercentage
       successfulStudents overallSuccessRate].
  unfold count, Statistics.calculatePassPercentage.
  rewrite !filter_map_length, List.length_map. split; reflexivity.
Qed.

Lemma filter_length_le {A : Type} (p : A -> bool) (l : list A) :
  (length (List.filter p l) <= length l)%nat.
Proof. induction l as [|x l IH]; cbn; [lia|]. destruct (p x); cbn; lia. Qed.

Lemma filter_length_mono {A : Type} (p q : A -> bool) (l : list A) :
  (forall x, p x = true -> q x = true) ->
  (length (List.filter p l) <= length (List.filter q l))%nat.
Proof.
  intros H. induction l as [|x l IH]; cbn; [lia|].
  destruct (p x) eqn:Hp.
  - rewrite (H x Hp). cbn. lia.
  - destruct (q x); cbn; lia.
Qed.

(** X4: the head counts of [getCategoryGlobalStats] never contradict
    one another: females and males (everyone who is not labelled female)
    make up the class, the successful of each group are no more than the
    group, the successful females and males together are no more than
    the successful students, who are no more than the class, and the
    three optional-subject counts are always 0. *)
Theorem getCategoryGlobalStats_counts_consistent (students : Array Student)
    (cache : option (Slot GlobalStats)) :
  cacheValid studentsRef categoryGlobalStatsOf cache students ->
  let stats := fst (getCategoryGlobalStats cache students) in
  totalStudents stats = length (elems students) /\
  (totalFemales stats + totalMales (elems students))%nat
  = totalStudents stats /\
  (successfulFemales stats <= totalFemales stats)%nat /\
  (successfulMales stats <= totalMales (elems students))%nat /\
  (successfulFemales stats + successfulMales stats
   <= successfulStudents stats)%nat /\
  (successfulStudents stats <= totalStudents stats)%nat /\
  amazighStudents stats = 0%nat /\ artStudents stats = 0%nat /\
  musicStudents stats = 0%nat.
Proof.
  intros Hvalid stats. subst stats. unfold getCategoryGlobalStats.
  rewrite (memoize_valid _ _ _ _ Hvalid). unfold categoryGlobalStatsOf.
  cbn [categoryGlobalStats totalStudents totalFemales successfulFemales
       successfulMales successfulStudents amazighStudents artStudents
       musicStudents].
  set (l := elems students).
  split; [reflexivity|]. split.
  { unfold totalMales. pose proof (filter_length_le
      (fun s => isText (gender s) FEMALE) l). lia. }
  split.
  { apply filter_length_mono. intros s H.
    now apply andb_prop in H as [_ H]. }
  split.
  { unfold totalMales. rewrite filter_complement_length.
    apply filter_length_mono. intros s H.
    apply andb_prop in H as [_ H].
    destruct (isText (gender s) FEMALE) eqn:Hf; [|reflexivity].
    apply female_not_male in Hf. congruence. }
  split.
  { rewrite (successful_partition l). lia. }
  split; [apply filter_length_le|]. repeat split.
Qed.

Lemma band_exclusive (g : float) :
  (Nat.b2n (geb g 15) + Nat.b2n (g <? 10)%float <= 1)%nat.
Proof.
  unfold geb. destruct (15 <=? g) eqn:Hge; [|destruct (g <? 10); cbn; lia].
  destruct (g <? 10) eqn:Hlt; [|cbn; lia].
  assert (H : (g <? 15) = true) by now apply (flt_le_trans g 10 15).
  apply fle_not_nan in Hge as Hnan. destruct Hnan as [_ Hnan].
  rewrite (fle_total 15 g eq_refl Hnan), H in Hge. discriminate.
Qed.

Lemma sum_list_with_le {A : Type} (f : A -> nat) (l : list A) :
  (forall x, f x <= 1)%nat -> (sum_list_with f l <= length l)%nat.
Proof.
  intros H. induction l as [|x l IH]; cbn; [lia|].
  specialize (H x). lia.
Qed.

(** X5: in every record of [getGeneralSubjectSummary], [studentCount] is
    the number of grades of the subject and bounds the two counts
    together; with no grade all of [highest], [lowest] and [average] are
    0; a [NaN] grade makes [highest] and [lowest] [NaN]; otherwise
    [highest] and [lowest] are grades of the subject, and every grade
    lies between them. *)
Theorem getGeneralSubjectSummary_extremes
    (students : Array Student) (subjects : Array string)
    (cache : option (Slot (list GeneralSubjectStats.t)))
    (row : GeneralSubjectStats.t) :
  cacheValid pairRefs generalSubjectSummaryOf cache (students, subjects) ->
  In row (fst (getGeneralSubjectSummary cache (students, subjects))) ->
  let graded :=
    gradesOf (elems students) (GeneralSubjectStats.subject row) in
  GeneralSubjectStats.studentCount row = length graded /\
  (GeneralSubjectStats.countAbove15 row + GeneralSubjectStats.countBelow10 row
   <= GeneralSubjectStats.studentCount row)%nat /\
  (graded = [] ->
     GeneralSubjectStats.highest row = 0 /\
     GeneralSubjectStats.lowest row = 0 /\
     GeneralSubjectStats.average row = 0) /\
  (Exists (fun g => isNaN g = true) graded ->
     GeneralSubjectStats.highest row = nan /\
     GeneralSubjectStats.lowest row = nan) /\
  (graded <> [] -> Forall (fun g => isNaN g = false) graded ->
     In (GeneralSubjectStats.highest row) graded /\
     In (GeneralSubjectStats.lowest row) graded /\
     forall g, In g graded ->
       (GeneralSubjectStats.lowest row <=? g) = true /\
       (g <=? GeneralSubjectStats.highest row) = true).
Proof.
  intros Hvalid Hin graded. subst graded.
  unfold getGeneralSubjectSummary in Hin.
  rewrite (memoize_valid _ _ _ _ Hvalid) in Hin.
  unfold generalSubjectSummaryOf, generalSubjectSummary in Hin.
  cbn [fst snd] in Hin.
  apply In_map_stat in Hin as (subj & _ & ->).
  cbn [GeneralSubjectStats.subject GeneralSubjectStats.studentCount
       GeneralSubjectStats.countAbove15 GeneralSubjectStats.countBelow10
       GeneralSubjectStats.highest GeneralSubjectStats.lowest
       GeneralSubjectStats.average].
  set (graded := gradesOf (elems students) subj).
  split; [reflexivity|]. split.
  { unfold count. rewrite !count_sum, <- sum_list_with_add.
    apply sum_list_with_le. intros g. apply band_exclusive. }
  split.
  { intros ->. repeat split. }
  split.
  { intros Hex.
    assert (Hpos : (0 <? length graded)%nat = true).
    { destruct graded; [inversion Hex|reflexivity]. }
    rewrite Hpos. now apply mathMax_nan. }
  intros Hne Hall.
  assert (Hpos : (0 <? length graded)%nat = true).
  { destruct graded; [contradiction|reflexivity]. }
  rewrite Hpos.
  destruct (mathMax_bound graded Hne Hall) as [Hmax Hub].
  destruct (mathMin_bound graded Hne Hall) as [Hmin Hlb].
  split; [exact Hmax|]. split; [exact Hmin|].
  intros g Hg. split; [now apply Hlb|now apply Hub].
Qed.

Lemma insertInto_perm {A : Type} (compare : A -> A -> float) (x : A)
    (sorted : list A) :
  insertInto compare x sorted ≡ₚ x :: sorted.
Proof.
  induction sorted as [|y rest IH]; cbn; [reflexivity|].
  destruct (compare x y <? 0); [reflexivity|].
  rewrite IH. apply Permutation_swap.
Qed.

Lemma stableSort_perm {A : Type} (compare : A -> A -> float)
    (arr : list A) :
  stableSort compare arr ≡ₚ arr.
Proof.
  unfold stableSort.
  assert (H : forall acc, fold_left (fun sorted x => insertInto compare x sorted)
                            arr acc ≡ₚ acc ++ arr).
  { induction arr as [|x arr IH]; intros acc; cbn.
    - now rewrite List.app_nil_r.
    - rewrite IH, insertInto_perm. cbn [app].
      apply Permutation_middle. }
  apply (H []).
Qed.

(** X6: [getRepeaterStats] keeps as [repeaters] exactly the students
    flagged as repeaters, in class order; females and males (every
    repeater not labelled female) add up to their number; the entries of
    [subjectPerformance] are, one per subject and in some order, the
    subject with the average of the repeaters' grades in it; without
    repeaters every average and the success rate are 0. *)
Theorem getRepeaterStats_partition
    (students : Array Student) (subjects : Array string)
    (cache : option (Slot RepeaterStats.t)) :
  cacheValid pairRefs repeaterStatsOf cache (students, subjects) ->
  let stats := fst (getRepeaterStats cache (students, subjects)) in
  let group := RepeaterStats.repeaters stats in
  group = List.filter (fun s => isRepeater s) (elems students) /\
  RepeaterStats.totalRepeaters stats = length group /\
  (RepeaterStats.femaleRepeaters stats + RepeaterStats.maleRepeaters stats)%nat
  = RepeaterStats.totalRepeaters stats /\
  (RepeaterStats.totalRepeaters stats <= length (elems students))%nat /\
  map SubjectAverage.subject (RepeaterStats.subjectPerformance stats)
    ≡ₚ elems subjects /\
  Forall (fun entry =>
            SubjectAverage.average entry
            = Statistics.calculateAverage
                (gradesOf group (SubjectAverage.subject entry)))
         (RepeaterStats.subjectPerformance stats) /\
  (group = [] ->
     RepeaterStats.repeaterAverage stats = 0 /\
     RepeaterStats.successRate stats = 0 /\
     Forall (fun entry => SubjectAverage.average entry = 0)
       (RepeaterStats.subjectPerformance stats)).
Proof.
  intros Hvalid stats group. subst group stats.
  unfold getRepeaterStats. rewrite (memoize_valid _ _ _ _ Hvalid).
  unfold repeaterStatsOf, repeaterStats. cbn [fst snd].
  cbn [RepeaterStats.repeaters RepeaterStats.totalRepeaters
       RepeaterStats.femaleRepeaters RepeaterStats.maleRepeaters
       RepeaterStats.subjectPerformance RepeaterStats.repeaterAverage
       RepeaterStats.successRate].
  set (group := List.filter (fun s => isRepeater s) (elems students)).
  set (entries := repeaterSubjectAverages group (elems subjects)).
  assert (Hentries : Forall (fun entry =>
            SubjectAverage.average entry
            = Statistics.calculateAverage
                (gradesOf group (SubjectAverage.subject entry))) entries).
  { apply List.Forall_forall. intros entry Hin.
    apply In_map_stat in Hin as (subj & _ & ->). reflexivity. }
  pose proof (sort_permutation _
    (fun a b => SubjectAverage.average a - SubjectAverage.average b) entries)
    as Hperm.
  split; [reflexivity|]. split; [reflexivity|]. split.
  { pose proof (filter_length_le (fun s => isText (gender s) FEMALE) group).
    lia. }
  split; [apply filter_length_le|]. split.
  { rewrite Hperm. unfold entries, repeaterSubjectAverages.
    rewrite List.map_map. cbn. now rewrite List.map_id. }
  split.
  { rewrite Hperm. exact Hentries. }
  intros Hnone. split; [now rewrite Hnone|]. split; [now rewrite Hnone|].
  rewrite Hperm. apply List.Forall_forall. intros entry Hin.
  rewrite List.Forall_forall in Hentries. rewrite (Hentries entry Hin).
  rewrite Hnone. reflexivity.
Qed.


Lemma chained_lookup {A : Type} (R : A -> A -> Prop) (l : list A) :
  chained R l ->
  forall i p q, l !! i = Some p -> l !! S i = Some q -> R p q.
Proof.
  induction l as [|a l IH]; intros Hc i p q Hp Hq; [discriminate|].
  destruct Hc as [Hhead Htail].
  destruct i as [|i]; cbn in Hp, Hq.
  - injection Hp as <-. destruct l as [|b l]; [discriminate|].
    cbn in Hq. injection Hq as <-. exact Hhead.
  - now apply (IH Htail i).
Qed.

Lemma insertInto_chained {A : Type} (compare : A -> A -> float) (x : A)
    (sorted : list A) :
  (forall a b, (compare a b <? 0) = true -> (compare b a <? 0) = false) ->
  chained (fun p q => (compare q p <? 0) = false) sorted ->
  chained (fun p q => (compare q p <? 0) = false) (insertInto compare x sorted).
Proof.
  intros Hanti. induction sorted as [|y rest IH]; intros Hc.
  - cbn. auto.
  - cbn [insertInto]. destruct (compare x y <? 0) eqn:Hxy.
    + split; [now apply Hanti|exact Hc].
    + destruct Hc as [Hhead Htail]. specialize (IH Htail).
      split; [|exact IH].
      destruct rest as [|z rest']; cbn [insertInto]; [exact Hxy|].
      destruct (compare x z <? 0); [exact Hxy|exact Hhead].
Qed.

Lemma stableSort_chained {A : Type} (compare : A -> A -> float)
    (arr : list A) :
  (forall a b, (compare a b <? 0) = true -> (compare b a <? 0) = false) ->
  chained (fun p q => (compare q p <? 0) = false) (stableSort compare arr).
Proof.
  intros Hanti. unfold stableSort.
  assert (H : forall acc,
    chained (fun p q => (compare q p <? 0) = false) acc ->
    chained (fun p q => (compare q p <? 0) = false)
      (fold_left (fun sorted x => insertInto compare x sorted) arr acc)).
  { induction arr as [|x arr IH]; intros acc Hacc; cbn; [exact Hacc|].
    apply IH. now apply insertInto_chained. }
  apply H. exact I.
Qed.

Lemma chained_pairwise {A : Type} (R : A -> A -> Prop) (l : list A) :
  (forall a b c, In a l -> In b l -> In c l -> R a b -> R b c -> R a c) ->
  chained R l ->
  forall i j p q, (i < j)%nat -> l !! i = Some p -> l !! j = Some q -> R p q.
Proof.
  intros Htrans Hc i j p q Hij Hp Hq.
  assert (Hin : forall k x, l !! k = Some x -> In x l).
  { intros k x Hk. apply list_elem_of_In. now apply (list_elem_of_lookup_2 l k). }
  revert q Hq. induction Hij as [|j Hij IH]; intros q Hq.
  - now apply (chained_lookup R l Hc i).
  - destruct (l !! j) as [m|] eqn:Hm.
    + apply (Htrans p m q); eauto.
      now apply (chained_lookup R l Hc j).
    + apply lookup_ge_None_1 in Hm. apply lookup_lt_Some in Hq. lia.
Qed.

(** Neighbours that the difference of a finite key does not put in the
    other order are in ascending order of the key. *)
Lemma chained_ascending {A : Type} (key : A -> float) (l : list A) :
  Forall (fun a => isFinite (key a) = true) l ->
  chained (fun p q => (key q - key p <? 0) = false) l ->
  chained (fun p q => (key p <=? key q) = true) l.
Proof.
  induction l as [|p rest IH]; intros Hfinite Hc; [exact I|].
  apply Forall_cons in Hfinite as [Fp Frest].
  destruct Hc as [Hhead Htail]. split; [|now apply IH].
  destruct rest as [|q rest']; [exact I|].
  apply Forall_cons in Frest as [Fq _].
  rewrite sub_negative in Hhead.
  rewrite fle_total, Hhead; [reflexivity| |]; now apply isFinite_SF.
Qed.

(** Comparing by the difference of a finite key is consistent. *)
Lemma difference_consistent {A : Type} (key : A -> float) (arr : list A) :
  Forall (fun a => isFinite (key a) = true) arr ->
  consistent (fun a b => key a - key b) arr.
Proof.
  intros Hfinite a b c Ha Hb Hc.
  rewrite List.Forall_forall in Hfinite.
  pose proof (Hfinite a Ha) as Fa. pose proof (Hfinite b Hb) as Fb.
  pose proof (Hfinite c Hc) as Fc.
  destruct (sub_finite_cases _ _ Fa Fb) as (Hnan & Hlt_ab & Heq_ab & Hgt_ab).
  destruct (sub_finite_cases _ _ Fb Fc) as (_ & Hlt_bc & Heq_bc & Hgt_bc).
  destruct (sub_finite_cases _ _ Fa Fc) as (_ & Hlt_ac & Heq_ac & Hgt_ac).
  destruct (sub_finite_cases _ _ Fb Fa) as (_ & _ & Heq_ba & _).
  destruct (sub_finite_cases _ _ Fa Fa) as (_ & _ & Heq_aa & _).
  rewrite Hlt_ab, Heq_ab, Hgt_ab, Hlt_bc, Heq_bc, Hgt_bc, Hlt_ac, Heq_ac,
    Hgt_ac, Heq_ba, Heq_aa.
  destruct (isFinite_SF _ Fa) as [_ Na].
  split; [exact Hnan|]. split.
  { apply feq_key. auto. }
  split.
  { intros H. apply feq_key in H as (? & ? & ?). apply feq_key. auto. }
  split.
  { intros H1 H2. apply feq_key in H1 as (? & ? & ?).
    apply feq_key in H2 as (? & ? & ?). apply feq_key.
    split; [assumption|]. split; [assumption|congruence]. }
  split.
  { apply flt_trans. }
  intros H1 H2. exact (flt_trans _ _ _ H2 H1).
Qed.

(** X7: when the averages of the repeaters in the subjects are finite
    numbers, [subjectPerformance] of [getRepeaterStats] is in ascending
    order of average, weakest subject first, whatever the engine:
    the average of an entry is at most that of every later entry, and
    no later entry has an average below it.  The entries are then those
    of the subjects in the order in which a stable sort leaves them. *)
Theorem getRepeaterStats_weakest_first
    (students : Array Student) (subjects : Array string)
    (cache : option (Slot RepeaterStats.t)) :
  cacheValid pairRefs repeaterStatsOf cache (students, subjects) ->
  let ranking :=
    RepeaterStats.subjectPerformance
      (fst (getRepeaterStats cache (students, subjects))) in
  Forall (fun entry => isFinite (SubjectAverage.average entry) = true)
    ranking ->
  (forall i j earlier later,
     (i < j)%nat ->
     ranking !! i = Some earlier -> ranking !! j = Some later ->
     (SubjectAverage.average earlier <=? SubjectAverage.average later)
     = true /\
     (SubjectAverage.average later <? SubjectAverage.average earlier)
     = false) /\
  ranking
  = stableSort
      (fun a b => SubjectAverage.average a - SubjectAverage.average b)
      (repeaterSubjectAverages
         (List.filter (fun s => isRepeater s) (elems students))
         (elems subjects)).
Proof.
  intros Hvalid ranking Hfinite.
  set (compare :=
         fun a b => SubjectAverage.average a - SubjectAverage.average b).
  set (entries := repeaterSubjectAverages
                    (List.filter (fun s => isRepeater s) (elems students))
                    (elems subjects)).
  assert (Hranking : ranking = sort compare entries).
  { subst ranking. unfold getRepeaterStats.
    rewrite (memoize_valid _ _ _ _ Hvalid). reflexivity. }
  assert (Hentries : Forall (fun entry =>
            isFinite (SubjectAverage.average entry) = true) entries).
  { rewrite <- (sort_permutation _ compare entries), <- Hranking.
    exact Hfinite. }
  assert (Hsorted : ranking = stableSort compare entries).
  { rewrite Hranking. apply sort_consistent.
    now apply (difference_consistent SubjectAverage.average). }
  split; [|exact Hsorted].
  assert (Hle : chained
            (fun p q => (SubjectAverage.average p <=? SubjectAverage.average q)
                        = true) ranking).
  { apply chained_ascending; [exact Hfinite|].
    rewrite Hsorted. apply (stableSort_chained compare entries).
    intros a b. unfold compare. rewrite !sub_negative. apply flt_asym. }
  intros i j earlier later Hij Hi Hj.
  assert (H : (SubjectAverage.average earlier
               <=? SubjectAverage.average later) = true).
  { apply (chained_pairwise _ _ (fun a b c _ _ _ => fle_trans _ _ _) Hle i j);
      assumption. }
  split; [exact H|].
  destruct (fle_not_nan _ _ H) as [Hn1 Hn2].
  rewrite (fle_total _ _ Hn1 Hn2) in H.
  now destruct (SubjectAverage.average later <? SubjectAverage.average earlier).
Qed.

Lemma calculateStandardDeviation_cases (data : list float) :
  Statistics.calculateStandardDeviation data = 0 \/
  exists variance, Statistics.calculateStandardDeviation data = sqrt variance.
Proof.
  unfold Statistics.calculateStandardDeviation.
  destruct (length data =? 0)%nat; [now left|right]. eauto.
Qed.

(** X8: [calculateStandardDeviation] never returns a negative number,
    whatever the data, and so the standard deviations reported by
    [getSubjectAnalysis] and [getGlobalSemesterStats] are never
    negative. *)
Theorem calculateStandardDeviation_not_negative :
  (forall data,
     (Statistics.calculateStandardDeviation data <? 0) = false) /\
  (forall students subjects stat,
     In stat (subjectAnalysis students subjects) ->
     (stdDev stat <? 0) = false) /\
  (forall students,
     (SemesterStats.stdDev (globalSemesterStats students) <? 0) = false).
Proof.
  assert (H : forall data,
            (Statistics.calculateStandardDeviation data <? 0) = false).
  { intros data.
    destruct (calculateStandardDeviation_cases data) as [->|[variance ->]];
      [reflexivity|apply sqrt_not_negative]. }
  split; [exact H|]. split.
  - intros students subjects stat Hin.
    apply In_map_stat in Hin as (subj & _ & ->). apply H.
  - intros students. apply H.
Qed.

Lemma filter_all {A : Type} (p : A -> bool) (l : list A) :
  Forall (fun x => p x = true) l -> List.filter p l = l.
Proof.
  induction 1 as [|x l Hx _ IH]; cbn; [reflexivity|]. now rewrite Hx, IH.
Qed.

Lemma gradesOf_In (students : list Student) (subj : string) (g : float) :
  In g (gradesOf students subj) ->
  exists s, In s students /\ grades s !! subj = Some g.
Proof.
  unfold gradesOf. intros Hin. apply list_elem_of_In in Hin.
  apply list_elem_of_omap in Hin as (s & Hs & Hg).
  exists s. split; [now apply list_elem_of_In|exact Hg].
Qed.


Lemma optionalSubjectsStats_agrees (students : list Student)
    (optionalSubjects : list string) :
  let noNaN :=
    forall s subj g, In s students ->
      grades s !! subj = Some g -> isNaN g = false in
  Forall2 (optionalAgrees noNaN)
    (optionalSubjectsStats students optionalSubjects)
    (subjectAnalysis students optionalSubjects).
Proof.
  intros noNaN. unfold optionalSubjectsStats, subjectAnalysis.
  induction optionalSubjects as [|subj rest IH]; cbn [map];
    constructor; [|exact IH].
  unfold optionalAgrees.
  cbn [OptionalStats.subject OptionalStats.count OptionalStats.average
       OptionalStats.passPercentage subject countAbove15 count10to14
       count8to9 countBelow8 average passPercentage].
  split; [reflexivity|]. split.
  - symmetry. apply bands_partition.
  - intros Hclean. unfold numericGradesOf.
    rewrite filter_all; [split; reflexivity|].
    apply List.Forall_forall. intros g Hg.
    apply gradesOf_In in Hg as (s & Hs & Hg).
    now rewrite (Hclean s subj g Hs Hg).
Qed.

(** X9: on the same students and subjects, [getOptionalSubjectsStats]
    returns one record per subject, in order; its [count] is the number
    of grades that [getSubjectAnalysis] spreads over its four bands, and
    when no student holds a [NaN] grade its average and pass percentage
    are those of [getSubjectAnalysis]. *)
Theorem getOptionalSubjectsStats_matches_analysis
    (students : Array Student) (optionalSubjects : Array string)
    (cacheO : option (Slot (list OptionalStats.t)))
    (cacheA : option (Slot (list SubjectStats))) :
  cacheValid pairRefs optionalSubjectsStatsOf cacheO
    (students, optionalSubjects) ->
  cacheValid pairRefs subjectAnalysisOf cacheA (students, optionalSubjects) ->
  let noNaN :=
    forall s subj g, In s (elems students) ->
      grades s !! subj = Some g -> isNaN g = false in
  Forall2 (optionalAgrees noNaN)
    (fst (getOptionalSubjectsStats cacheO (students, optionalSubjects)))
    (fst (getSubjectAnalysis cacheA (students, optionalSubjects))).
Proof.
  intros HO HA noNaN.
  unfold getOptionalSubjectsStats, getSubjectAnalysis.
  rewrite (memoize_valid _ _ _ _ HO), (memoize_valid _ _ _ _ HA).
  unfold optionalSubjectsStatsOf, subjectAnalysisOf. cbn [fst snd].
  apply optionalSubjectsStats_agrees.
Qed.

End ViewFacts.

(** ** A reference implementation of the sort

    Used to run [getRepeaterStats] on concrete classes.  It is the
    sort of every engine on the arrays of the examples below, for
    which the comparison function is consistent. *)

Module ReferenceSorting.
Import Js JsBuiltins.

#[export] Instance sorting : Sorting :=
  {| sort := @stableSort;
     sort_permutation := @stableSort_perm;
     sort_consistent := fun A compare arr _ => eq_refl |}.

End ReferenceSorting.

Section TrackingFacts.
Import Js Types DataProcessing JsBuiltins StudentTracking.
#[local] Open Scope float_scope.

Lemma find_In {A : Type} (p : A -> bool) (l : list A) (x : A) :
  List.find p l = Some x -> In x l /\ p x = true.
Proof. apply List.find_some. Qed.

Lemma filter_length_lt {A : Type} (p q : A -> bool) (l : list A) (x : A) :
  (forall y, p y = true -> q y = true) ->
  In x l -> q x = true -> p x = false ->
  (length (List.filter p l) < length (List.filter q l))%nat.
Proof.
  intros Hpq Hin Hq Hp. induction l as [|y l IH]; [destruct Hin|].
  cbn. destruct Hin as [->|Hin].
  - rewrite Hp, Hq. cbn.
    pose proof (filter_length_mono p q l Hpq). lia.
  - specialize (IH Hin). destruct (p y) eqn:Hpy.
    + rewrite (Hpq y Hpy). cbn. lia.
    + destruct (q y); cbn; lia.
Qed.

(** X10: when the selected identifier is that of a student of the
    class, the summary of [StudentTracking] exists (it is not [null]),
    the student found carries that identifier, and the rank is one more
    than the number of students with a strictly higher semester
    average, hence between 1 and the number of students. *)
Theorem summaryStats_rank_within_class (students : list Student)
    (selectedStudentId : string) (selected : Student) :
  selectedStudent students selectedStudentId = Some selected ->
  In selected students /\ id selected = selectedStudentId /\
  exists stats,
    summaryStats (Some selected) students = Some stats /\
    SummaryStats.studentAvg stats = semesterAverage selected /\
    SummaryStats.totalStudents stats = length students /\
    SummaryStats.rank stats
    = S (length (List.filter
                   (fun s => gtb (semesterAverage s) (semesterAverage selected))
                   students)) /\
    (1 <= SummaryStats.rank stats <= SummaryStats.totalStudents stats)%nat.
Proof.
  intros Hfind. apply find_In in Hfind as [Hin Hid].
  apply String.eqb_eq in Hid.
  split; [exact Hin|]. split; [exact Hid|].
  unfold summaryStats.
  destruct students as [|s0 rest] eqn:Hstudents; [destruct Hin|].
  rewrite <- Hstudents in *. replace (length students =? 0)%nat with false
    by now rewrite Hstudents.
  eexists. split; [reflexivity|].
  cbn [SummaryStats.studentAvg SummaryStats.totalStudents SummaryStats.rank].
  split; [reflexivity|]. split; [reflexivity|]. split; [lia|].
  split; [lia|].
  assert (Hlt : (length (List.filter
             (fun s => gtb (semesterAverage s) (semesterAverage selected))
             students)
          < length (List.filter (fun _ => true) students))%nat).
  { apply (filter_length_lt _ _ _ selected); auto.
    unfold gtb. apply flt_irrefl. }
  pose proof (filter_length_le (fun _ : Student => true) students). lia.
Qed.

(** X11: ranks follow the semester averages: a student whose average is
    at least another's is ranked no lower, strictly higher when the
    average is strictly above, and equal averages share a rank; when no
    average of the class is [NaN], the student's average lies between
    [lowest] and [highest], and the rank is 1 exactly for an average
    that reaches [highest]. *)
Theorem summaryStats_rank_follows_average (students : list Student)
    (a b : Student) (statsA statsB : SummaryStats.t) :
  In a students ->
  summaryStats (Some a) students = Some statsA ->
  summaryStats (Some b) students = Some statsB ->
  (geb (semesterAverage a) (semesterAverage b) = true ->
     (SummaryStats.rank statsA <= SummaryStats.rank statsB)%nat) /\
  (gtb (semesterAverage a) (semesterAverage b) = true ->
     (SummaryStats.rank statsA < SummaryStats.rank statsB)%nat) /\
  (semesterAverage a = semesterAverage b ->
     SummaryStats.rank statsA = SummaryStats.rank statsB) /\
  (Forall (fun s => isNaN (semesterAverage s) = false) students ->
     (SummaryStats.lowest statsA <=? semesterAverage a) = true /\
     (semesterAverage a <=? SummaryStats.highest statsA) = true /\
     (SummaryStats.rank statsA = 1%nat <->
      (SummaryStats.highest statsA <=? semesterAverage a) = true)).
Proof.
  intros Hin HA HB. unfold summaryStats in HA, HB.
  destruct (length students =? 0)%nat; [discriminate|].
  injection HA as <-. injection HB as <-.
  cbn [SummaryStats.rank SummaryStats.lowest SummaryStats.highest].
  split; [|split; [|split]].
  - intros Hge. unfold geb in Hge.
    assert (H := filter_length_mono
      (fun s => gtb (semesterAverage s) (semesterAverage a))
      (fun s => gtb (semesterAverage s) (semesterAverage b)) students).
    assert ((length (List.filter
               (fun s => gtb (semesterAverage s) (semesterAverage a)) students)
             <= length (List.filter
               (fun s => gtb (semesterAverage s) (semesterAverage b)) students))%nat);
      [|lia].
    apply H. intros s Hs. unfold gtb in *.
    now apply (fle_lt_trans _ (semesterAverage a)).
  - intros Hgt. unfold gtb in Hgt.
    assert ((length (List.filter
               (fun s => gtb (semesterAverage s) (semesterAverage a)) students)
             < length (List.filter
               (fun s => gtb (semesterAverage s) (semesterAverage b)) students))%nat);
      [|lia].
    apply (filter_length_lt _ _ _ a); auto.
    + intros s Hs. unfold gtb in *.
      apply (fle_lt_trans _ (semesterAverage a)); [now apply flt_le|exact Hs].
    + unfold gtb. apply flt_irrefl.
  - intros ->. reflexivity.
  - intros Hclean.
    assert (Hall : Forall (fun g => isNaN g = false)
                     (map semesterAverage students)).
    { apply List.Forall_map. exact Hclean. }
    assert (Hne : map semesterAverage students <> []).
    { destruct students; [destruct Hin|discriminate]. }
    destruct (mathMax_bound _ Hne Hall) as [Hmax Hub].
    destruct (mathMin_bound _ Hne Hall) as [Hmin Hlb].
    assert (Hmem : In (semesterAverage a) (map semesterAverage students))
      by now apply List.in_map.
    split; [now apply Hlb|]. split; [now apply Hub|].
    rewrite List.Forall_forall in Hclean.
    split.
    + intros Hrank.
      assert (Hnone : List.filter
                (fun s => gtb (semesterAverage s) (semesterAverage a)) students
              = []).
      { destruct (List.filter _ students); [reflexivity|cbn in Hrank; lia]. }
      apply List.in_map_iff in Hmax as (top & Htop & Hintop).
      rewrite <- Htop.
      rewrite (fle_total _ _ (Hclean top Hintop) (Hclean a Hin)).
      destruct (semesterAverage a <? semesterAverage top) eqn:E;
        [|reflexivity].
      assert (In top (List.filter
                (fun s => gtb (semesterAverage s) (semesterAverage a)) students))
        by (apply List.filter_In; split; [exact Hintop|exact E]).
      rewrite Hnone in H. destruct H.
    + intros Hreach.
      assert (Hnone : List.filter
                (fun s => gtb (semesterAverage s) (semesterAverage a)) students
              = []).
      { destruct (List.filter _ students) as [|s rest] eqn:E; [reflexivity|].
        assert (Hs : In s (List.filter
                  (fun s => gtb (semesterAverage s) (semesterAverage a))
                  students)) by (rewrite E; now left).
        apply List.filter_In in Hs as [Hs Hgt]. unfold gtb in Hgt.
        assert (Hle : (semesterAverage s <=? semesterAverage a) = true).
        { apply (fle_trans _ (mathMax (map semesterAverage students)));
            [|exact Hreach].
          apply Hub. now apply List.in_map. }
        rewrite (fle_total _ _ (Hclean s Hs) (Hclean a Hin)), Hgt in Hle.
        discriminate. }
      rewrite Hnone. reflexivity.
Qed.

Lemma find_subjectAnalysis (students : list Student) (subjects : list string)
    (subj : string) :
  In subj subjects ->
  exists found,
    List.find (fun s => String.eqb (subject s) subj)
      (subjectAnalysis students subjects) = Some found /\
    average found = Statistics.calculateAverage (gradesOf students subj).
Proof.
  unfold subjectAnalysis. induction subjects as [|first rest IH];
    intros Hin; [destruct Hin|].
  cbn [map List.find subject].
  destruct (String.eqb_spec first subj) as [->|Hne].
  - eexists. split; reflexivity.
  - destruct Hin as [Heq|Hin]; [contradiction|]. now apply IH.
Qed.

(** X12: for a selected student, the table of [StudentTracking] has one
    row per subject, in order, followed by one total row for the
    semester average; the class average shown for a subject is always
    the average of that subject's grades as [getSubjectAnalysis]
    computes it (the fallback 0 for a subject without statistics is
    never used); and a subject in which the student has no grade is
    shown with a dash and the label of an average equal to the
    class's. *)
Theorem tableData_rows {F : Formatting}
    (students : Array Student) (subjects : Array string)
    (cache : option (Slot (list SubjectStats))) (selected : Student) :
  cacheValid pairRefs subjectAnalysisOf cache (students, subjects) ->
  let rows :=
    tableData (Some selected) (elems subjects) (elems students)
      (fst (getSubjectAnalysis cache (students, subjects))) in
  map Row.subject rows = elems subjects ++ [SEMESTER_AVERAGE] /\
  map Row.isTotal rows
  = map (fun _ => false) (elems subjects) ++ [true] /\
  (forall i subj row,
     elems subjects !! i = Some subj -> rows !! i = Some row ->
     Row.classAverage row
     = toFixed2 (Statistics.calculateAverage
                   (gradesOf (elems students) subj)) /\
     (grades selected !! subj = None ->
        Row.studentGrade row = Dash /\ Row.comparison row = EQUAL) /\
     (forall g, grades selected !! subj = Some g ->
        Row.studentGrade row = Grade g)) /\
  exists total,
    last rows = Some total /\
    Row.studentGrade total = Grade (semesterAverage selected) /\
    Row.classAverage total
    = toFixed2 (Statistics.calculateAverage
                  (map semesterAverage (elems students))).
Proof.
  intros Hvalid rows. subst rows.
  unfold getSubjectAnalysis. rewrite (memoize_valid _ _ _ _ Hvalid).
  unfold subjectAnalysisOf. cbn [fst snd].
  set (l := elems students). set (subjs := elems subjects).
  unfold tableData.
  split; [|split; [|split]].
  - rewrite List.map_app, List.map_map. cbn. now rewrite List.map_id.
  - rewrite List.map_app, List.map_map. reflexivity.
  - intros i subj row Hsubj Hrow.
    rewrite lookup_app_l in Hrow
      by (rewrite List.length_map; now apply lookup_lt_Some in Hsubj).
    change (map ?f subjs) with (f <$> subjs) in Hrow.
    rewrite list_lookup_fmap, Hsubj in Hrow. cbn in Hrow.
    injection Hrow as <-.
    cbn [Row.classAverage Row.studentGrade Row.comparison].
    destruct (find_subjectAnalysis l subjs subj) as (found & -> & ->).
    { apply list_elem_of_In. now apply list_elem_of_lookup_2 in Hsubj. }
    split; [reflexivity|]. split.
    + intros ->. split; reflexivity.
    + intros g ->. reflexivity.
  - eexists. split; [apply last_snoc|]. split; reflexivity.
Qed.

End TrackingFacts.

Section ComparisonFacts.
Import Js Types DataProcessing JsBuiltins SubjectComparison.
#[local] Open Scope float_scope.





(** A band cut in two at a point between its bounds. *)
Lemma band_split (lo mid hi g : float) :
  (lo <=? mid) = true -> (mid <=? hi) = true ->
  (Nat.b2n (geb g lo && (g <? mid)%float)
   + Nat.b2n (geb g mid && (g <? hi)%float))%nat
  = Nat.b2n (geb g lo && (g <? hi)%float).
Proof.
  intros Hlm Hmh. unfold geb.
  destruct (g <? mid) eqn:Hlt.
  - rewrite (flt_le_trans g mid hi Hlt Hmh).
    apply flt_not_nan in Hlt as Hnan. destruct Hnan as [Hg Hmid].
    rewrite (fle_total mid g Hmid Hg), Hlt. cbn.
    destruct (lo <=? g); reflexivity.
  - rewrite andb_false_r. cbn [Nat.b2n Nat.add].
    destruct (mid <=? g) eqn:Hge.
    + rewrite (fle_trans lo mid g Hlm Hge). reflexivity.
    + cbn. destruct (lo <=? g) eqn:Hlo; [|reflexivity].
      destruct (g <? hi) eqn:Hhi; [|reflexivity].
      apply fle_not_nan in Hlo as [_ Hg].
      apply fle_not_nan in Hlm as [_ Hmid].
      rewrite (fle_total mid g Hmid Hg), Hlt in Hge. discriminate.
Qed.

Lemma below_split (mid hi g : float) :
  (mid <=? hi) = true ->
  (Nat.b2n (g <? mid)%float + Nat.b2n (geb g mid && (g <? hi)%float))%nat
  = Nat.b2n (g <? hi)%float.
Proof.
  intros Hmh. unfold geb.
  destruct (g <? mid) eqn:Hlt.
  - rewrite (flt_le_trans g mid hi Hlt Hmh).
    apply flt_not_nan in Hlt as Hnan. destruct Hnan as [Hg Hmid].
    rewrite (fle_total mid g Hmid Hg), Hlt. reflexivity.
  - cbn [Nat.b2n Nat.add].
    destruct (mid <=? g) eqn:Hge; [reflexivity|]. cbn.
    destruct (g <? hi) eqn:Hhi; [|reflexivity].
    apply flt_not_nan in Hhi as [Hg _].
    apply fle_not_nan in Hmh as [Hmid _].
    rewrite (fle_total mid g Hmid Hg), Hlt in Hge. discriminate.
Qed.

Lemma above_split (lo mid g : float) :
  (lo <=? mid) = true ->
  (Nat.b2n (geb g lo && (g <? mid)%float) + Nat.b2n (geb g mid))%nat
  = Nat.b2n (geb g lo).
Proof.
  intros Hlm. unfold geb.
  destruct (mid <=? g) eqn:Hge.
  - rewrite (fle_trans lo mid g Hlm Hge).
    apply fle_not_nan in Hge as Hnan. destruct Hnan as [Hmid Hg].
    rewrite (fle_total mid g Hmid Hg) in Hge.
    destruct (g <? mid); [discriminate|reflexivity].
  - rewrite Nat.add_0_r.
    destruct (lo <=? g) eqn:Hlo; [|reflexivity]. cbn.
    apply fle_not_nan in Hlo as [_ Hg].
    apply fle_not_nan in Hlm as [_ Hmid].
    rewrite (fle_total mid g Hmid Hg) in Hge.
    destruct (g <? mid); [reflexivity|discriminate].
Qed.

Lemma count_split (p q r : float -> bool) (grades : list float) :
  (forall g, (Nat.b2n (p g) + Nat.b2n (q g))%nat = Nat.b2n (r g)) ->
  (count p grades + count q grades)%nat = count r grades.
Proof.
  intros H. unfold count. rewrite !count_sum, <- sum_list_with_add.
  apply sum_list_with_ext_eq. exact H.
Qed.

(** X14: the histogram of a subject and the bands of its analysis
    record count the same grades, except at the two ends: the bar
    [8 - 10] is the band [8 to 9], the bars [10 - 12] and [12 - 15]
    together are the band [10 to 14], while the bar [< 8] leaves out the
    negative grades of the band [< 8] and the bar [15 - 20] leaves out
    the grades of 21 and more of the band [>= 15].  Without a selected
    subject there is no bar. *)
Theorem distributionChartData_matches_bands (students : list Student) :
  distributionChartData EmptyString students = [] /\
  forall subjects selectedSubject stat,
    selectedSubject <> EmptyString ->
    In stat (subjectAnalysis students subjects) ->
    subject stat = selectedSubject ->
    exists below8 from8 from10 from12 from15,
      map Bar.count (distributionChartData selectedSubject students)
      = [below8; from8; from10; from12; from15] /\
      from8 = count8to9 stat /\
      (from10 + from12)%nat = count10to14 stat /\
      (below8
       + count (fun g => (g <? 0)%float) (gradesOf students selectedSubject))%nat
      = countBelow8 stat /\
      (from15
       + count (fun g => geb g 21) (gradesOf students selectedSubject))%nat
      = countAbove15 stat.
Proof.
  split; [reflexivity|].
  intros subjects selectedSubject stat Hsel Hin Hsubject.
  apply In_map_stat in Hin as (subj & _ & ->). cbn in Hsubject. subst subj.
  unfold distributionChartData.
  destruct (String.eqb_spec selectedSubject EmptyString); [contradiction|].
  cbn [ranges map Bar.count Range.min Range.max count8to9 count10to14
       countBelow8 countAbove15].
  eexists _, _, _, _, _. split; [reflexivity|].
  split; [reflexivity|]. split; [|split].
  - apply count_split. intros g. now apply band_split.
  - rewrite Nat.add_comm. apply count_split. intros g.
    now apply below_split.
  - apply count_split. intros g. now apply above_split.
Qed.

End ComparisonFacts.

Section AppFacts.
Import Js Types App.

Lemma existsb_eqb_In (subject : string) (l : list string) :
  existsb (String.eqb subject) l = true <-> In subject l.
Proof.
  rewrite List.existsb_exists. split.
  - intros (x & Hin & Heq). apply String.eqb_eq in Heq. now subst.
  - intros Hin. exists subject. split; [exact Hin|apply String.eqb_refl].
Qed.

(** X15: [toggleOptionalSubject] flips whether the subject is optional
    and touches no other subject: after it the subject is in the list
    exactly when it was not before, every other subject is in the list
    exactly when it was before, a list without repetition stays so, and
    toggling a subject that was absent twice gives back the list. *)
Theorem toggleOptionalSubject_flips (subject : string) (prev : list string) :
  let next := toggleOptionalSubject subject prev in
  (In subject next <-> ~ In subject prev) /\
  (forall other, other <> subject -> (In other next <-> In other prev)) /\
  (NoDup prev -> NoDup next) /\
  (~ In subject prev -> toggleOptionalSubject subject next = prev).
Proof.
  intros next. subst next. unfold toggleOptionalSubject at 1 2 3.
  destruct (existsb (String.eqb subject) prev) eqn:Hmem.
  - apply existsb_eqb_In in Hmem.
    split; [|split; [|split]].
    + rewrite List.filter_In, String.eqb_refl. cbn. split.
      * intros [_ H]. discriminate.
      * intros H. contradiction.
    + intros other Hne. rewrite List.filter_In.
      destruct (String.eqb_spec other subject); [contradiction|]. tauto.
    + intros Hnd. apply NoDup_ListNoDup. apply List.NoDup_filter.
      now apply NoDup_ListNoDup.
    + intros H. contradiction.
  - assert (Hnot : ~ In subject prev).
    { intros Hin. apply existsb_eqb_In in Hin. congruence. }
    split; [|split; [|split]].
    + rewrite List.in_app_iff. cbn. tauto.
    + intros other Hne. rewrite List.in_app_iff. cbn.
      split; [intros [H|[H|[]]]; [exact H|congruence]|tauto].
    + intros Hnd. apply NoDup_app. split; [exact Hnd|]. split.
      * intros x Hx Hx'. apply list_elem_of_In in Hx.
        apply list_elem_of_singleton in Hx'. now subst.
      * apply NoDup_singleton.
    + intros _. unfold toggleOptionalSubject. rewrite Hmem.
      assert (Hin : existsb (String.eqb subject) (prev ++ [subject]) = true).
      { apply existsb_eqb_In. apply List.in_or_app. right. now left. }
      rewrite Hin. rewrite List.filter_app. cbn.
      rewrite String.eqb_refl. cbn. rewrite List.app_nil_r.
      apply filter_all. apply List.Forall_forall. intros x Hx.
      destruct (String.eqb_spec x subject); [subst; contradiction|reflexivity].
Qed.

End AppFacts.

Section IngestMoreFacts.
Import Js Types Ingest.
Context {B : Builtins}.

(** Every field of a successful parse, by what is left of the sheet
    after pruning. *)
Lemma parseRows_ok (rawData : list (list Cell)) (result : ParseResult) :
  parseRows rawData = Ok result ->
  exists headerRow body,
    pruneTrailing (drop (headerRowIndex rawData) rawData) = headerRow :: body /\
    (3 <= length headerRow)%nat /\
    students result =
      omap (fun built => built)
        (imap (buildStudent (candidateSubjects headerRow)
                 (extractMetadata rawData)) body) /\
    subjects result =
      List.filter
        (fun subject =>
           present subject
           && existsb (hasPositiveGrade subject) (students result))
        (candidateSubjects headerRow) /\
    metadata result = extractMetadata rawData.
Proof.
  unfold parseRows.
  destruct (length rawData =? 0)%nat; [discriminate|]. cbv zeta.
  destruct (pruneTrailing (drop (headerRowIndex rawData) rawData))
    as [|headerRow body]; [discriminate|].
  replace (length (headerRow :: body) <? 1)%nat with false by reflexivity.
  destruct (Nat.ltb_spec (length headerRow) 3) as [Hlt|Hge]; [discriminate|].
  intros [= <-]. exists headerRow, body. cbn. auto.
Qed.

(** The errors that [parseExcelFile] raises. *)
Lemma parse_error_kinds (file : File) (e : IngestError) :
  parseExcelFile file = Err e ->
  e = ReadFailure \/ (exists text, e = WorkbookFailure text) \/
  e = EmptyInput \/ e = InsufficientData \/ e = UnsupportedHeader.
Proof.
  unfold parseExcelFile.
  destruct (reading file) as [|text|rawData];
    [intros [= <-]; auto|intros [= <-]; eauto|].
  pose proof (parseRows_cases rawData) as Hcases. cbv zeta in Hcases.
  intros He.
  destruct rawData as [|row0 rawData'];
    [rewrite Hcases in He; injection He as <-; auto|].
  destruct (pruneTrailing _) as [|h b];
    [rewrite Hcases in He; injection He as <-; auto|].
  destruct (length h <? 3)%nat;
    [rewrite Hcases in He; injection He as <-; auto 6|].
  destruct Hcases as (r & Hr & _). rewrite Hr in He. discriminate.
Qed.

(** X16: a file is parsed or refused by the first of these that
    applies: the reader fails; the spreadsheet library throws on the
    bytes, and its own error comes out; the sheet has no row; no row is
    left after pruning; the header row has fewer than 3 cells; otherwise
    the file is parsed.  No other error comes out of [parseExcelFile]. *)
Theorem parseExcelFile_outcomes (file : File) :
  (parseExcelFile file = Err ReadFailure <-> reading file = ReaderError) /\
  (forall text,
     parseExcelFile file = Err (WorkbookFailure text)
     <-> reading file = LibraryError text) /\
  (parseExcelFile file = Err EmptyInput <-> reading file = Rows []) /\
  (forall rawData, reading file = Rows rawData -> rawData <> [] ->
     let jsonData := pruneTrailing (drop (headerRowIndex rawData) rawData) in
     (parseExcelFile file = Err InsufficientData <-> jsonData = []) /\
     (parseExcelFile file = Err UnsupportedHeader
      <-> exists headerRow,
            head jsonData = Some headerRow /\ (length headerRow < 3)%nat) /\
     ((exists result, parseExcelFile file = Ok result)
      <-> exists headerRow,
            head jsonData = Some headerRow /\ (3 <= length headerRow)%nat)) /\
  (forall e, parseExcelFile file = Err e ->
     e = ReadFailure \/ (exists text, e = WorkbookFailure text) \/
     e = EmptyInput \/ e = InsufficientData \/ e = UnsupportedHeader).
Proof.
  assert (Hkinds : forall e, parseExcelFile file = Err e ->
            e = ReadFailure \/ (exists text, e = WorkbookFailure text) \/
            e = EmptyInput \/ e = InsufficientData \/ e = UnsupportedHeader)
    by (intros e; apply parse_error_kinds).
  unfold parseExcelFile in *.
  destruct (reading file) as [|text|rawData].
  { split; [split; auto|]. split; [split; discriminate|].
    split; [split; discriminate|]. split; [discriminate|exact Hkinds]. }
  { split; [split; discriminate|]. split; [split; congruence|].
    split; [split; discriminate|]. split; [discriminate|exact Hkinds]. }
  pose proof (parseRows_cases rawData) as Hcases. cbv zeta in Hcases.
  destruct rawData as [|row0 rawData'].
  { rewrite Hcases. split; [split; discriminate|].
    split; [split; discriminate|]. split; [split; auto|].
    split; [intros ? [= <-] H; now elim H|exact Hkinds]. }
  set (rawData := row0 :: rawData') in *.
  assert (Hother : forall e,
            (e = ReadFailure \/ (exists text, e = WorkbookFailure text)
             \/ e = EmptyInput) ->
            parseRows rawData <> Err e).
  { intros e He Hparse.
    destruct (pruneTrailing (drop (headerRowIndex rawData) rawData))
      as [|h b].
    - rewrite Hcases in Hparse. injection Hparse as <-.
      destruct He as [He|[(text & He)|He]]; discriminate.
    - destruct (length h <? 3)%nat.
      + rewrite Hcases in Hparse. injection Hparse as <-.
        destruct He as [He|[(text & He)|He]]; discriminate.
      + destruct Hcases as (r & Hr & _). rewrite Hr in Hparse.
        discriminate. }
  split; [split; [intros H; elim (Hother _ (or_introl eq_refl) H)
                 |discriminate]|].
  split.
  { intros text. split; [|discriminate].
    intros H. elim (Hother (WorkbookFailure text)); eauto. }
  split.
  { split; [|discriminate].
    intros H. elim (Hother EmptyInput); auto. }
  split; [|exact Hkinds].
  intros rawData0 [= <-] _. cbv zeta.
  destruct (pruneTrailing (drop (headerRowIndex rawData) rawData))
    as [|h b].
  - rewrite Hcases. split; [split; auto|]. split.
    + split; [discriminate|]. intros (? & ? & _). discriminate.
    + split; [intros (? & ?); discriminate|].
      intros (? & ? & _). discriminate.
  - cbn [head]. destruct (Nat.ltb_spec (length h) 3) as [Hlt|Hge].
    + rewrite Hcases. split; [split; discriminate|]. split.
      * split; [intros _; eauto|reflexivity].
      * split; [intros (? & ?); discriminate|].
        intros (? & [= <-] & ?). lia.
    + destruct Hcases as (r & -> & _).
      split; [split; discriminate|]. split.
      * split; [discriminate|]. intros (? & [= <-] & ?). lia.
      * split; [intros _; eauto|intros _; eauto].
Qed.

Lemma findHeader_Some (rows : list (list Cell)) : forall k i,
  findHeader k rows = Some i ->
  (k <= i)%nat /\
  (exists header, rows !! (i - k)%nat = Some header /\
                  hasNameKeyword header = true) /\
  forall j row, (j < i - k)%nat -> rows !! j = Some row ->
    hasNameKeyword row = false.
Proof.
  induction rows as [|row rows IH]; intros k i; cbn [findHeader];
    [discriminate|].
  destruct (hasNameKeyword row) eqn:Hrow.
  - intros [= <-]. split; [lia|]. rewrite Nat.sub_diag. split.
    + exists row. auto.
    + intros j r Hj. lia.
  - intros H. apply IH in H as (Hle & (header & Hlookup & Hkey) & Hnone).
    split; [lia|]. split.
    + exists header. split; [|exact Hkey].
      replace (i - k)%nat with (S (i - S k)) by lia. exact Hlookup.
    + intros j r Hj Hr. destruct j as [|j]; cbn in Hr.
      * now injection Hr as <-.
      * apply (Hnone j r); [lia|exact Hr].
Qed.

Lemma findHeader_None (rows : list (list Cell)) : forall k,
  findHeader k rows = None ->
  forall j row, rows !! j = Some row -> hasNameKeyword row = false.
Proof.
  induction rows as [|row rows IH]; intros k; cbn [findHeader];
    [intros _ j r Hr; discriminate|].
  destruct (hasNameKeyword row) eqn:Hrow; [discriminate|].
  intros H j r Hr. destruct j as [|j]; cbn in Hr.
  - now injection Hr as <-.
  - now apply (IH (S k) H j r).
Qed.

(** X17: the header row is the first of the first 20 rows whose first
    10 cells, joined and lower-cased, hold one of the name keywords;
    when none does, it is the sixth row if that row exists and holds a
    text cell, and the first row otherwise.  In every case the index is
    below 20 and, on a sheet with rows, points inside the sheet. *)
Theorem headerRowIndex_first_keyword_row (rawData : list (list Cell)) :
  let i := headerRowIndex rawData in
  (i < 20)%nat /\
  (rawData = [] \/ i < length rawData)%nat /\
  (forall j row, (j < 20)%nat -> rawData !! j = Some row ->
     hasNameKeyword row = true ->
     (i <= j)%nat /\
     exists header, rawData !! i = Some header /\
                    hasNameKeyword header = true) /\
  ((forall j row, (j < 20)%nat -> rawData !! j = Some row ->
      hasNameKeyword row = false) ->
   (i = 5%nat /\ exists sixth cell,
       rawData !! 5%nat = Some sixth /\ In cell sixth /\ isString cell = true)
   \/
   (i = 0%nat /\ forall sixth cell,
       rawData !! 5%nat = Some sixth -> In cell sixth -> isString cell = false)).
Proof.
  intros i. subst i. unfold headerRowIndex.
  destruct (findHeader 0 (take 20 rawData)) as [i|] eqn:Hfind.
  - apply findHeader_Some in Hfind as (_ & (header & Hlookup & Hkey) & Hnone).
    rewrite Nat.sub_0_r in *.
    apply lookup_take_Some in Hlookup as [Hlookup Hlt].
    split; [exact Hlt|]. split.
    { right. now apply lookup_lt_Some in Hlookup. }
    split.
    + intros j row Hj Hrow Hrowkey. split; [|eauto].
      destruct (Nat.le_gt_cases i j) as [|Hji]; [assumption|].
      rewrite (Hnone j row Hji) in Hrowkey; [discriminate|].
      apply lookup_take_Some. auto.
    + intros Hall. rewrite (Hall i header Hlt Hlookup) in Hkey. discriminate.
  - pose proof (findHeader_None _ _ Hfind) as Hnone.
    assert (Hno : forall j row, (j < 20)%nat -> rawData !! j = Some row ->
                    hasNameKeyword row = false).
    { intros j row Hj Hrow. apply (Hnone j row).
      apply lookup_take_Some. auto. }
    destruct (rawData !! 5%nat) as [sixth|] eqn:Hsixth.
    + destruct (existsb isString sixth) eqn:Hstr.
      * split; [lia|]. split.
        { right. now apply lookup_lt_Some in Hsixth. }
        split.
        { intros j row Hj Hrow Hkey. rewrite (Hno j row Hj Hrow) in Hkey.
          discriminate. }
        intros _. left. split; [reflexivity|].
        apply List.existsb_exists in Hstr as (cell & Hin & Hcell).
        exists sixth, cell. auto.
      * split; [lia|]. split.
        { right. apply lookup_lt_Some in Hsixth. lia. }
        split.
        { intros j row Hj Hrow Hkey. rewrite (Hno j row Hj Hrow) in Hkey.
          discriminate. }
        intros _. right. split; [reflexivity|].
        intros sixth' cell [= <-] Hin.
        destruct (isString cell) eqn:Hcell; [|reflexivity].
        assert (existsb isString sixth = true)
          by (apply List.existsb_exists; eauto).
        congruence.
    + split; [lia|]. split.
      { destruct rawData; [now left|right; cbn; lia]. }
      split.
      { intros j row Hj Hrow Hkey. rewrite (Hno j row Hj Hrow) in Hkey.
        discriminate. }
      intros _. right. split; [reflexivity|]. intros ? ? [=].
Qed.

Lemma buildStudent_Some subjects metadata index row s :
  buildStudent subjects metadata index row = Some s ->
  truthy (cellAt row 1) = true /\
  id s = ("temp-" ++ natToString index)%string /\
  name s = cellAt row 1 /\
  truthy (gender s) = true /\
  originalRow s = row /\
  grades s = collectGrades subjects (drop 5 row) /\
  semesterAverage s = averageOf (drop 5 row) /\
  sourceClass s = Some (classNumber metadata).
Proof.
  unfold buildStudent.
  destruct (truthy (cellAt row 1)) eqn:Hname; cbn [negb]; [|discriminate].
  intros [= <-]. cbn. repeat split.
  destruct (truthy (cellAt row 3)) eqn:Hgender; [exact Hgender|reflexivity].
Qed.

Lemma buildStudent_None subjects metadata index row :
  buildStudent subjects metadata index row = None <->
  truthy (cellAt row 1) = false.
Proof.
  unfold buildStudent.
  destruct (truthy (cellAt row 1)); cbn [negb]; split; auto; discriminate.
Qed.

(** The students built from [body], whose first row has index [k]. *)
Lemma built_students subjects metadata (body : list (list Cell)) : forall k,
  let built :=
    omap (fun built => built)
      (imap (fun i => buildStudent subjects metadata (k + i)) body) in
  map originalRow built
  = List.filter (fun row => truthy (cellAt row 1)) body /\
  (forall s, In s built ->
     exists index, body !! index = Some (originalRow s) /\
       buildStudent subjects metadata (k + index) (originalRow s) = Some s) /\
  NoDup (map id built).
Proof.
  induction body as [|row body IH]; intros k; cbv zeta.
  - split; [reflexivity|]. split; [intros s []|constructor].
  - rewrite imap_cons. cbn [omap list_omap List.filter].
    specialize (IH (S k)). cbv zeta in IH.
    replace (imap ((fun i => buildStudent subjects metadata (k + i)) ∘ S) body)
      with (imap (fun i => buildStudent subjects metadata (S k + i)) body)
      by (apply imap_ext; intros i r _; cbn; f_equal; lia).
    destruct IH as (Hrows & Hfrom & Hnodup).
    rewrite Nat.add_0_r.
    destruct (buildStudent subjects metadata k row) as [s|] eqn:Hbuilt.
    + apply buildStudent_Some in Hbuilt as Hs.
      destruct Hs as (Hname & Hid & _ & _ & Hrow & _).
      rewrite Hname. cbn [map]. split; [now rewrite Hrow, Hrows|]. split.
      * intros s' [<-|Hin].
        -- exists 0%nat. rewrite Hrow, Nat.add_0_r. auto.
        -- destruct (Hfrom s' Hin) as (index & Hlookup & Hb).
           exists (S index). split; [exact Hlookup|].
           now replace (k + S index)%nat with (S k + index)%nat by lia.
      * constructor; [|exact Hnodup].
        intros Hin. apply list_elem_of_In in Hin.
        apply List.in_map_iff in Hin as (s' & Hids & Hin).
        destruct (Hfrom s' Hin) as (index & _ & Hb).
        apply buildStudent_Some in Hb as (_ & Hid' & _).
        rewrite Hid, Hid' in Hids.
        change ("temp-" ++ ?x)%string
          with (String "t" (String "e" (String "m" (String "p"
                 (String "-" x))))) in Hids.
        injection Hids as Hids. apply natToString_inj in Hids. lia.
    + apply buildStudent_None in Hbuilt. rewrite Hbuilt.
      split; [exact Hrows|]. split; [|exact Hnodup].
      intros s' Hin. destruct (Hfrom s' Hin) as (index & Hlookup & Hb).
      exists (S index). split; [exact Hlookup|].
      now replace (k + S index)%nat with (S k + index)%nat by lia.
Qed.

Lemma parsed_fields (file : File) (rawData : list (list Cell))
    (result : ParseResult) :
  sheet file = Some rawData -> parseExcelFile file = Ok result ->
  exists headerRow,
    head (popBlankRows (drop (headerRowIndex rawData) rawData))
    = Some headerRow /\
    nth (headerRowIndex rawData) rawData [] = headerRow /\
    (3 <= length headerRow)%nat /\
    students result =
      omap (fun built => built)
        (imap (buildStudent (candidateSubjects headerRow)
                 (extractMetadata rawData))
           (removelast
              (tail (popBlankRows
                       (drop (headerRowIndex rawData) rawData))))) /\
    subjects result =
      List.filter
        (fun subject =>
           present subject
           && existsb (hasPositiveGrade subject) (students result))
        (candidateSubjects headerRow) /\
    metadata result = extractMetadata rawData.
Proof.
  intros Hsheet Hparse.
  rewrite (parseExcelFile_rows _ _ Hsheet) in Hparse.
  apply parseRows_ok in Hparse
    as (headerRow & body & Hpruned & Hlen & Hstudents & Hsubjects & Hmeta).
  set (rows := drop (headerRowIndex rawData) rawData) in *.
  pose proof (head_popSummaryRow (popBlankRows rows)) as Hhead.
  pose proof (tail_popSummaryRow (popBlankRows rows)) as Htail.
  fold (pruneTrailing rows) in Hhead, Htail.
  rewrite Hpruned in Hhead, Htail. cbn [head tail] in Hhead, Htail.
  exists headerRow. split; [now rewrite <- Hhead|]. split.
  { destruct (popBlankRows_spec rows) as (blanks & Hrows & _).
    destruct (popBlankRows rows) as [|h kept']; [discriminate|].
    injection Hhead as <-.
    rewrite nth_lookup.
    pose proof (lookup_drop rawData (headerRowIndex rawData) 0) as Hl.
    fold rows in Hl. rewrite Hrows, Nat.add_0_r in Hl. cbn in Hl.
    now rewrite <- Hl. }
  split; [exact Hlen|]. split; [now rewrite <- Htail|]. auto.
Qed.

(** X18: the students of a parsed sheet are exactly the rows with a
    non-empty cell in the name column (index 1), among the rows between
    the header row and the last non-blank row, in sheet order and one
    student per row; each carries that cell as name, a non-empty gender,
    the class number of the sheet as source class, and a temporary
    identifier made of its row's position, so that no two students of a
    sheet share an identifier. *)
Theorem parsed_students_are_named_rows (file : File)
    (rawData : list (list Cell)) (result : ParseResult) :
  sheet file = Some rawData -> parseExcelFile file = Ok result ->
  let body :=
    removelast
      (tail (popBlankRows (drop (headerRowIndex rawData) rawData))) in
  map originalRow (students result)
  = List.filter (fun row => truthy (cellAt row 1)) body /\
  (forall s, In s (students result) ->
     name s = cellAt (originalRow s) 1 /\
     truthy (name s) = true /\
     truthy (gender s) = true /\
     sourceClass s = Some (classNumber (metadata result)) /\
     exists index,
       body !! index = Some (originalRow s) /\
       id s = ("temp-" ++ natToString index)%string) /\
  NoDup (map id (students result)) /\
  (length (students result) <= length body)%nat.
Proof.
  intros Hsheet Hparse body.
  destruct (parsed_fields file rawData result Hsheet Hparse)
    as (headerRow & _ & _ & _ & Hstudents & _ & Hmeta).
  fold body in Hstudents.
  destruct (built_students (candidateSubjects headerRow)
              (extractMetadata rawData) body 0)
    as (Hrows & Hfrom & Hnodup).
  cbn [Nat.add] in Hrows, Hfrom, Hnodup.
  change (fun i => buildStudent (candidateSubjects headerRow)
                     (extractMetadata rawData) i)
    with (buildStudent (candidateSubjects headerRow)
            (extractMetadata rawData)) in Hrows, Hfrom, Hnodup.
  rewrite <- Hstudents in Hrows, Hfrom, Hnodup.
  split; [exact Hrows|]. split; [|split; [exact Hnodup|]].
  - intros s Hin. destruct (Hfrom s Hin) as (index & Hlookup & Hb).
    apply buildStudent_Some in Hb
      as (Htruthy & Hid & Hname & Hgender & _ & _ & _ & Hsource).
    rewrite Hmeta. split; [exact Hname|]. split; [now rewrite Hname|].
    split; [exact Hgender|]. split; [exact Hsource|]. eauto.
  - rewrite <- (List.length_map originalRow), Hrows.
    apply filter_length_le.
Qed.

Lemma coerce_not_nan (val : Cell) (v : float) :
  coerce val = Some v -> isNaN v = false.
Proof.
  unfold coerce. destruct val as [|text|w].
  - discriminate.
  - destruct (isNaN (parseFloat (replaceComma text))) eqn:E; [discriminate|].
    now intros [= <-].
  - destruct (isNaN w) eqn:E; [discriminate|]. now intros [= <-].
Qed.

Lemma averageOf_not_nan (gradesData : list Cell) :
  isNaN (averageOf gradesData) = false.
Proof.
  unfold averageOf. destruct (0 <? length gradesData)%nat; [|reflexivity].
  destruct (coerce _) as [v|] eqn:E; [|reflexivity].
  exact (coerce_not_nan _ _ E).
Qed.

(** One more subject column at the end of the loop of [collectGrades]. *)
Lemma collectGrades_snoc (subjects gradesData : list Cell) (subj : Cell) :
  collectGrades (subjects ++ [subj]) gradesData
  = match propertyKey subj, coerce (cellAt gradesData (length subjects)) with
    | Some key, Some numVal =>
        setProperty key numVal (collectGrades subjects gradesData)
    | _, _ => collectGrades subjects gradesData
    end.
Proof.
  unfold collectGrades, reduce. rewrite reduceFrom_app. cbn [reduceFrom].
  rewrite Nat.add_0_l.
  destruct (propertyKey subj);
    [destruct (coerce (cellAt gradesData (length subjects)))|];
    reflexivity.
Qed.

(** The grade kept under a key is the number of the last column that
    has this key and holds a number; none is kept under [__proto__]. *)
Lemma collectGrades_lookup (gradesData : list Cell) (key : string)
    (subjects : list Cell) :
  match collectGrades subjects gradesData !! key with
  | Some g =>
      key <> PROTO /\
      exists i subj,
        subjects !! i = Some subj /\ propertyKey subj = Some key /\
        coerce (cellAt gradesData i) = Some g /\
        forall j later, (i < j)%nat -> subjects !! j = Some later ->
          propertyKey later = Some key -> coerce (cellAt gradesData j) = None
  | None =>
      key = PROTO \/
      forall i subj, subjects !! i = Some subj ->
        propertyKey subj = Some key -> coerce (cellAt gradesData i) = None
  end.
Proof.
  destruct (String.eqb_spec key PROTO) as [->|Hproto].
  { rewrite collectGrades_no_proto. now left. }
  induction subjects as [|subj subjects IH] using List.rev_ind.
  - unfold collectGrades, reduce. cbn [reduceFrom]. rewrite lookup_empty.
    right. intros i subj Hl. discriminate.
  - assert (Hold : forall i subj', (subjects ++ [subj]) !! i = Some subj' ->
              (i < length subjects /\ subjects !! i = Some subj')%nat \/
              (i = length subjects /\ subj' = subj)).
    { intros i subj' Hl. apply lookup_app_Some in Hl as [Hl|[Hge Hl]].
      - left. split; [now apply lookup_lt_Some in Hl|exact Hl].
      - right. destruct (i - length subjects)%nat as [|n] eqn:E;
          [|destruct n; discriminate].
        injection Hl as <-. split; [lia|reflexivity]. }
    assert (Hstep :
      (exists v, propertyKey subj = Some key /\
                 coerce (cellAt gradesData (length subjects)) = Some v /\
                 collectGrades (subjects ++ [subj]) gradesData !! key = Some v)
      \/ (collectGrades (subjects ++ [subj]) gradesData !! key
          = collectGrades subjects gradesData !! key /\
          (propertyKey subj = Some key ->
           coerce (cellAt gradesData (length subjects)) = None))).
    { rewrite collectGrades_snoc.
      destruct (propertyKey subj) as [key'|]; [|right; split; congruence].
      destruct (coerce (cellAt gradesData (length subjects))) as [v|];
        [|right; split; congruence].
      unfold setProperty.
      destruct (String.eqb_spec key' PROTO) as [->|Hkey'];
        [right; split; congruence|].
      destruct (String.eqb_spec key' key) as [->|Hne].
      - left. exists v. rewrite lookup_insert_eq. auto.
      - right. rewrite lookup_insert_ne by exact Hne. split; congruence. }
    destruct Hstep as [(v & Hsubj & Hv & ->)|[-> Hlast]].
    + split; [exact Hproto|].
      exists (length subjects), subj. split.
      { rewrite lookup_app_r by lia. now rewrite Nat.sub_diag. }
      split; [exact Hsubj|]. split; [exact Hv|].
      intros j later Hj Hl. apply Hold in Hl as [[Hlt _]|[-> _]]; lia.
    + destruct (collectGrades subjects gradesData !! key) as [g|].
      * destruct IH as (_ & i0 & s0 & Hl0 & Hk0 & Hc0 & Hlater0).
        split; [exact Hproto|]. exists i0, s0. split.
        { apply lookup_app_Some. now left. }
        split; [exact Hk0|]. split; [exact Hc0|].
        intros j later Hj Hl' Hk'.
        apply Hold in Hl' as [[_ Hl']|[-> ->]]; [eauto|auto].
      * destruct IH as [IH|IH]; [contradiction|]. right.
        intros i subj' Hl Hk.
        apply Hold in Hl as [[_ Hl]|[-> ->]]; [eauto|auto].
Qed.

Lemma parsed_student_built (file : File) (rawData : list (list Cell))
    (result : ParseResult) (s : Student) :
  sheet file = Some rawData -> parseExcelFile file = Ok result ->
  In s (students result) ->
  grades s
  = collectGrades
      (candidateSubjects (nth (headerRowIndex rawData) rawData []))
      (drop 5 (originalRow s)) /\
  semesterAverage s = averageOf (drop 5 (originalRow s)).
Proof.
  intros Hsheet Hparse Hin.
  destruct (parsed_fields file rawData result Hsheet Hparse)
    as (headerRow & _ & -> & _ & Hstudents & _).
  destruct (built_students (candidateSubjects headerRow)
              (extractMetadata rawData)
              (removelast (tail (popBlankRows
                 (drop (headerRowIndex rawData) rawData)))) 0)
    as (_ & Hfrom & _).
  cbn [Nat.add] in Hfrom.
  change (fun i => buildStudent (candidateSubjects headerRow)
                     (extractMetadata rawData) i)
    with (buildStudent (candidateSubjects headerRow)
            (extractMetadata rawData)) in Hfrom.
  rewrite <- Hstudents in Hfrom.
  destruct (Hfrom s Hin) as (index & _ & Hb).
  apply buildStudent_Some in Hb as (_ & _ & _ & _ & _ & Hg & Ha & _).
  auto.
Qed.

Lemma parsed_student_clean (file : File) (result : ParseResult)
    (s : Student) :
  parseExcelFile file = Ok result -> In s (students result) ->
  isNaN (semesterAverage s) = false /\
  forall key g, grades s !! key = Some g -> isNaN g = false.
Proof.
  intros Hparse Hin.
  destruct (parsed_sheet file result Hparse) as [rawData Hsheet].
  destruct (parsed_student_built file rawData result s Hsheet Hparse Hin)
    as [Hgrades Havg].
  split; [rewrite Havg; apply averageOf_not_nan|].
  intros key g Hg. rewrite Hgrades in Hg.
  pose proof (collectGrades_lookup (drop 5 (originalRow s)) key
    (candidateSubjects (nth (headerRowIndex rawData) rawData []))) as H.
  rewrite Hg in H. destruct H as (_ & i & subj & _ & _ & Hc & _).
  exact (coerce_not_nan _ _ Hc).
Qed.

(** X19: no student of a parsed sheet holds [NaN], neither as semester
    average nor as the grade of any subject: a cell that does not read as
    a number leaves the grade absent and the average 0. *)
Theorem parsed_numbers_are_not_nan (file : File) (result : ParseResult)
    (s : Student) :
  parseExcelFile file = Ok result -> In s (students result) ->
  isNaN (semesterAverage s) = false /\
  forall key g, grades s !! key = Some g -> isNaN g = false.
Proof. apply parsed_student_clean. Qed.

(** X20: the grade a parsed student holds under a name is read from the
    grade area of the student's row (the cells from index 5 on).  A
    subject column writes a number under the name when the header row
    has a cell in the column, that cell gives the name, and the cell of
    the student's row in the column holds a number.  The grade held
    under a name other than [__proto__] is the number of the last column
    that writes under it, and no grade is held exactly when no column
    does, or the name is [__proto__]: so when two columns carry the same
    header, the later one that holds a number wins, and a hole of the
    header row gives no grade. *)
Theorem parsed_grade_from_last_column (file : File)
    (rawData : list (list Cell)) (result : ParseResult) (s : Student)
    (key : string) :
  sheet file = Some rawData -> parseExcelFile file = Ok result ->
  In s (students result) ->
  let candidates :=
    candidateSubjects (nth (headerRowIndex rawData) rawData []) in
  let gradesData := drop 5 (originalRow s) in
  let writes (i : nat) (g : number) :=
    exists subj,
      candidates !! i = Some subj /\ propertyKey subj = Some key /\
      coerce (cellAt gradesData i) = Some g in
  (forall g,
     grades s !! key = Some g <->
     key <> PROTO /\
     exists i, writes i g /\
       forall j g', (i < j)%nat -> ~ writes j g') /\
  (grades s !! key = None <->
   key = PROTO \/ forall i g, ~ writes i g).
Proof.
  intros Hsheet Hparse Hin candidates gradesData writes.
  destruct (parsed_student_built file rawData result s Hsheet Hparse Hin)
    as [-> _].
  fold candidates gradesData.
  pose proof (collectGrades_lookup gradesData key candidates) as H.
  assert (Hunique : forall i g i' g',
            writes i g -> (forall j h, (i < j)%nat -> ~ writes j h) ->
            writes i' g' ->
            (forall j later, (i' < j)%nat -> candidates !! j = Some later ->
               propertyKey later = Some key ->
               coerce (cellAt gradesData j) = None) ->
            g = g').
  { intros i g i' g' (subj & Hl & Hk & Hc) Hlast (subj' & Hl' & Hk' & Hc')
      Hlast'.
    destruct (Nat.lt_trichotomy i i') as [Hlt|[->|Hgt]].
    - elim (Hlast i' g' Hlt). exists subj'. auto.
    - congruence.
    - rewrite (Hlast' i subj Hgt Hl Hk) in Hc. discriminate. }
  destruct (collectGrades candidates gradesData !! key) as [g0|].
  - destruct H as (Hproto & i0 & subj0 & Hl0 & Hk0 & Hc0 & Hlater0).
    assert (Hw0 : writes i0 g0) by (exists subj0; auto).
    split.
    + intros g. split.
      * intros [= <-]. split; [exact Hproto|]. exists i0. split; [exact Hw0|].
        intros j g' Hj (later & Hl & Hk & Hc).
        rewrite (Hlater0 j later Hj Hl Hk) in Hc. discriminate.
      * intros (_ & i & Hw & Hlast). f_equal. symmetry.
        exact (Hunique i g i0 g0 Hw Hlast Hw0 Hlater0).
    + split; [discriminate|].
      intros [Hp|Hnone]; [contradiction|]. elim (Hnone i0 g0 Hw0).
  - split.
    + intros g. split; [discriminate|].
      intros (Hproto & i & (subj & Hl & Hk & Hc) & _).
      destruct H as [H|H]; [contradiction|].
      rewrite (H i subj Hl Hk) in Hc. discriminate.
    + split; [|reflexivity]. intros _.
      destruct H as [H|H]; [now left|right].
      intros i g (subj & Hl & Hk & Hc).
      rewrite (H i subj Hl Hk) in Hc. discriminate.
Qed.

Lemma filter_sublist {A : Type} (p : A -> bool) (l : list A) :
  sublist (List.filter p l) l.
Proof.
  induction l as [|x l IH]; cbn; [constructor|].
  destruct (p x); now constructor.
Qed.

(** X21: the subjects of a parsed sheet are taken, in header order, from
    the header cells from index 5 on, the last one left out: a cell of
    these is a subject exactly when at least one student has a grade
    above 0 under its name.  A column in which no student has a positive
    grade is not a subject of the sheet, nor is a hole of the header
    row, nor a column named [__proto__]. *)
Theorem parsed_subjects_are_graded_columns (file : File)
    (rawData : list (list Cell)) (result : ParseResult) :
  sheet file = Some rawData -> parseExcelFile file = Ok result ->
  let headerRow := nth (headerRowIndex rawData) rawData [] in
  let candidates := candidateSubjects headerRow in
  candidates = removelast (drop 5 headerRow) /\
  sublist (subjects result) candidates /\
  (forall subj,
     In subj (subjects result) <->
     In subj candidates /\
     exists key s g,
       propertyKey subj = Some key /\ In s (students result) /\
       grades s !! key = Some g /\ gtb g 0 = true) /\
  ~ In Empty (subjects result) /\
  forall subj, In subj (subjects result) -> propertyKey subj <> Some PROTO.
Proof.
  intros Hsheet Hparse headerRow candidates.
  destruct (parsed_fields file rawData result Hsheet Hparse)
    as (header & _ & Hheader & _ & _ & Hsubjects & _).
  fold headerRow in Hheader. subst header. fold candidates in Hsubjects.
  assert (Hiff : forall subj,
     In subj (subjects result) <->
     In subj candidates /\
     exists key s g,
       propertyKey subj = Some key /\ In s (students result) /\
       grades s !! key = Some g /\ gtb g 0 = true).
  { intros subj. rewrite Hsubjects, List.filter_In, andb_true_iff,
      List.existsb_exists.
    unfold hasPositiveGrade. split.
    - intros [Hin [_ (s & Hs & Hpos)]]. split; [exact Hin|].
      destruct (propertyKey subj) as [key|]; [|discriminate].
      destruct (grades s !! key) as [g|] eqn:Hg; [|discriminate].
      exists key, s, g. auto.
    - intros [Hin (key & s & g & Hkey & Hs & Hg & Hpos)].
      split; [exact Hin|]. split.
      + destruct subj; [discriminate|reflexivity|reflexivity].
      + exists s. split; [exact Hs|]. now rewrite Hkey, Hg. }
  split; [|split; [|split; [exact Hiff|split]]].
  - unfold candidates, candidateSubjects.
    destruct (Nat.ltb_spec 5 (length headerRow)) as [Hlt|Hge].
    + rewrite length_drop.
      destruct (Nat.ltb_spec 0 (length headerRow - 5)) as [_|H]; [|lia].
      reflexivity.
    + rewrite drop_ge by lia. reflexivity.
  - rewrite Hsubjects. apply filter_sublist.
  - intros Hin. apply Hiff in Hin as (_ & key & _ & _ & Hkey & _).
    discriminate.
  - intros subj Hin Hproto.
    apply Hiff in Hin as (_ & key & s & g & Hkey & Hs & Hg & _).
    rewrite Hproto in Hkey. injection Hkey as <-.
    destruct (parsed_student_built file rawData result s Hsheet Hparse Hs)
      as [Hgrades _].
    rewrite Hgrades, collectGrades_no_proto in Hg. discriminate.
Qed.

End IngestMoreFacts.

Section AggregateMoreFacts.
Import Js Types Ingest.
Context {B : Builtins}.

Lemma extractMetadata_take (rawData : list (list Cell)) :
  extractMetadata rawData = extractMetadata (take 5 rawData).
Proof.
  unfold extractMetadata.
  rewrite !lookup_take_lt by lia. reflexivity.
Qed.

(** X22: the class metadata come from the third, fourth and fifth rows
    of the sheet only, and [isAggregated] is never set by the parser; a
    sheet with fewer than five rows has no class line, so its semester,
    school year, level, stream, class number and class name are empty.
    Two such sheets therefore always pass the level and stream check of
    the multi-file mode. *)
Theorem extractMetadata_of_short_sheet :
  (forall rawData,
     extractMetadata rawData = extractMetadata (take 5 rawData) /\
     isAggregated (extractMetadata rawData) = None) /\
  (forall rawData, (length rawData <= 4)%nat ->
     let metadata := extractMetadata rawData in
     semester metadata = EmptyString /\ schoolYear metadata = EmptyString /\
     level metadata = EmptyString /\ stream metadata = EmptyString /\
     classNumber metadata = EmptyString /\
     className metadata = EmptyString) /\
  (forall first other r0 r1 raw0 raw1,
     sheet first = Some raw0 -> sheet other = Some raw1 ->
     (length raw0 <= 4)%nat -> (length raw1 <= 4)%nat ->
     parseExcelFile first = Ok r0 -> parseExcelFile other = Ok r1 ->
     agrees (metadata r0) other).
Proof.
  assert (Hshort : forall rawData, (length rawData <= 4)%nat ->
     let metadata := extractMetadata rawData in
     semester metadata = EmptyString /\ schoolYear metadata = EmptyString /\
     level metadata = EmptyString /\ stream metadata = EmptyString /\
     classNumber metadata = EmptyString /\
     className metadata = EmptyString).
  { intros rawData Hlen. cbv zeta. unfold extractMetadata.
    rewrite (lookup_ge_None_2 rawData 4) by lia.
    destruct (rawData !! 2%nat), (rawData !! 3%nat); cbn; repeat split. }
  split; [|split; [exact Hshort|]].
  - intros rawData. split; [apply extractMetadata_take|].
    unfold extractMetadata.
    destruct (rawData !! 4%nat) as [row5|].
    + unfold classLine.
      destruct (7 <=? length _)%nat;
        destruct (rawData !! 2%nat), (rawData !! 3%nat); reflexivity.
    + destruct (rawData !! 2%nat), (rawData !! 3%nat); reflexivity.
  - intros first other r0 r1 raw0 raw1 Hs0 Hs1 Hl0 Hl1 Hp0 Hp1.
    exists r1. split; [exact Hp1|].
    destruct (parsed_fields first raw0 r0 Hs0 Hp0) as (_ & _ & _ & _ & _ & _ & ->).
    destruct (parsed_fields other raw1 r1 Hs1 Hp1) as (_ & _ & _ & _ & _ & _ & ->).
    destruct (Hshort raw0 Hl0) as (_ & _ & -> & -> & _).
    destruct (Hshort raw1 Hl1) as (_ & _ & -> & -> & _).
    split; reflexivity.
Qed.

Lemma withId_sameRecord (newId : string) (c : option string) (s : Student) :
  sameRecord (withId newId c s) s /\ sourceClass (withId newId c s) = c /\
  id (withId newId c s) = newId.
Proof. unfold sameRecord. cbn. repeat split. Qed.

(** The identifiers given in single mode. *)
Lemma single_mode_ids (l : list Student) :
  map id (imap (fun i s => withId ("student-" ++ natToString i)
                             (sourceClass s) s) l)
  = map (fun i => ("student-" ++ natToString i)%string) (seq 0 (length l)) /\
  NoDup (map id (imap (fun i s => withId ("student-" ++ natToString i)
                                    (sourceClass s) s) l)).
Proof.
  assert (Hids :
    map id (imap (fun i s => withId ("student-" ++ natToString i)
                               (sourceClass s) s) l)
    = map (fun i => ("student-" ++ natToString i)%string)
        (seq 0 (length l))).
  { assert (G : forall (g : nat -> string),
      map id (imap (fun i s => withId (g i) (sourceClass s) s) l)
      = map g (seq 0 (length l))).
    { induction l as [|s l IH]; intros g; [reflexivity|].
      rewrite imap_cons. cbn [map length seq]. f_equal.
      rewrite <- List.seq_shift, List.map_map.
      rewrite <- (IH (fun i => g (S i))). f_equal. }
    apply (G (fun i => ("student-" ++ natToString i)%string)). }
  split; [exact Hids|]. rewrite Hids.
  change (NoDup ((fun i => ("student-" ++ natToString i)%string)
                   <$> seq 0 (length l))).
  apply NoDup_fmap_2; [|apply NoDup_seq].
  intros i j H.
  change ("student-" ++ ?x)%string
    with (String "s" (String "t" (String "u" (String "d" (String "e"
           (String "n" (String "t" (String "-" x)))))))) in H.
  injection H as H. now apply natToString_inj.
Qed.

(** X23: [processFiles] does nothing on an empty selection, whatever the
    mode.  In single mode more than one file is refused with the
    TooManyFiles error before any file is read; one file that fails to
    parse gives its error; one file that parses is delivered with its
    subjects and metadata, its students in order, unchanged except for
    the identifiers, which become [student-0], [student-1], ... and are
    pairwise distinct. *)
Theorem processFiles_single_mode :
  (forall mode fileArray,
     processFiles mode fileArray = Ignored <-> fileArray = []) /\
  (forall fileArray, (1 < length fileArray)%nat ->
     processFiles single fileArray = Failed TooManyFiles) /\
  (forall file e, parseExcelFile file = Err e ->
     processFiles single [file] = Failed e) /\
  (forall file result, parseExcelFile file = Ok result ->
     exists text final,
       processFiles single [file]
       = Delivered text final (subjects result) (metadata result) /\
       map id final
       = map (fun i => ("student-" ++ natToString i)%string)
           (seq 0 (length (students result))) /\
       NoDup (map id final) /\
       Forall2 (fun delivered parsed =>
                  sameRecord delivered parsed /\
                  sourceClass delivered = sourceClass parsed)
         final (students result)).
Proof.
  split; [|split; [|split]].
  - intros mode fileArray. split.
    + destruct fileArray as [|first others]; [reflexivity|].
      unfold processFiles. destruct mode.
      * destruct (1 <? length (first :: others))%nat; [discriminate|].
        destruct (parseExcelFile first); discriminate.
      * destruct (mergeFiles _ _ _) as [st|e]; [|discriminate].
        destruct (masterMetadata st); discriminate.
    + intros ->. now destruct mode.
  - intros fileArray Hlen. unfold processFiles.
    destruct fileArray as [|first others]; [cbn in Hlen; lia|].
    apply Nat.ltb_lt in Hlen. now rewrite Hlen.
  - intros file e He. cbn. now rewrite He.
  - intros file result Hr. cbn [processFiles length Nat.ltb Nat.leb].
    rewrite Hr. eexists _, _. split; [reflexivity|].
    destruct (single_mode_ids (students result)) as [Hids Hnodup].
    split; [exact Hids|]. split; [exact Hnodup|].
    assert (G : forall (g : nat -> string) l,
      Forall2 (fun delivered parsed =>
                 sameRecord delivered parsed /\
                 sourceClass delivered = sourceClass parsed)
        (imap (fun i s => withId (g i) (sourceClass s) s) l) l).
    { intros g l. revert g.
      induction l as [|s l IH]; intros g; [constructor|].
      rewrite imap_cons. constructor; [|apply (IH (fun i => g (S i)))].
      split; [apply withId_sameRecord|reflexivity]. }
    apply (G (fun i => ("student-" ++ natToString i)%string)).
Qed.

Lemma mergedStudents_cons k0 r results :
  mergedStudents k0 (r :: results)
  = imap (fun i s => withId (compositeId k0 i) (Some (sourceLabel r)) s)
      (students r)
    ++ mergedStudents (S k0) results.
Proof.
  unfold mergedStudents. rewrite imap_cons. cbn [concat].
  rewrite Nat.add_0_r. f_equal. f_equal.
  apply imap_ext. intros j r' _. cbn. now rewrite Nat.add_succ_r.
Qed.

(** One turn of the loop that succeeds. *)
Lemma mergeFile_step k file st st' :
  mergeFile k file st = Ok st' ->
  exists r,
    parseExcelFile file = Ok r /\
    combinedStudents st'
    = combinedStudents st
      ++ imap (fun i s => withId (compositeId k i) (Some (sourceLabel r)) s)
           (students r) /\
    processedCount st' = S (processedCount st) /\
    match masterMetadata st with
    | Some master =>
        level (metadata r) = level master /\
        stream (metadata r) = stream master /\
        masterMetadata st' = Some master /\
        masterSubjects st' = masterSubjects st
    | None =>
        masterMetadata st' = Some (metadata r) /\
        masterSubjects st' = subjects r
    end.
Proof.
  unfold mergeFile. destruct (parseExcelFile file) as [r|e]; [|discriminate].
  intros H. exists r. split; [reflexivity|].
  destruct (masterMetadata st) as [master|].
  - destruct (String.eqb_spec (level (metadata r)) (level master))
      as [Hlevel|]; cbn [negb] in H; [|discriminate].
    destruct (String.eqb_spec (stream (metadata r)) (stream master))
      as [Hstream|]; cbn [negb] in H; [|discriminate].
    injection H as <-. cbn. repeat split; auto.
  - injection H as <-. cbn. repeat split; auto.
Qed.

Lemma mergeFiles_steps : forall files k st st' master,
  masterMetadata st = Some master ->
  mergeFiles k files st = Ok st' ->
  exists results,
    Forall2 (fun file r => parseExcelFile file = Ok r /\
                           level (metadata r) = level master /\
                           stream (metadata r) = stream master)
      files results /\
    combinedStudents st' = combinedStudents st ++ mergedStudents k results /\
    processedCount st' = (processedCount st + length files)%nat /\
    masterMetadata st' = Some master /\
    masterSubjects st' = masterSubjects st.
Proof.
  induction files as [|file files IH]; intros k st st' master Hmaster H;
    cbn [mergeFiles] in H.
  - injection H as <-. exists []. split; [constructor|].
    unfold mergedStudents. cbn. rewrite List.app_nil_r, Nat.add_0_r. auto.
  - destruct (mergeFile k file st) as [st1|e] eqn:Hstep; [|discriminate].
    apply mergeFile_step in Hstep as (r & Hr & Hst & Hcount & Hm).
    rewrite Hmaster in Hm. destruct Hm as (Hlevel & Hstream & Hm1 & Hs1).
    destruct (IH (S k) st1 st' master Hm1 H)
      as (results & Hall & Hst' & Hcount' & Hm' & Hs').
    exists (r :: results). split; [constructor; auto|].
    rewrite mergedStudents_cons, Hst', Hst, <- List.app_assoc.
    split; [reflexivity|]. split; [cbn [length]; lia|].
    split; [exact Hm'|congruence].
Qed.

Lemma mergeFiles_agreeing master : forall files k st,
  masterMetadata st = Some master ->
  Forall (agrees master) files ->
  exists st', mergeFiles k files st = Ok st' /\
              masterMetadata st' = Some master.
Proof.
  induction files as [|file files IH]; intros k st Hmaster Hall;
    cbn [mergeFiles]; [eauto|].
  inversion Hall as [|? ? (r & Hr & Hlevel & Hstream) Hall']; subst.
  pose proof (mergeFile_with_master k file st master Hmaster) as Hstep.
  rewrite Hr, Hlevel, Hstream, !String.eqb_refl in Hstep.
  cbn [negb] in Hstep. destruct Hstep as (st1 & -> & Hm1).
  now apply IH.
Qed.

(** The multi-file branch once the first file is parsed. *)
Lemma processFiles_multi_start (first : File) (others : list File)
    (r0 : ParseResult) :
  parseExcelFile first = Ok r0 ->
  exists st1,
    masterMetadata st1 = Some (metadata r0) /\
    masterSubjects st1 = subjects r0 /\
    combinedStudents st1 = mergedStudents 0 [r0] /\
    processedCount st1 = 1%nat /\
    processFiles multi (first :: others)
    = match mergeFiles 1 others st1 with
      | Err e => Failed e
      | Ok st =>
          match masterMetadata st with
          | None => Failed NoValidData
          | Some master =>
              Delivered
                ("تم دمج " ++ natToString (processedCount st)
                 ++ " ملفات بنجاح! (الإجمالي: "
                 ++ natToString (length (combinedStudents st))
                 ++ " تلميذ)")
                (combinedStudents st) (masterSubjects st) (aggregate master)
          end
      end.
Proof.
  intros Hfirst. cbn [processFiles mergeFiles].
  unfold mergeFile at 1. rewrite Hfirst. cbn [masterMetadata].
  exists {| combinedStudents :=
              [] ++ imap (fun i s =>
                            withId (compositeId 0 i)
                              (Some (if String.eqb (classNumber (metadata r0))
                                          EmptyString
                                     then "?"
                                     else classNumber (metadata r0))) s)
                      (students r0);
            masterSubjects := subjects r0;
            masterMetadata := Some (metadata r0);
            processedCount := 1 |}.
  split; [reflexivity|]. split; [reflexivity|].
  split; [|split; reflexivity].
  cbn [combinedStudents app]. rewrite mergedStudents_cons.
  unfold mergedStudents. cbn. now rewrite List.app_nil_r.
Qed.

(** X24: in multi-file mode a selection is delivered exactly when it is
    not empty, its first file parses, and every other file parses with
    the level and the stream of the first.  A file that cannot be parsed
    stops the batch with its own error when the files before it parse
    and agree; and the errors NoValidData and TooManyFiles never come
    out of this mode. *)
Theorem processFiles_multi_delivers_iff (fileArray : list File) :
  ((exists text merged subjects aggregated,
      processFiles multi fileArray = Delivered text merged subjects aggregated)
   <-> exists first others r0,
         fileArray = first :: others /\ parseExcelFile first = Ok r0 /\
         Forall (agrees (metadata r0)) others) /\
  (forall first others e,
     fileArray = first :: others -> parseExcelFile first = Err e ->
     processFiles multi fileArray = Failed e) /\
  (forall first r0 before bad after e,
     fileArray = first :: before ++ bad :: after ->
     parseExcelFile first = Ok r0 ->
     Forall (agrees (metadata r0)) before ->
     parseExcelFile bad = Err e ->
     processFiles multi fileArray = Failed e) /\
  processFiles multi fileArray <> Failed NoValidData /\
  processFiles multi fileArray <> Failed TooManyFiles.
Proof.
  split; [|split; [|split]].
  - split.
    + intros (text & merged & subjects & aggregated & H).
      destruct fileArray as [|first others]; [discriminate|].
      destruct (parseExcelFile first) as [r0|e] eqn:Hfirst.
      2:{ cbn [processFiles mergeFiles] in H. unfold mergeFile in H.
          rewrite Hfirst in H. discriminate. }
      exists first, others, r0. split; [reflexivity|]. split; [exact Hfirst|].
      destruct (processFiles_multi_start first others r0 Hfirst)
        as (st1 & Hm1 & _ & _ & _ & Heq).
      rewrite Heq in H.
      destruct (mergeFiles 1 others st1) as [st|e] eqn:Hmerge;
        [|discriminate].
      destruct (mergeFiles_steps others 1 st1 st (metadata r0) Hm1 Hmerge)
        as (results & Hall & _).
      clear - Hall. induction Hall as [|file r files results (Hr & Hl & Hs)];
        constructor; [|assumption].
      exists r. auto.
    + intros (first & others & r0 & -> & Hfirst & Hall).
      destruct (processFiles_multi_start first others r0 Hfirst)
        as (st1 & Hm1 & _ & _ & _ & ->).
      destruct (mergeFiles_agreeing (metadata r0) others 1 st1 Hm1 Hall)
        as (st & -> & ->).
      eauto 6.
  - intros first others e -> He.
    cbn [processFiles mergeFiles]. unfold mergeFile. now rewrite He.
  - intros first r0 before bad after e -> Hfirst Hall Hbad.
    destruct (processFiles_multi_start first (before ++ bad :: after) r0
                Hfirst) as (st1 & Hm1 & _ & _ & _ & ->).
    now rewrite (mergeFiles_parse_error (metadata r0) bad e after before 1
                   st1 Hm1 Hall Hbad).
  - destruct fileArray as [|first others]; [split; discriminate|].
    destruct (parseExcelFile first) as [r0|e] eqn:Hfirst.
    + destruct (processFiles_multi_start first others r0 Hfirst)
        as (st1 & Hm1 & _ & _ & _ & ->).
      destruct (mergeFiles 1 others st1) as [st|e] eqn:Hmerge.
      * destruct (mergeFiles_steps others 1 st1 st (metadata r0) Hm1 Hmerge)
          as (_ & _ & _ & _ & -> & _).
        split; discriminate.
      * assert (He : e <> NoValidData /\ e <> TooManyFiles).
        { clear - Hmerge. revert st1 Hmerge. generalize 1%nat.
          induction others as [|file others IH]; intros k st1 H;
            cbn [mergeFiles] in H; [discriminate|].
          destruct (mergeFile k file st1) as [st2|e2] eqn:Hstep.
          - eapply IH; eauto.
          - injection H as <-. unfold mergeFile in Hstep.
            destruct (parseExcelFile file) as [r|e3] eqn:Hparse.
            + destruct (masterMetadata st1) as [master|]; [|discriminate].
              destruct (negb _); [injection Hstep as <-; split; discriminate|].
              destruct (negb _); [injection Hstep as <-; split; discriminate|].
              discriminate.
            + injection Hstep as <-.
              destruct (parse_error_kinds file e3 Hparse)
                as [-> | [[text ->] | [-> | [-> | ->]]]];
                split; discriminate. }
        destruct He. split; congruence.
    + cbn [processFiles mergeFiles]. unfold mergeFile. rewrite Hfirst.
      destruct (parse_error_kinds first e Hfirst)
        as [-> | [[text ->] | [-> | [-> | ->]]]];
        split; discriminate.
Qed.



Lemma find_by_id (l : list Student) (s : Student) :
  NoDup (map id l) -> In s l ->
  List.find (fun x => String.eqb (id x) (id s)) l = Some s.
Proof.
  induction l as [|x l IH]; intros Hnd Hin; [destruct Hin|].
  cbn [map] in Hnd. apply NoDup_cons in Hnd as [Hx Hnd].
  cbn [List.find]. destruct Hin as [->|Hin].
  - now rewrite String.eqb_refl.
  - destruct (String.eqb_spec (id x) (id s)) as [Heq|_]; [|now apply IH].
    exfalso. apply Hx. rewrite Heq. apply list_elem_of_In.
    now apply List.in_map.
Qed.

(** X26: whatever the mode, every student handed to the application can
    be selected in [StudentTracking] by identifier: looking up the
    identifier of a delivered student among the delivered students finds
    that very student, since delivered identifiers are pairwise
    distinct. *)
Theorem delivered_student_found_by_id (mode : UploadMode)
    (fileArray : list File) (text : string) (loaded : list Student)
    (loadedSubjects : list Cell) (loadedMetadata : ClassMetadata)
    (s : Student) :
  processFiles mode fileArray
  = Delivered text loaded loadedSubjects loadedMetadata ->
  In s loaded ->
  NoDup (map id loaded) /\
  StudentTracking.selectedStudent loaded (id s) = Some s.
Proof.
  intros H Hin.
  assert (Hnodup : NoDup (map id loaded)).
  { destruct fileArray as [|first others]; [destruct mode; discriminate|].
    destruct mode.
    - cbn [processFiles] in H.
      destruct (1 <? length (first :: others))%nat; [discriminate|].
      destruct (parseExcelFile first) as [r|e]; [|discriminate].
      injection H as _ <- _ _. apply single_mode_ids.
    - unfold processFiles in H.
      destruct (mergeFiles 0 (first :: others) _) as [st|e] eqn:Hmerge;
        [|discriminate].
      destruct (masterMetadata st); [|discriminate].
      injection H as _ <- _ _.
      apply mergeFiles_ok in Hmerge as (results & _ & Hids).
      cbn [combinedStudents map app] in Hids.
      rewrite Hids. apply compositeIds_NoDup. }
  split; [exact Hnodup|]. unfold StudentTracking.selectedStudent.
  now apply find_by_id.
Qed.

Lemma imap_withId_origin_own (g : nat -> string) (l : list Student)
    (s : Student) :
  In s (imap (fun i s0 => withId (g i) (sourceClass s0) s0) l) ->
  exists s0, In s0 l /\ sameRecord s s0.
Proof.
  intros Hin. apply list_elem_of_In, elem_of_lookup_imap_1 in Hin
    as (i & s0 & -> & Hs0).
  exists s0. split; [|apply withId_sameRecord].
  apply list_elem_of_In. now apply (list_elem_of_lookup_2 l i).
Qed.

Lemma imap_withId_origin (g : nat -> string) (c : option string)
    (l : list Student) (s : Student) :
  In s (imap (fun i s0 => withId (g i) c s0) l) ->
  exists s0, In s0 l /\ sameRecord s s0.
Proof.
  intros Hin. apply list_elem_of_In, elem_of_lookup_imap_1 in Hin
    as (i & s0 & -> & Hs0).
  exists s0. split; [|apply withId_sameRecord].
  apply list_elem_of_In. now apply (list_elem_of_lookup_2 l i).
Qed.

(** Every student gathered by the loop was gathered before or comes from
    one of the files of the loop. *)
Lemma mergeFiles_origin : forall files k st st',
  mergeFiles k files st = Ok st' ->
  forall s, In s (combinedStudents st') ->
    In s (combinedStudents st) \/
    exists file r s0,
      In file files /\ parseExcelFile file = Ok r /\
      In s0 (students r) /\ sameRecord s s0.
Proof.
  induction files as [|file files IH]; intros k st st' H s Hin;
    cbn [mergeFiles] in H.
  - injection H as <-. now left.
  - destruct (mergeFile k file st) as [st1|e] eqn:Hstep; [|discriminate].
    destruct (IH _ _ _ H s Hin) as [Hin1|(f & r & s0 & Hf & Hr & Hs0 & Hsame)].
    + apply mergeFile_step in Hstep as (r & Hr & Hcombined & _).
      rewrite Hcombined in Hin1. apply List.in_app_or in Hin1 as [Hold|Hnew];
        [now left|right].
      apply imap_withId_origin in Hnew as (s0 & Hs0 & Hsame).
      exists file, r, s0. split; [now left|auto].
    + right. exists f, r, s0. split; [now right|auto].
Qed.

(** Every delivered student is a parsed student of one of the files,
    identifier and source class apart. *)
Lemma delivered_origin (mode : UploadMode) (fileArray : list File)
    (text : string) (loaded : list Student) (loadedSubjects : list Cell)
    (loadedMetadata : ClassMetadata) (s : Student) :
  processFiles mode fileArray
  = Delivered text loaded loadedSubjects loadedMetadata ->
  In s loaded ->
  exists file r s0,
    In file fileArray /\ parseExcelFile file = Ok r /\
    In s0 (students r) /\ sameRecord s s0.
Proof.
  intros H Hin.
  destruct fileArray as [|first others]; [destruct mode; discriminate|].
  destruct mode.
  - cbn [processFiles] in H.
    destruct (1 <? length (first :: others))%nat; [discriminate|].
    destruct (parseExcelFile first) as [r|e] eqn:Hr; [|discriminate].
    injection H as _ <- _ _.
    apply imap_withId_origin_own in Hin as (s0 & Hs0 & Hsame).
    exists first, r, s0. split; [now left|auto].
  - unfold processFiles in H.
    destruct (mergeFiles 0 (first :: others) _) as [st|e] eqn:Hmerge;
      [|discriminate].
    destruct (masterMetadata st); [|discriminate].
    injection H as _ <- _ _.
    destruct (mergeFiles_origin _ _ _ _ Hmerge s Hin) as [[]|Horigin].
    exact Horigin.
Qed.

(** X27: the students handed to the application never hold [NaN],
    whatever the mode and the files, and so the views count them in
    full: in every record of the subject analysis of delivered data the
    four bands add up to the number of students graded in the subject,
    and the optional-subject statistics agree with the subject analysis
    in subject, count, average and pass percentage. *)
Theorem delivered_data_fully_counted (mode : UploadMode)
    (fileArray : list File) (text : string) (loaded : list Student)
    (loadedSubjects : list Cell) (loadedMetadata : ClassMetadata) :
  processFiles mode fileArray
  = Delivered text loaded loadedSubjects loadedMetadata ->
  (forall s, In s loaded ->
     isNaN (semesterAverage s) = false /\
     forall key g, grades s !! key = Some g -> isNaN g = false) /\
  (forall subjects stat,
     In stat (DataProcessing.subjectAnalysis loaded subjects) ->
     (countAbove15 stat + count10to14 stat + count8to9 stat
      + countBelow8 stat)%nat
     = length (DataProcessing.gradesOf loaded (subject stat))) /\
  (forall optionalSubjects,
     Forall2 (optionalAgrees True)
       (DataProcessingViews.optionalSubjectsStats loaded optionalSubjects)
       (DataProcessing.subjectAnalysis loaded optionalSubjects)).
Proof.
  intros H.
  assert (Hclean : forall s, In s loaded ->
            isNaN (semesterAverage s) = false /\
            forall key g, grades s !! key = Some g -> isNaN g = false).
  { intros s Hin.
    destruct (delivered_origin _ _ _ _ _ _ s H Hin)
      as (file & r & s0 & _ & Hr & Hs0 & Hsame).
    destruct Hsame as (_ & _ & Hgrades & Havg & _).
    rewrite Hgrades, Havg. exact (parsed_student_clean file r s0 Hr Hs0). }
  split; [exact Hclean|]. split.
  - intros subjects stat Hstat.
    apply In_map_stat in Hstat as (subj & _ & ->).
    cbn [countAbove15 count10to14 count8to9 countBelow8 subject].
    rewrite (proj2 (bands_partition _)).
    f_equal. apply filter_all. apply List.Forall_forall. intros g Hg.
    apply gradesOf_In in Hg as (s & Hs & Hg).
    now rewrite (proj2 (Hclean s Hs) subj g Hg).
  - intros optionalSubjects.
    apply (Forall2_impl _ _ _ _
             (optionalSubjectsStats_agrees loaded optionalSubjects)).
    intros o a (Hsubject & Hcount & Hrest).
    split; [exact Hsubject|]. split; [exact Hcount|]. intros _.
    apply Hrest. intros s subj g Hs Hg.
    exact (proj2 (Hclean s Hs) subj g Hg).
Qed.

End AggregateMoreFacts.

Section MoreSampleFacts.
Import Js Types DataProcessing Ingest Reference Examples.
Import JsBuiltins DataProcessingViews StudentTracking SubjectComparison.
Import ReferenceFormatting ReferenceSorting.

Lemma empty_cache_valid {Args T : Type} (refs : Args -> list nat)
    (fn : Args -> T) (args : Args) :
  cacheValid refs fn None args.
Proof. intros slot Hnone. discriminate Hnone. Qed.

Lemma grade_bands_partition_witness :
  let students := {| ident := 1; elems := classOfThree |} in
  let subjects := {| ident := 2; elems := ["الرياضيات"; "الفيزياء"] |} in
  Forall (fun stat =>
            countAbove10 stat = (countAbove15 stat + count10to14 stat)%nat /\
            (countAbove15 stat + count10to14 stat + count8to9 stat
             + countBelow8 stat)%nat
            = length (List.filter (fun g => negb (isNaN g))
                        (gradesOf classOfThree (subject stat))))
    (fst (getDistributionStats None (students, subjects))).
Proof.
  intros students subjects. apply List.Forall_forall. intros stat Hin.
  apply (grade_bands_partition students subjects None None stat).
  - apply empty_cache_valid.
  - apply empty_cache_valid.
  - right. exact Hin.
Defined.

Lemma memoize_transparent_witness :
  let first := {| ident := 1; elems := classOfThree |} in
  let second := {| ident := 2; elems := [] |} in
  callAll studentsRef globalSemesterStatsOf None [first; first; second; first]
  = map globalSemesterStatsOf [first; first; second; first].
Proof.
  intros first second.
  apply (memoize_transparent studentsRef globalSemesterStatsOf).
  intros a b Ha Hb.
  destruct Ha as [<-|[<-|[<-|[<-|[]]]]];
    destruct Hb as [<-|[<-|[<-|[<-|[]]]]];
    intros Hrefs; try reflexivity; discriminate Hrefs.
Defined.

Lemma semester_and_category_stats_agree_witness :
  let students := {| ident := 1; elems := classOfThree |} in
  SemesterStats.countAbove10 (fst (getGlobalSemesterStats None students))
  = successfulStudents (fst (getCategoryGlobalStats None students)) /\
  SemesterStats.passPercentage (fst (getGlobalSemesterStats None students))
  = overallSuccessRate (fst (getCategoryGlobalStats None students)).
Proof.
  intros students.
  apply (semester_and_category_stats_agree students None None);
    apply empty_cache_valid.
Defined.

Lemma getCategoryGlobalStats_counts_consistent_witness :
  let students := {| ident := 1; elems := classOfThree |} in
  let stats := fst (getCategoryGlobalStats None students) in
  (totalFemales stats + totalMales classOfThree)%nat = 3%nat /\
  (successfulFemales stats + successfulMales stats
   <= successfulStudents stats)%nat.
Proof.
  intros students stats.
  destruct (getCategoryGlobalStats_counts_consistent students None
              (empty_cache_valid _ _ _))
    as (Htotal & Hsum & _ & _ & Hsuccess & _).
  fold stats in Htotal, Hsum, Hsuccess.
  split; [|exact Hsuccess].
  change (elems students) with classOfThree in Hsum, Htotal.
  rewrite Hsum, Htotal. reflexivity.
Defined.

Lemma getGeneralSubjectSummary_extremes_witness :
  let students := {| ident := 1; elems := classOfThree |} in
  let subjects := {| ident := 2; elems := ["الرياضيات"; "الفيزياء"] |} in
  Forall (fun row =>
            GeneralSubjectStats.studentCount row
            = length (gradesOf classOfThree (GeneralSubjectStats.subject row)) /\
            (GeneralSubjectStats.countAbove15 row
             + GeneralSubjectStats.countBelow10 row
             <= GeneralSubjectStats.studentCount row)%nat)
    (fst (getGeneralSubjectSummary None (students, subjects))).
Proof.
  intros students subjects. apply List.Forall_forall. intros row Hin.
  destruct (getGeneralSubjectSummary_extremes students subjects None row
              (empty_cache_valid _ _ _) Hin) as (Hcount & Hbound & _).
  split; [exact Hcount|exact Hbound].
Defined.

Lemma getRepeaterStats_partition_witness :
  let students := {| ident := 1; elems := studentsOf fileA |} in
  let subjects := {| ident := 2; elems := ["الرياضيات"; "الفيزياء"] |} in
  let stats := fst (getRepeaterStats None (students, subjects)) in
  (RepeaterStats.femaleRepeaters stats + RepeaterStats.maleRepeaters stats)%nat
  = RepeaterStats.totalRepeaters stats /\
  map SubjectAverage.subject (RepeaterStats.subjectPerformance stats)
    ≡ₚ ["الرياضيات"; "الفيزياء"].
Proof.
  intros students subjects stats.
  destruct (getRepeaterStats_partition students subjects None
              (empty_cache_valid _ _ _))
    as (_ & _ & Hsum & _ & Hperm & _).
  split; [exact Hsum|exact Hperm].
Defined.

Lemma getRepeaterStats_weakest_first_witness :
  let students := {| ident := 1; elems := classWithRepeaters |} in
  let subjects := {| ident := 2; elems := ["الرياضيات"; "الفيزياء"] |} in
  let ranking :=
    RepeaterStats.subjectPerformance
      (fst (getRepeaterStats None (students, subjects))) in
  map SubjectAverage.subject ranking = ["الفيزياء"; "الرياضيات"] /\
  map SubjectAverage.average ranking = [6%float; 10%float] /\
  exists weakest other,
    ranking !! 0%nat = Some weakest /\ ranking !! 1%nat = Some other /\
    (SubjectAverage.average weakest <=? SubjectAverage.average other)%float
    = true /\
    (SubjectAverage.average other <? SubjectAverage.average weakest)%float
    = false.
Proof.
  intros students subjects ranking.
  split; [vm_compute; reflexivity|]. split; [vm_compute; reflexivity|].
  destruct (ranking !! 0%nat) as [weakest|] eqn:Hweakest;
    [|vm_compute in Hweakest; discriminate Hweakest].
  destruct (ranking !! 1%nat) as [other|] eqn:Hother;
    [|vm_compute in Hother; discriminate Hother].
  exists weakest, other. split; [reflexivity|]. split; [reflexivity|].
  assert (Hfinite : Forall
            (fun entry => isFinite (SubjectAverage.average entry) = true)
            ranking) by (vm_compute; repeat constructor).
  destruct (getRepeaterStats_weakest_first students subjects None
              (empty_cache_valid _ _ _) Hfinite) as [Hall _].
  exact (Hall 0%nat 1%nat weakest other ltac:(lia) Hweakest Hother).
Defined.

Lemma getOptionalSubjectsStats_matches_analysis_witness :
  let students := {| ident := 1; elems := classOfThree |} in
  let optionalSubjects := {| ident := 2; elems := ["الفيزياء"] |} in
  Forall2 (optionalAgrees
             (forall s subj g, In s classOfThree ->
                grades s !! subj = Some g -> isNaN g = false))
    (fst (getOptionalSubjectsStats None (students, optionalSubjects)))
    (fst (getSubjectAnalysis None (students, optionalSubjects))).
Proof.
  intros students optionalSubjects.
  apply (getOptionalSubjectsStats_matches_analysis students optionalSubjects
           None None); apply empty_cache_valid.
Defined.

Lemma summaryStats_rank_within_class_witness :
  exists stats,
    summaryStats (Some (student "s0" (Text "ذكر") 12%float
                          (<["الرياضيات" := 12.5%float]>
                             (<["الفيزياء" := 9%float]> ∅))))
      classOfThree = Some stats /\
    (1 <= SummaryStats.rank stats <= SummaryStats.totalStudents stats)%nat.
Proof.
  destruct (summaryStats_rank_within_class classOfThree "s0"
              (student "s0" (Text "ذكر") 12%float
                 (<["الرياضيات" := 12.5%float]>
                    (<["الفيزياء" := 9%float]> ∅))) eq_refl)
    as (_ & _ & stats & Hstats & _ & _ & _ & Hrank).
  exists stats. split; [exact Hstats|exact Hrank].
Defined.

Lemma summaryStats_rank_follows_average_witness :
  exists statsA statsB,
    summaryStats (Some (student "s1" (Text "أنثى") 15%float
                          (<["الرياضيات" := 16%float]> ∅)))
      classOfThree = Some statsA /\
    summaryStats (Some (student "s2" (Text "غير محدد") 10%float
                          (<["الفيزياء" := 7%float]> ∅)))
      classOfThree = Some statsB /\
    (SummaryStats.rank statsA < SummaryStats.rank statsB)%nat.
Proof.
  eexists _, _. split; [reflexivity|]. split; [reflexivity|].
  refine (proj1 (proj2 (summaryStats_rank_follows_average classOfThree
    (student "s1" (Text "أنثى") 15%float (<["الرياضيات" := 16%float]> ∅))
    (student "s2" (Text "غير محدد") 10%float (<["الفيزياء" := 7%float]> ∅))
    _ _ _ eq_refl eq_refl)) eq_refl).
  right. left. reflexivity.
Defined.

Lemma tableData_rows_witness :
  let students := {| ident := 1; elems := classOfThree |} in
  let subjects := {| ident := 2; elems := ["الرياضيات"; "الفيزياء"] |} in
  let selected :=
    student "s1" (Text "أنثى") 15%float (<["الرياضيات" := 16%float]> ∅) in
  map Row.subject
    (tableData (Some selected) (elems subjects) (elems students)
       (fst (getSubjectAnalysis None (students, subjects))))
  = ["الرياضيات"; "الفيزياء"; SEMESTER_AVERAGE].
Proof.
  intros students subjects selected.
  exact (proj1 (tableData_rows students subjects None selected
                  (empty_cache_valid _ _ _))).
Defined.

Lemma parsed_students_are_named_rows_witness :
  exists result,
    parseExcelFile fileA = Ok result /\
    NoDup (map id (students result)) /\
    (length (students result)
     <= length (removelast (tail (popBlankRows
          (drop (headerRowIndex firstYearClass1) firstYearClass1)))))%nat.
Proof.
  destruct (parsed_inv fileA) as (result & Hparse);
    [vm_compute; reflexivity|].
  exists result. split; [exact Hparse|].
  destruct (parsed_students_are_named_rows fileA firstYearClass1 result
              eq_refl Hparse) as (_ & _ & Hnodup & Hlen).
  split; [exact Hnodup|exact Hlen].
Defined.

Lemma parsed_numbers_are_not_nan_witness :
  exists result s,
    parseExcelFile fileA = Ok result /\ In s (students result) /\
    isNaN (semesterAverage s) = false.
Proof.
  destruct (parsed_inv fileA) as (result & Hparse);
    [vm_compute; reflexivity|].
  assert (Hlen : length (studentsOf fileA) = 2%nat)
    by (vm_compute; reflexivity).
  rewrite (studentsOf_ok _ _ Hparse) in Hlen.
  destruct (students result) as [|s rest] eqn:Hstudents; [discriminate|].
  assert (Hin : In s (students result)) by (rewrite Hstudents; now left).
  exists result, s. split; [exact Hparse|]. split; [exact Hin|].
  exact (proj1 (parsed_numbers_are_not_nan fileA result s Hparse Hin)).
Defined.

Lemma parsed_grade_from_last_column_witness :
  exists result s,
    parseExcelFile fileTwice = Ok result /\ In s (students result) /\
    drop 5 (originalRow s)
    = [Number 10%float; Number 14%float; Number 12%float] /\
    grades s !! "الرياضيات" = Some 14%float.
Proof.
  destruct (parsed_inv fileTwice) as (result & Hparse);
    [vm_compute; reflexivity|].
  assert (Hrows : map originalRow (studentsOf fileTwice) = [rowTwice])
    by (vm_compute; reflexivity).
  rewrite (studentsOf_ok _ _ Hparse) in Hrows.
  destruct (students result) as [|s rest] eqn:Hstudents; [discriminate|].
  injection Hrows as Hrow _.
  assert (Hin : In s (students result)) by (rewrite Hstudents; now left).
  exists result, s. split; [exact Hparse|]. split; [exact Hin|].
  split; [rewrite Hrow; reflexivity|].
  pose proof (parsed_grade_from_last_column fileTwice sheetTwice result s
                "الرياضيات" eq_refl Hparse Hin) as H.
  cbv zeta in H. rewrite Hrow in H.
  apply (proj1 H). split; [discriminate|].
  exists 1%nat. split.
  - exists (Text "الرياضيات").
    split; [vm_compute; reflexivity|]. split; reflexivity.
  - intros j g' Hj (subj & Hl & _). apply lookup_lt_Some in Hl.
    change (length (candidateSubjects
                      (nth (headerRowIndex sheetTwice) sheetTwice [])))
      with 2%nat in Hl.
    lia.
Defined.

Lemma parsed_subjects_are_graded_columns_witness :
  exists result,
    parseExcelFile fileWithHole = Ok result /\
    candidateSubjects headerWithHole
    = [Text "الرياضيات"; Empty; Text "الفيزياء"] /\
    In (Text "الرياضيات") (subjects result) /\
    ~ In Empty (subjects result) /\
    ~ In (Text "الفيزياء") (subjects result).
Proof.
  destruct (parsed_inv fileWithHole) as (result & Hparse);
    [vm_compute; reflexivity|].
  assert (Hmath : map (fun s => grades s !! "الرياضيات")
                    (studentsOf fileWithHole) = [Some 12%float])
    by (vm_compute; reflexivity).
  assert (Hphys : map (fun s => grades s !! "الفيزياء")
                    (studentsOf fileWithHole) = [None])
    by (vm_compute; reflexivity).
  rewrite (studentsOf_ok _ _ Hparse) in Hmath, Hphys.
  destruct (parsed_subjects_are_graded_columns fileWithHole
              [headerWithHole; rowUnderHole; summaryRow] result eq_refl
              Hparse) as (_ & _ & Hiff & Hhole & _).
  exists result. split; [exact Hparse|]. split; [reflexivity|].
  destruct (students result) as [|s rest]; [discriminate|].
  destruct rest; [|discriminate].
  injection Hmath as Hmath. injection Hphys as Hphys.
  split; [|split; [exact Hhole|]].
  - apply Hiff. split; [vm_compute; auto|].
    exists "الرياضيات", s, 12%float.
    split; [reflexivity|]. split; [now left|]. split; [exact Hmath|reflexivity].
  - intros Hin. apply Hiff in Hin as (_ & key & s' & g & Hkey & Hs & Hg & _).
    injection Hkey as <-. destruct Hs as [<-|[]]. congruence.
Defined.


Lemma delivered_student_found_by_id_witness :
  exists text loaded loadedSubjects loadedMetadata s,
    processFiles multi [fileA; fileB]
    = Delivered text loaded loadedSubjects loadedMetadata /\
    In s loaded /\ id s = "f0-s0" /\
    StudentTracking.selectedStudent loaded "f0-s0" = Some s.
Proof.
  assert (Hids : map id (delivered (processFiles multi [fileA; fileB]))
                 = ["f0-s0"; "f0-s1"; "f1-s0"])
    by (vm_compute; reflexivity).
  destruct (delivered_inv (processFiles multi [fileA; fileB]))
    as (text & loaded & loadedSubjects & loadedMetadata & Hout & Hloaded).
  { intros Hnone. rewrite Hnone in Hids. discriminate Hids. }
  rewrite Hloaded in Hids.
  destruct loaded as [|s rest] eqn:Hlist; [discriminate Hids|].
  injection Hids as Hid _.
  assert (Hin : In s (s :: rest)) by now left.
  exists text, (s :: rest), loadedSubjects, loadedMetadata, s.
  split; [exact Hout|]. split; [exact Hin|]. split; [exact Hid|].
  rewrite <- Hid.
  exact (proj2 (delivered_student_found_by_id multi [fileA; fileB] text
                  (s :: rest) loadedSubjects loadedMetadata s Hout Hin)).
Defined.

Lemma delivered_data_fully_counted_witness :
  exists text loaded loadedSubjects loadedMetadata,
    processFiles multi [fileA; fileB]
    = Delivered text loaded loadedSubjects loadedMetadata /\
    length loaded = 3%nat /\
    Forall (fun s => isNaN (semesterAverage s) = false) loaded /\
    Forall (fun stat =>
              (countAbove15 stat + count10to14 stat + count8to9 stat
               + countBelow8 stat)%nat
              = length (gradesOf loaded (subject stat)))
      (subjectAnalysis loaded ["الرياضيات"; "الفيزياء"]).
Proof.
  assert (Hids : map id (delivered (processFiles multi [fileA; fileB]))
                 = ["f0-s0"; "f0-s1"; "f1-s0"])
    by (vm_compute; reflexivity).
  destruct (delivered_inv (processFiles multi [fileA; fileB]))
    as (text & loaded & loadedSubjects & loadedMetadata & Hout & Hloaded).
  { intros Hnone. rewrite Hnone in Hids. discriminate Hids. }
  rewrite Hloaded in Hids.
  destruct (delivered_data_fully_counted multi [fileA; fileB] text loaded
              loadedSubjects loadedMetadata Hout) as (Hclean & Hbands & _).
  exists text, loaded, loadedSubjects, loadedMetadata.
  split; [exact Hout|]. split.
  { rewrite <- (length_map id), Hids. reflexivity. }
  split; apply List.Forall_forall.
  - intros s Hs. exact (proj1 (Hclean s Hs)).
  - intros stat Hstat. exact (Hbands _ stat Hstat).
Defined.

End MoreSampleFacts.
